(** * Recipe recommender over a knowledge graph: graph construction and ranking

    A shallow embedding of [backend/core/graph_triples.py],
    [backend/core/model.py], [backend/core/recommender.py],
    [backend/core/data_loading.py] and [backend/routers/recommend.py].

    Conventions of the embedding.
    - A Python [str] is a [string] whose characters are the code points
      0..255 (ASCII and Latin-1); [str.lower], [str.strip] and [repr] are
      written out for that range.
    - A Python [float] score is a rational number ([Q]), computed without
      rounding; equalities between scores are stated with [==].
    - A pandas [DataFrame] is the list of its rows, in row order.
    - Library routines whose result the source does not determine
      ([ast.literal_eval], [int] of a text, [==] between cells that are not
      texts, the embedding model behind [predict_target], the order
      [sort_values] gives to equal scores) are parameters. *)

From Stdlib Require Import Bool Arith ZArith NArith QArith Qminmax Lia Lqa List.
From Stdlib Require Import Ascii String DecimalString DecimalPos DecimalZ.
From Stdlib Require Import Permutation Sorted FinFun OrderedTypeEx.
Import ListNotations.

Open Scope string_scope.
Open Scope list_scope.

(** ** Python string primitives *)

Module Py.

(** [c.isspace()] for a code point below 256. *)
Definition isspace (c : ascii) : bool :=
  let n := N_of_ascii c in
  (((9 <=? n) && (n <=? 13)) || ((28 <=? n) && (n <=? 32))
   || (n =? 133) || (n =? 160))%N.

(** [c.lower()] for a code point below 256: A..Z and the Latin-1 capitals
    (U+00C0..U+00DE without the multiplication sign) move up by 32. *)
Definition lower_char (c : ascii) : ascii :=
  let n := N_of_ascii c in
  if (((65 <=? n) && (n <=? 90))
      || ((192 <=? n) && (n <=? 222) && negb (n =? 215)))%N
  then ascii_of_N (n + 32) else c.

(** [s.lower()] *)
Fixpoint lower (s : string) : string :=
  match s with
  | EmptyString => EmptyString
  | String c r => String (lower_char c) (lower r)
  end.

(** [s.lstrip()] *)
Fixpoint lstrip (s : string) : string :=
  match s with
  | EmptyString => EmptyString
  | String c r => if isspace c then lstrip r else s
  end.

(** [s.rstrip()] *)
Fixpoint rstrip (s : string) : string :=
  match s with
  | EmptyString => EmptyString
  | String c r =>
      match rstrip r with
      | EmptyString => if isspace c then EmptyString else String c EmptyString
      | r' => String c r'
      end
  end.

(** [s.strip()] *)
Definition strip (s : string) : string := rstrip (lstrip s).

(** [s.startswith(p)] *)
Definition startswith (s p : string) : bool := prefix p s.

(** [sub in s] *)
Fixpoint contains (sub s : string) : bool :=
  if prefix sub s then true
  else match s with
       | EmptyString => false
       | String _ r => contains sub r
       end.

(** [s.split(sep)] for a non-empty [sep] (Python raises [ValueError] on an
    empty separator; every call of the source passes a non-empty literal).
    [split_from sep s skip] returns the piece that is being read and the
    pieces after it; [skip] counts the characters of a separator found
    earlier that are still to be passed over. *)
Fixpoint split_from (sep s : string) (skip : nat) : string * list string :=
  match s with
  | EmptyString => (EmptyString, [])
  | String c r =>
      match skip with
      | S k => split_from sep r k
      | O =>
          if prefix sep s
          then let '(p, ps) := split_from sep r (String.length sep - 1) in
               (EmptyString, p :: ps)
          else let '(p, ps) := split_from sep r 0 in
               (String c p, ps)
      end
  end.

Definition split (sep s : string) : list string :=
  let '(p, ps) := split_from sep s 0 in p :: ps.

(** [s.split(sep, 1)]: cut at the first occurrence of [sep] only. *)
Fixpoint split1 (sep s : string) : list string :=
  if prefix sep s then [EmptyString; substring (String.length sep) (String.length s) s]
  else match s with
       | EmptyString => [EmptyString]
       | String c r =>
           match split1 sep r with
           | [p] => [String c p]
           | p :: q => String c p :: q
           | [] => []
           end
       end.

(** A Python truth test on a [str]: the empty string is false. *)
Definition truthy_str (s : string) : bool := negb (s =? "").

(** [str(z)] and [repr(z)] of a Python [int]. *)
Definition str_int (z : Z) : string := NilZero.string_of_int (Z.to_int z).

Definition quote : ascii := "'"%char.
Definition dquote : ascii := ascii_of_nat 34.
Definition backslash : ascii := "\"%char.

Definition hex_digit (n : N) : ascii :=
  (if n <? 10 then ascii_of_N (48 + n) else ascii_of_N (87 + n))%N.

(** The code points below 256 that [repr] writes as they are. *)
Definition isprintable (c : ascii) : bool :=
  let n := N_of_ascii c in
  (((32 <=? n) && (n <=? 126)) || ((161 <=? n) && negb (n =? 173)))%N.

Definition repr_char (q c : ascii) : string :=
  let n := N_of_ascii c in
  if Ascii.eqb c q || Ascii.eqb c backslash then String backslash (String c "")
  else if (n =? 9)%N then String backslash "t"
  else if (n =? 10)%N then String backslash "n"
  else if (n =? 13)%N then String backslash "r"
  else if isprintable c then String c ""
  else String backslash
         (String "x" (String (hex_digit (n / 16)) (String (hex_digit (n mod 16)) ""))).

Fixpoint repr_body (q : ascii) (s : string) : string :=
  match s with
  | EmptyString => EmptyString
  | String c r => repr_char q c ++ repr_body q r
  end.

(** [repr(s)] of a [str]: single quotes, unless the text has a single quote
    and no double quote. *)
Definition repr_str (s : string) : string :=
  let q := if contains (String quote "") s && negb (contains (String dquote "") s)
           then dquote else quote in
  String q (repr_body q s ++ String q "").

(** Reading back the body of a string literal up to its closing quote [q]:
    the text read and what follows the quote. It inverts [repr_body]. *)
Definition hex_value (c : ascii) : N :=
  let n := N_of_ascii c in
  (if n <? 58 then n - 48 else n - 87)%N.

Definition unescape (b : ascii) : ascii :=
  if Ascii.eqb b "t" then ascii_of_N 9
  else if Ascii.eqb b "n" then ascii_of_N 10
  else if Ascii.eqb b "r" then ascii_of_N 13
  else b.

Fixpoint unrepr_body (q : ascii) (s : string) : option (string * string) :=
  match s with
  | EmptyString => None
  | String a r =>
      if Ascii.eqb a q then Some (EmptyString, r)
      else if Ascii.eqb a backslash then
        match r with
        | EmptyString => None
        | String b r' =>
            if Ascii.eqb b "x" then
              match r' with
              | String h1 (String h2 r'') =>
                  match unrepr_body q r'' with
                  | Some (d, rest) =>
                      Some (String (ascii_of_N (16 * hex_value h1 + hex_value h2)) d,
                            rest)
                  | None => None
                  end
              | _ => None
              end
            else
              match unrepr_body q r' with
              | Some (d, rest) => Some (String (unescape b) d, rest)
              | None => None
              end
        end
      else
        match unrepr_body q r with
        | Some (d, rest) => Some (String a d, rest)
        | None => None
        end
  end.

End Py.

(** ** Values of unknown type

    A cell of a recipe record is typed [Any]: a [str], [None], or some other
    object (pandas gives [nan] for a missing cell), of which the source uses
    only its truth value, its inequality with a [str] and its [str()]. *)

Inductive pyobj : Type :=
| PyNone
| PyStr (s : string)
| PyOther (truth : bool) (text : string).

Definition truthy (o : pyobj) : bool :=
  match o with
  | PyNone => false
  | PyStr s => Py.truthy_str s
  | PyOther b _ => b
  end.

(** [o != s] for a [str] [s]. *)
Definition ne_str (o : pyobj) (s : string) : bool :=
  match o with
  | PyStr t => negb (t =? s)
  | _ => true
  end.

(** [str(o)] *)
Definition str (o : pyobj) : string :=
  match o with
  | PyNone => "None"
  | PyStr s => s
  | PyOther _ t => t
  end.

(** [d.get(k, default)] on a dict kept as an association list. *)
Fixpoint dict_get {V : Type} (d : list (string * V)) (k : string) (default : V) : V :=
  match d with
  | [] => default
  | (k', v) :: r => if k' =? k then v else dict_get r k default
  end.

(** [d[k] = v] *)
Fixpoint dict_set {V : Type} (d : list (string * V)) (k : string) (v : V)
  : list (string * V) :=
  match d with
  | [] => [(k, v)]
  | (k', v') :: r => if k' =? k then (k, v) :: r else (k', v') :: dict_set r k v
  end.

(** ** Tables of recipe rows

    A pandas [DataFrame] of recipes: the names of its columns and its rows.
    A row is given by its [RecipeId], an integer, and by its other cells; a
    cell is a value or missing. *)

Inductive cell : Type :=
| NaN
| Val (o : pyobj).

(** The Python object in a cell; the missing value [nan] is a float, true in
    a test and printed as "nan". *)
Definition cell_obj (c : cell) : pyobj :=
  match c with
  | NaN => PyOther true "nan"
  | Val o => o
  end.

(** [pd.isna(c)] *)
Definition isna (c : cell) : bool :=
  match c with
  | NaN => true
  | Val PyNone => true
  | Val _ => false
  end.

Definition row : Type := Z * (string -> cell).

Record DataFrame : Type := mkDataFrame {
  columns : list string;
  rows : list row
}.

(** [col in df.columns] *)
Definition has_column (df : DataFrame) (col : string) : bool :=
  existsb (String.eqb col) (columns df).

(** [row[col]]; the integer of [RecipeId] is true unless 0 and is printed in
    decimal. *)
Definition row_cell (r : row) (col : string) : pyobj :=
  if col =? "RecipeId"
  then PyOther (negb (Z.eqb (fst r) 0)) (Py.str_int (fst r))
  else cell_obj (snd r col).

(** ** graph_triples.py *)

Module graph_triples.

Definition UNKNOWN_PLACEHOLDER : string := "unknown".

Definition map_health_attribute (element : string) : string :=
  let e := Py.lower element in
  if Py.contains "protein" e then "HasProteinLevel"
  else if Py.contains "carb" e then "HasCarbLevel"
  else if Py.contains "fat" e && negb (Py.contains "saturated" e) then "HasFatLevel"
  else if Py.contains "saturated_fat" e then "HasSaturatedFatLevel"
  else if Py.contains "calorie" e then "HasCalorieLevel"
  else if Py.contains "sodium" e then "HasSodiumLevel"
  else if Py.contains "sugar" e then "HasSugarLevel"
  else if Py.contains "fiber" e then "HasFiberLevel"
  else if Py.contains "cholesterol" e then "HasCholesterolLevel"
  else "HasHealthAttribute".

Definition split_and_clean (value delimiter : string) : list string :=
  map Py.strip
      (filter (fun v => Py.truthy_str (Py.strip v)) (Py.split delimiter value)).

(** *** The graph: a networkx [DiGraph] *)

(** The second component of a node identifier: a recipe id or a text. *)
Inductive nval : Type :=
| VInt (z : Z)
| VStr (s : string).

Definition nval_eqb (a b : nval) : bool :=
  match a, b with
  | VInt x, VInt y => Z.eqb x y
  | VStr x, VStr y => String.eqb x y
  | _, _ => false
  end.

Definition node : Type := string * nval.

Definition node_eqb (a b : node) : bool :=
  String.eqb (fst a) (fst b) && nval_eqb (snd a) (snd b).

Definition attrs : Type := list (string * nval).
Definition edge : Type := node * node * string.

(** Nodes with their attributes and edges with their [relation], both in
    insertion order. A [DiGraph] holds at most one edge per ordered pair. *)
Record DiGraph : Type := mkDiGraph {
  nodes : list (node * attrs);
  edges : list edge
}.

Definition empty_graph : DiGraph := mkDiGraph [] [].

Definition has_node (G : DiGraph) (n : node) : bool :=
  existsb (fun p => node_eqb (fst p) n) (nodes G).

Definition has_edge (G : DiGraph) (u v : node) : bool :=
  existsb (fun e => node_eqb (fst (fst e)) u && node_eqb (snd (fst e)) v) (edges G).

Definition update_attrs (old new : attrs) : attrs :=
  fold_left (fun d kv => dict_set d (fst kv) (snd kv)) new old.

(** [G.add_node(n, **a)]: a new node is appended, a known one has its
    attributes updated. *)
Definition add_node (G : DiGraph) (n : node) (a : attrs) : DiGraph :=
  if has_node G n
  then mkDiGraph
         (map (fun p => if node_eqb (fst p) n then (fst p, update_attrs (snd p) a) else p)
              (nodes G))
         (edges G)
  else mkDiGraph (nodes G ++ [(n, a)]) (edges G).

(** [G.add_edge(u, v, relation=r)]: missing end points become nodes without
    attributes; an edge already there has its relation overwritten. *)
Definition add_edge (G : DiGraph) (u v : node) (r : string) : DiGraph :=
  let G1 := if has_node G u then G else mkDiGraph (nodes G ++ [(u, [])]) (edges G) in
  let G2 := if has_node G1 v then G1 else mkDiGraph (nodes G1 ++ [(v, [])]) (edges G1) in
  if has_edge G2 u v
  then mkDiGraph (nodes G2)
         (map (fun e => if node_eqb (fst (fst e)) u && node_eqb (snd (fst e)) v
                        then (u, v, r) else e)
              (edges G2))
  else mkDiGraph (nodes G2) (edges G2 ++ [(u, v, r)]).

(** What [add_edge] does to the list of edges. *)
Definition put_edge (es : list edge) (e : edge) : list edge :=
  let same := fun e' : edge =>
                node_eqb (fst (fst e')) (fst (fst e))
                && node_eqb (snd (fst e')) (snd (fst e)) in
  if existsb same es
  then map (fun e' => if same e' then e else e') es
  else es ++ [e].

(** [G.has_edge(u, v)] with the relation [r]. *)
Definition has_edge_rel (G : DiGraph) (u v : node) (r : string) : bool :=
  existsb (fun e => node_eqb (fst (fst e)) u && node_eqb (snd (fst e)) v
                    && String.eqb (snd e) r)
          (edges G).

(** [str(n)] of a node identifier, a Python pair. *)
Definition repr_nval (v : nval) : string :=
  match v with
  | VInt z => Py.str_int z
  | VStr s => Py.repr_str s
  end.

Definition node_str (n : node) : string :=
  "(" ++ Py.repr_str (fst n) ++ ", " ++ repr_nval (snd n) ++ ")".

Definition triple : Type := string * string * string.
Definition state : Type := DiGraph * list triple.

(** The guard [x and x != UNKNOWN_PLACEHOLDER and str(x).strip() != ""], which
    the source writes out at each of its four uses. *)
Definition has_value (x : pyobj) : bool :=
  truthy x && ne_str x UNKNOWN_PLACEHOLDER && negb (Py.strip (str x) =? "").

(** The block that ends every branch of the loop body: ensure the attribute
    node, add the edge, append the triple. *)
Definition attach (recipe_node node_id : node) (node_type label relation : string)
           (st : state) : state :=
  let '(G, triples) := st in
  let G := if negb (has_node G node_id)
           then add_node G node_id [("type", VStr node_type); ("label", VStr label)]
           else G in
  let G := add_edge G recipe_node node_id relation in
  (G, triples ++ [(node_str recipe_node, relation, node_str node_id)]).

Definition attribute_mappings : list (string * (string * string)) :=
  [ ("Cooking_Method", ("usesCookingMethod", "cooking_method"));
    ("servings_bin", ("hasServingsBin", "servings_bin"));
    ("cook_time", ("hasCookTime", "cook_time"));
    ("CuisineRegion", ("hasCuisineRegion", "cuisine_region")) ].

Definition list_attributes : list (string * (string * string * string)) :=
  [ ("Diet_Types", ("hasDietType", "diet_type", ","));
    ("meal_type", ("isForMealType", "meal_type", ",")) ].

Definition ingredient_relation : string := "containsIngredient".
Definition ingredient_node_type : string := "ingredient".
Definition ingredient_delimiter : string := ";".

Definition details : Type := list (string * pyobj).

(** One turn of the loop over [attribute_mappings]. *)
Definition single_value_step (recipe_node : node) (d : details) (st : state)
           (m : string * (string * string)) : state :=
  let '(col, (relation, node_type)) := m in
  let element := dict_get d col PyNone in
  if has_value element
  then let element_clean := Py.strip (str element) in
       attach recipe_node (node_type, VStr element_clean) node_type element_clean
              relation st
  else st.

Definition healthy_step (recipe_node : node) (d : details) (st : state) : state :=
  let healthy := dict_get d "Healthy_Type" PyNone in
  if has_value healthy
  then fold_left
         (fun st element =>
            if Py.truthy_str element
            then attach recipe_node ("health_attribute", VStr element)
                        "health_attribute" element (map_health_attribute element) st
            else st)
         (split_and_clean (str healthy) ",") st
  else st.

(** One turn of the loop over [list_attributes]. *)
Definition list_value_step (recipe_node : node) (d : details) (st : state)
           (m : string * (string * string * string)) : state :=
  let '(col, (relation, node_type, delimiter)) := m in
  let value := dict_get d col PyNone in
  if has_value value
  then fold_left
         (fun st element =>
            if Py.truthy_str element
            then attach recipe_node (node_type, VStr element) node_type element
                        relation st
            else st)
         (split_and_clean (str value) delimiter) st
  else st.

Definition ingredients_step (recipe_node : node) (d : details) (st : state) : state :=
  let best_usda := dict_get d "BestUsdaIngredientName" PyNone in
  if has_value best_usda
  then fold_left
         (fun st ingredient =>
            if Py.truthy_str ingredient
            then attach recipe_node ("ingredient", VStr (Py.lower ingredient))
                        ingredient_node_type ingredient ingredient_relation st
            else st)
         (split_and_clean (str best_usda) ingredient_delimiter) st
  else st.

(** The body of [for recipe_id, details in recipes.items()]. *)
Definition recipe_step (st : state) (item : Z * details) : state :=
  let '(recipe_id, d) := item in
  let recipe_node : node := ("recipe", VInt recipe_id) in
  let st := (add_node (fst st) recipe_node
                      [("type", VStr "recipe"); ("RecipeId", VInt recipe_id)],
             snd st) in
  let st := fold_left (single_value_step recipe_node d) attribute_mappings st in
  let st := healthy_step recipe_node d st in
  let st := fold_left (list_value_step recipe_node d) list_attributes st in
  ingredients_step recipe_node d st.

(** [recipes] is the dict in insertion order; its keys are integer recipe
    ids. The returned array of triples is the list of its rows. *)
Definition create_graph_and_triples (recipes : list (Z * details)) : state :=
  fold_left recipe_step recipes (empty_graph, []).

(** *** What a record asks for

    The loop body, read as data: the attachments that a record makes, in the
    order of the source, each with the arguments it gives to [attach]. *)

Record link : Type := mkLink {
  link_node : node;
  link_type : string;
  link_label : string;
  link_relation : string
}.

Definition attach_link (recipe_node : node) (st : state) (l : link) : state :=
  attach recipe_node (link_node l) (link_type l) (link_label l) (link_relation l) st.

Definition single_value_links (d : details) : list link :=
  flat_map
    (fun m : string * (string * string) =>
       let '(col, (relation, node_type)) := m in
       let element := dict_get d col PyNone in
       if has_value element
       then [mkLink (node_type, VStr (Py.strip (str element))) node_type
                    (Py.strip (str element)) relation]
       else [])
    attribute_mappings.

Definition healthy_links (d : details) : list link :=
  let healthy := dict_get d "Healthy_Type" PyNone in
  if has_value healthy
  then map (fun element =>
              mkLink ("health_attribute", VStr element) "health_attribute" element
                     (map_health_attribute element))
           (filter Py.truthy_str (split_and_clean (str healthy) ","))
  else [].

Definition list_value_links (d : details) : list link :=
  flat_map
    (fun m : string * (string * string * string) =>
       let '(col, (relation, node_type, delimiter)) := m in
       let value := dict_get d col PyNone in
       if has_value value
       then map (fun element => mkLink (node_type, VStr element) node_type element relation)
                (filter Py.truthy_str (split_and_clean (str value) delimiter))
       else [])
    list_attributes.

Definition ingredient_links (d : details) : list link :=
  let best_usda := dict_get d "BestUsdaIngredientName" PyNone in
  if has_value best_usda
  then map (fun ingredient =>
              mkLink ("ingredient", VStr (Py.lower ingredient)) ingredient_node_type
                     ingredient ingredient_relation)
           (filter Py.truthy_str (split_and_clean (str best_usda) ingredient_delimiter))
  else [].

Definition recipe_links (d : details) : list link :=
  single_value_links d ++ healthy_links d ++ list_value_links d ++ ingredient_links d.

(** The edges that the records ask for, one per attachment. *)
Definition record_edges (item : Z * details) : list edge :=
  map (fun l => (("recipe", VInt (fst item)), link_node l, link_relation l))
      (recipe_links (snd item)).

Definition asked_edges (recipes : list (Z * details)) : list edge :=
  flat_map record_edges recipes.

(** The triple that stands for an edge. *)
Definition edge_triple (e : edge) : triple :=
  (node_str (fst (fst e)), snd e, node_str (snd (fst e))).

(** The relation that the builder gives to an edge into a node, by the type
    of the node. *)
Definition relation_of (v : node) : string :=
  let t := fst v in
  if t =? "cooking_method" then "usesCookingMethod"
  else if t =? "servings_bin" then "hasServingsBin"
  else if t =? "cook_time" then "hasCookTime"
  else if t =? "cuisine_region" then "hasCuisineRegion"
  else if t =? "diet_type" then "hasDietType"
  else if t =? "meal_type" then "isForMealType"
  else if t =? "ingredient" then "containsIngredient"
  else match snd v with
       | VStr element => map_health_attribute element
       | VInt _ => ""
       end.

(** An edge carries the relation that belongs to the type of its target. *)
Definition edge_consistent (e : edge) : Prop := snd e = relation_of (snd (fst e)).

(** *** Loading the records *)

Definition columns_to_keep : list string :=
  [ "RecipeId"; "Cooking_Method"; "servings_bin"; "Diet_Types"; "meal_type";
    "cook_time"; "Healthy_Type"; "CuisineRegion"; "BestUsdaIngredientName" ].

(** [recipes[recipe_id] = recipe_data]: a known key keeps its place. *)
Fixpoint recipes_set (recipes : list (Z * details)) (recipe_id : Z)
         (recipe_data : details) : list (Z * details) :=
  match recipes with
  | [] => [(recipe_id, recipe_data)]
  | (k, v) :: r =>
      if Z.eqb k recipe_id then (k, recipe_data) :: r
      else (k, v) :: recipes_set r recipe_id recipe_data
  end.

(** The result is [inl missing] where the source raises [ValueError] with
    the set of missing columns. *)
Definition load_recipes_from_dataframe (df : DataFrame)
  : list string + list (Z * details) :=
  let missing := filter (fun c => negb (has_column df c)) columns_to_keep in
  match missing with
  | _ :: _ => inl missing
  | [] =>
      inr (fold_left
             (fun recipes row =>
                let recipe_id := fst row in
                let recipe_data := map (fun col => (col, row_cell row col))
                                       columns_to_keep in
                recipes_set recipes recipe_id recipe_data)
             (rows df) [])
  end.

(** The record of one row, and the loop of [load_recipes_from_dataframe]
    started from any dict. *)
Definition record_of (r : row) : details :=
  map (fun col => (col, row_cell r col)) columns_to_keep.

Definition load_rows (rs : list row) (acc : list (Z * details))
  : list (Z * details) :=
  fold_left (fun recipes r => recipes_set recipes (fst r) (record_of r)) rs acc.

(** The identifiers of the nodes, [list(G.nodes)]. *)
Definition node_ids (G : DiGraph) : list node := map fst (nodes G).

End graph_triples.

(** ** model.py *)

Module model.

(** A raised exception, kept as its message [str(e)]. *)
Definition exn : Type := string.

(** What [ast.literal_eval] can return. [LObj] stands for a literal of any
    other kind (bytes, dict, set, float, [None], ...): it is given by what
    subscripting it returns and by its [str()], which for these kinds is
    also its [repr()]; a literal of these kinds whose [str()] raises (a dict
    that holds an integer too long to write) has no text and is no [LObj]. *)
#[local] Set Warnings "-register-all".

Inductive pylit : Type :=
| LStr (s : string)
| LInt (z : Z)
| LTuple (l : list pylit)
| LList (l : list pylit)
| LObj (item : nat -> exn + pylit) (text : string).

(** [t[i]] for [i] = 0, 1. *)
Definition getitem (t : pylit) (i : nat) : exn + pylit :=
  match t with
  | LStr s =>
      match String.get i s with
      | Some c => inr (LStr (String c ""))
      | None => inl "string index out of range"
      end
  | LInt _ => inl "'int' object is not subscriptable"
  | LTuple l =>
      match nth_error l i with
      | Some v => inr v
      | None => inl "tuple index out of range"
      end
  | LList l =>
      match nth_error l i with
      | Some v => inr v
      | None => inl "list index out of range"
      end
  | LObj item _ => item i
  end.

Fixpoint join (sep : string) (l : list string) : string :=
  match l with
  | [] => ""
  | [x] => x
  | x :: r => x ++ sep ++ join sep r
  end.

(** [repr(v)] *)
Fixpoint lit_repr (v : pylit) : string :=
  match v with
  | LStr s => Py.repr_str s
  | LInt z => Py.str_int z
  | LTuple l =>
      "(" ++ join ", " (map lit_repr l)
          ++ (if Nat.eqb (List.length l) 1 then "," else "") ++ ")"
  | LList l => "[" ++ join ", " (map lit_repr l) ++ "]"
  | LObj _ t => t
  end.

(** [str(v)], which is what a replacement field of an f-string writes. *)
Definition lit_str (v : pylit) : string :=
  match v with
  | LStr s => s
  | _ => lit_repr v
  end.

(** [sys.int_info.default_max_str_digits]: CPython refuses to write an
    integer of more decimal digits, [str] and [repr] raising [ValueError].
    [lit_repr] and [lit_str] are [repr] and [str] on the literals that are
    [writable], those that hold no such integer. *)
Definition int_max_str_digits : nat := 4300.

Fixpoint writable (v : pylit) : bool :=
  match v with
  | LStr _ => true
  | LInt z => Nat.leb (String.length (Py.str_int (Z.abs z))) int_max_str_digits
  | LTuple l => forallb writable l
  | LList l => forallb writable l
  | LObj _ _ => true
  end.

(** The result comes with the lines written by [print]. The [try] block is
    the inner [match]: any exception of [literal_eval] or of a subscript
    reaches the handler. The f-string is written for components that are
    [writable]; on another component it raises too, and the handler returns
    the input. *)
Definition tuple_to_canonical (literal_eval : string -> exn + pylit) (s : string)
  : string * list string :=
  let body : exn + string :=
    match literal_eval s with
    | inl e => inl e
    | inr t =>
        match getitem t 0 with
        | inl e => inl e
        | inr a =>
            match getitem t 1 with
            | inl e => inl e
            | inr b => inr (lit_str a ++ "_" ++ lit_str b)%string
            end
        end
    end in
  match body with
  | inr r => (r, [])
  | inl e => (s, [("Error converting tuple: " ++ e ++ " => " ++ s)%string])
  end.

(** The body of the loop in [get_triples_factory]: a row of the triples file
    in the form the embedding model is given. *)
Definition canonical_row (literal_eval : string -> exn + pylit)
           (row : string * string * string) : string * string * string :=
  let '(h, r, t) := row in
  let ch := fst (tuple_to_canonical literal_eval h) in
  let cr := Py.strip r in
  let ct := fst (tuple_to_canonical literal_eval t) in
  (ch, cr, ct).

(** A reader for the text of a pair of plain strings, [('a', 'b')]: enough of
    [ast.literal_eval] to run [tuple_to_canonical] on the node texts that the
    graph builder writes for names without quotes or backslashes. *)
Fixpoint read_quoted (s : string) : option (string * string) :=
  match s with
  | EmptyString => None
  | String c r =>
      if Ascii.eqb c Py.quote then Some ("", r)
      else if Ascii.eqb c Py.backslash then None
      else match read_quoted r with
           | Some (a, rest) => Some (String c a, rest)
           | None => None
           end
  end.

Definition read_pair_literal (s : string) : exn + pylit :=
  match s with
  | String "(" (String "'" r) =>
      match read_quoted r with
      | Some (a, String "," (String " " (String "'" r2))) =>
          match read_quoted r2 with
          | Some (b, ")") => inr (LTuple [LStr a; LStr b])
          | _ => inl "invalid syntax"
          end
      | _ => inl "invalid syntax"
      end
  | _ => inl "invalid syntax"
  end.

(** As [read_pair_literal], and reading the text of a recipe node,
    [('recipe', 5)], too. *)
Fixpoint split_last (s : string) : option (string * ascii) :=
  match s with
  | EmptyString => None
  | String c r =>
      match split_last r with
      | Some (p, l) => Some (String c p, l)
      | None => Some (EmptyString, c)
      end
  end.

Definition read_node_literal (s : string) : exn + pylit :=
  match read_pair_literal s with
  | inr v => inr v
  | inl e =>
      match s with
      | String "(" (String "'" r) =>
          match read_quoted r with
          | Some (a, String "," (String " " r2)) =>
              match split_last r2 with
              | Some (digits, ")"%char) =>
                  match NilZero.int_of_string digits with
                  | Some i => inr (LTuple [LStr a; LInt (Z.of_int i)])
                  | None => inl e
                  end
              | _ => inl e
              end
          | _ => inl e
          end
      | _ => inl e
      end
  end.

End model.

(** ** data_loading.py *)

Module data_loading.

(** [sorted(set(l))]: the distinct texts in ascending order of code points. *)
Fixpoint insert_sorted (x : string) (l : list string) : list string :=
  match l with
  | [] => [x]
  | y :: r =>
      match String.compare x y with
      | Lt => x :: l
      | Eq => l
      | Gt => y :: insert_sorted x r
      end
  end.

Definition sorted_set (l : list string) : list string :=
  fold_right insert_sorted [] l.

(** [Series.unique()]: the first occurrence of each value, in order. Two
    cells are one value when Python's [==] holds of them, the parameter
    [same]: on texts it is equality of texts, on other cells it is not told
    by their text (5 and 5.0 are one value). *)
Fixpoint unique (same : pyobj -> pyobj -> bool) (l : list pyobj) : list pyobj :=
  match l with
  | [] => []
  | x :: r => x :: filter (fun y => negb (same x y)) (unique same r)
  end.

(** [==] on a column of texts: a text equals the same text and nothing
    else. *)
Definition same_text (a b : pyobj) : bool :=
  match a, b with
  | PyStr s, PyStr t => String.eqb s t
  | _, _ => false
  end.

(** The test [cleaned and cleaned != "unknown" and cleaned != "nan"]. *)
Definition offered (cleaned : string) : bool :=
  Py.truthy_str cleaned && negb (cleaned =? "unknown") && negb (cleaned =? "nan").

(** [re.split(r";", s)] cuts at every semicolon, as [s.split(";")] does. *)
Definition get_unique_ingredients (same : pyobj -> pyobj -> bool)
           (recipes_df : DataFrame) : list string :=
  if has_column recipes_df "BestUsdaIngredientName"
  then
    let column := map (fun r : row => snd r "BestUsdaIngredientName") (rows recipes_df) in
    let values := unique same (map cell_obj (filter (fun c => negb (isna c)) column)) in
    sorted_set
      (flat_map (fun ing_str => filter offered (Py.split ";" (str ing_str))) values)
  else [].

(** Strictly ascending order of texts, the order of [sorted]. *)
Definition ascending (a b : string) : Prop := String.ltb a b = true.

End data_loading.

(** ** recommender.py *)

Module recommender.

Import graph_triples.

Definition criterion : Type := string * string * Q.

(** A [DataFrame] with the columns [head_label] and one score column. *)
Definition frame : Type := list (string * Q).

Definition map_user_input_to_criteria
           (cooking_method servings_bin : option string)
           (diet_types meal_type : list string)
           (cook_time : option string)
           (health_types : list string)
           (cuisine_region : option string)
           (ingredients : list string)
           (weights : list (string * Q)) : list criterion :=
  let criteria : list criterion := [] in
  let criteria :=
    match cooking_method with
    | Some cooking_method =>
        if Py.truthy_str cooking_method
        then let cm := Py.lower (Py.strip cooking_method) in
             criteria ++ [(("cooking_method_" ++ cm)%string, "usesCookingMethod",
                           dict_get weights "cooking_method" 1%Q)]
        else criteria
    | None => criteria
    end in
  let criteria :=
    match servings_bin with
    | Some servings_bin =>
        if Py.truthy_str servings_bin
        then let sb := Py.strip servings_bin in
             criteria ++ [(("servings_bin_" ++ sb)%string, "hasServingsBin",
                           dict_get weights "servings_bin" 1%Q)]
        else criteria
    | None => criteria
    end in
  let criteria :=
    fold_left (fun criteria dt =>
                 let dt_clean := Py.strip dt in
                 criteria ++ [(("diet_type_" ++ dt_clean)%string, "hasDietType",
                               dict_get weights "diet_types" 1%Q)])
              diet_types criteria in
  let criteria :=
    fold_left (fun criteria mt =>
                 let mt_clean := Py.strip mt in
                 criteria ++ [(("meal_type_" ++ mt_clean)%string, "isForMealType",
                               dict_get weights "meal_type" 1%Q)])
              meal_type criteria in
  let criteria :=
    match cook_time with
    | Some cook_time =>
        if Py.truthy_str cook_time
        then let ct := Py.strip cook_time in
             criteria ++ [(("cook_time_" ++ ct)%string, "hasCookTime",
                           dict_get weights "cook_time" 1%Q)]
        else criteria
    | None => criteria
    end in
  let criteria :=
    fold_left (fun criteria ht =>
                 let ht_clean := Py.strip ht in
                 let relation := map_health_attribute ht_clean in
                 criteria ++ [(("health_attribute_" ++ ht_clean)%string, relation,
                               dict_get weights "healthy_type" 1%Q)])
              health_types criteria in
  let criteria :=
    match cuisine_region with
    | Some cuisine_region =>
        if Py.truthy_str cuisine_region
        then let cr := Py.strip cuisine_region in
             criteria ++ [(("cuisine_region_" ++ cr)%string, "hasCuisineRegion",
                           dict_get weights "cuisine_region" 1%Q)]
        else criteria
    | None => criteria
    end in
  fold_left (fun criteria ing =>
               let ing_clean := Py.strip ing in
               criteria ++ [(("ingredient_" ++ ing_clean)%string, "containsIngredient",
                             dict_get weights "ingredients" 1%Q)])
            ingredients criteria.

(** *** Score normalisation: sklearn's [MinMaxScaler] with range (0, 1) *)

Record MinMaxScaler : Type := mkScaler { scale_ : Q; min_ : Q }.

Definition data_min (xs : list Q) : Q :=
  match xs with
  | [] => 0%Q
  | x :: r => fold_left Qmin r x
  end.

Definition data_max (xs : list Q) : Q :=
  match xs with
  | [] => 0%Q
  | x :: r => fold_left Qmax r x
  end.

(** [np.finfo(np.float64).eps], 2 ** -52. *)
Definition eps : Q := 1 # 4503599627370496.

(** sklearn's [_handle_zeros_in_scale] on the array of ranges,
    [scale[scale < 10 * eps] = 1.0]: a feature whose range is below ten
    machine epsilons, zero included, is scaled by 1. *)
Definition handle_zeros_in_scale (scale : Q) : Q :=
  if negb (Qle_bool (10 * eps) scale) then 1%Q else scale.

Definition fit (xs : list Q) : MinMaxScaler :=
  let data_range := (data_max xs - data_min xs)%Q in
  let scale := ((1 - 0) / handle_zeros_in_scale data_range)%Q in
  mkScaler scale (0 - data_min xs * scale)%Q.

Definition transform (sc : MinMaxScaler) (x : Q) : Q :=
  (x * scale_ sc + min_ sc)%Q.

(** Rows are (head_label, score, normalized_score). *)
Definition _normalize_scores (df : frame) : list (string * Q * Q) :=
  match df with
  | [] => []
  | _ =>
      let scaler := fit (map snd df) in
      map (fun row => (fst row, snd row, transform scaler (snd row))) df
  end.

(** *** Merging two frames on [head_label] *)

Definition has_label (h : string) (df : frame) : bool :=
  existsb (fun row => String.eqb (fst row) h) df.

Definition rows_of (h : string) (df : frame) : frame :=
  filter (fun row => String.eqb (fst row) h) df.

Fixpoint insert_by_label {A : Type} (x : string * A) (l : list (string * A))
  : list (string * A) :=
  match l with
  | [] => [x]
  | y :: r => if String.leb (fst x) (fst y) then x :: l else y :: insert_by_label x r
  end.

(** Rows in the lexicographic order of their key, rows of one key in the
    order they had. *)
Definition sort_by_label {A : Type} (l : list (string * A)) : list (string * A) :=
  fold_right insert_by_label [] l.

(** [left.merge(right, on="head_label", how="inner", suffixes=("", "_y"))]:
    one row for every pair of rows with the same key, in the order of the
    left rows. *)
Definition merge_inner (left right : frame) : list (string * (Q * Q)) :=
  flat_map (fun l => map (fun r => (fst l, (snd l, snd r))) (rows_of (fst l) right))
           left.

(** [how="outer"]: the rows of [merge_inner], the rows of either side that
    have no partner, with [None] for the missing score ([NaN] in pandas),
    and the keys sorted. *)
Definition merge_outer (left right : frame) : list (string * (option Q * option Q)) :=
  sort_by_label
    (flat_map (fun l =>
                 match rows_of (fst l) right with
                 | [] => [(fst l, (Some (snd l), None))]
                 | rs => map (fun r => (fst l, (Some (snd l), Some (snd r)))) rs
                 end)
              left
     ++ map (fun r => (fst r, (None, Some (snd r))))
            (filter (fun r => negb (has_label (fst r) left)) right)).

(** [column.fillna(0)] *)
Definition fillna0 (x : option Q) : Q :=
  match x with
  | Some q => q
  | None => 0%Q
  end.

(** One turn of the loop [for other in all_preds[1:]]. *)
Definition merge_step (flexible : bool) (merged other : frame) : frame :=
  if flexible
  then map (fun row => (fst row, (fillna0 (fst (snd row)) + fillna0 (snd (snd row)))%Q))
           (merge_outer merged other)
  else map (fun row => (fst row, (fst (snd row) + snd (snd row))%Q))
           (merge_inner merged other).

Definition merge_all (flexible : bool) (all_preds : list frame) : option frame :=
  match all_preds with
  | [] => None
  | first :: rest => Some (fold_left (merge_step flexible) rest first)
  end.

(** [df.head(n)]: the first [n] rows, or all but the last [-n] rows. *)
Definition head {A : Type} (l : list A) (n : Z) : list A :=
  if (0 <=? n)%Z then firstn (Z.to_nat n) l
  else firstn (List.length l - Z.to_nat (- n)) l.

(** [node_str.split("recipe_", 1)[1]]; [None] is the [IndexError]. *)
Definition parse_recipe_id (node_str : string) : option string :=
  nth_error (Py.split1 "recipe_" node_str) 1.

Fixpoint apply {A B : Type} (f : A -> option B) (l : list A) : option (list B) :=
  match l with
  | [] => Some []
  | x :: r =>
      match f x, apply f r with
      | Some y, Some ys => Some (y :: ys)
      | _, _ => None
      end
  end.

(** *** Calls to the embedding model

    A computation that may call [predict_target] carries the list of the
    (relation, tail) queries made so far. *)

Definition Calls (A : Type) : Type :=
  list (string * string) -> A * list (string * string).

Definition ret {A : Type} (a : A) : Calls A := fun log => (a, log).

Definition bind {A B : Type} (m : Calls A) (k : A -> Calls B) : Calls B :=
  fun log => let '(a, log') := m log in k a log'.

Notation "x <- m ;; k" := (bind m (fun x => k))
  (at level 61, m at next level, right associativity).

Fixpoint for_each {A B : Type} (f : A -> Calls B) (l : list A) : Calls (list B) :=
  match l with
  | [] => ret []
  | x :: r => y <- f x ;; ys <- for_each f r ;; ret (y :: ys)
  end.

Section Ranking.

(** [predict_target(model, relation, tail, triples_factory).df], as its rows
    (head_label, score). *)
Variable predict_target : string -> string -> frame.

(** [sort_values(by="weighted_score", ascending=False)]. *)
Variable sort_values_desc : frame -> frame.

Definition predict (relation tail : string) : Calls frame :=
  fun log => (predict_target relation tail, log ++ [(relation, tail)]).

(** The body of [for tail, relation, weight in criteria]. *)
Definition score_criterion (c : criterion) : Calls frame :=
  let '(tail, relation, weight) := c in
  preds <- predict relation tail ;;
  let preds := _normalize_scores preds in
  ret (map (fun row => (fst (fst row), (snd row * weight)%Q)) preds).

(** The part of [get_matching_recipes] after the merge. *)
Definition top_ids (merged : frame) (top_k : Z) : option (list string) :=
  let merged := filter (fun row => Py.startswith (fst row) "recipe_") merged in
  let merged := sort_values_desc merged in
  let merged := head merged top_k in
  apply parse_recipe_id (map fst merged).

(** The result is [None] where the source raises. *)
Definition get_matching_recipes (criteria : list criterion) (top_k : Z)
           (flexible : bool) : Calls (option (list string)) :=
  match criteria with
  | [] => ret (Some [])
  | _ =>
      all_preds <- for_each score_criterion criteria ;;
      match merge_all flexible all_preds with
      | None => ret None
      | Some merged => ret (top_ids merged top_k)
      end
  end.

End Ranking.

(** What [sort_values] promises whatever its algorithm: the same rows, in
    descending order of score. *)
Definition by_score_desc (a b : string * Q) : Prop := (snd b <= snd a)%Q.

Definition sort_contract (sort : frame -> frame) : Prop :=
  forall l, Permutation l (sort l) /\ StronglySorted by_score_desc (sort l).

(** What one criterion contributes: the value of [score_criterion]. *)
Definition weighted_preds (predict_target : string -> string -> frame)
           (c : criterion) : frame :=
  fst (score_criterion predict_target c []).

(** The (relation, tail) query that a criterion sends to the model. *)
Definition query_of (c : criterion) : string * string := (snd (fst c), fst (fst c)).

(** [sum(xs)] *)
Definition Qsum (xs : list Q) : Q := fold_right Qplus 0%Q xs.

(** The score of [h] in a frame, 0 where [h] has no row. *)
Definition score_of (h : string) (df : frame) : Q :=
  match rows_of h df with
  | [] => 0%Q
  | row :: _ => snd row
  end.

(** The (tail, relation) pairs that the criteria ask about, and those that
    the embedding model knows from the triples of the builder. *)
Definition criteria_tails (criteria : list criterion) : list (string * string) :=
  map (fun c => (fst (fst c), snd (fst c))) criteria.

Definition builder_tails (literal_eval : string -> model.exn + model.pylit)
           (recipes : list (Z * details)) : list (string * string) :=
  map (fun row => let c := model.canonical_row literal_eval row in
                  (snd c, snd (fst c)))
      (snd (create_graph_and_triples recipes)).

(** [ast.literal_eval(str((nt, x)))] gives the pair back, as Python does for
    a pair of strings. *)
Definition reads_back (literal_eval : string -> model.exn + model.pylit)
           (nt x : string) : Prop :=
  literal_eval (node_str (nt, VStr x)) = inr (model.LTuple [model.LStr nt; model.LStr x]).

(** A sort that meets the contract of [sort_values]: by insertion, rows of
    equal score kept in their order. *)
Fixpoint insert_desc (x : string * Q) (l : frame) : frame :=
  match l with
  | [] => [x]
  | y :: r => if Qle_bool (snd y) (snd x) then x :: l else y :: insert_desc x r
  end.

Definition insertion_sort_desc (l : frame) : frame := fold_right insert_desc [] l.

(** The criterion of an optional field, [if field: ...]: none for [None] and
    for the empty text. *)
Definition of_field (field : option string) (c : string -> criterion)
  : list criterion :=
  match field with
  | Some v => if Py.truthy_str v then [c v] else []
  | None => []
  end.

(** 1 for an optional field that holds a text that is not empty, else 0. *)
Definition named (field : option string) : nat :=
  match field with
  | Some v => if Py.truthy_str v then 1 else 0
  | None => 0
  end.

(** The eight categories of [map_user_input_to_criteria]: the key of the
    weight, the prefix of the tail, and the relations. *)
Definition categories : list (string * string * list string) :=
  [ ("cooking_method", "cooking_method_", ["usesCookingMethod"]);
    ("servings_bin", "servings_bin_", ["hasServingsBin"]);
    ("diet_types", "diet_type_", ["hasDietType"]);
    ("meal_type", "meal_type_", ["isForMealType"]);
    ("cook_time", "cook_time_", ["hasCookTime"]);
    ("healthy_type", "health_attribute_",
     ["HasProteinLevel"; "HasCarbLevel"; "HasFatLevel"; "HasSaturatedFatLevel";
      "HasCalorieLevel"; "HasSodiumLevel"; "HasSugarLevel"; "HasFiberLevel";
      "HasCholesterolLevel"; "HasHealthAttribute"]);
    ("cuisine_region", "cuisine_region_", ["hasCuisineRegion"]);
    ("ingredients", "ingredient_", ["containsIngredient"]) ].

(** [int(recipe_id)] is the parameter [int_of], [None] where Python raises
    [ValueError]. The result is [inl] where the source raises: the [KeyError]
    of a table without the column [RecipeId]. *)
Definition fetch_recipe_info (int_of : string -> option Z) (recipes_df : DataFrame)
           (recipe_id : string) : model.exn + option (list (string * pyobj)) :=
  match int_of recipe_id with
  | None => inr None
  | Some rid_int =>
      if has_column recipes_df "RecipeId"
      then match filter (fun r : row => Z.eqb (fst r) rid_int) (rows recipes_df) with
           | [] => inr None
           | r :: _ => inr (Some (map (fun col => (col, row_cell r col))
                                      (columns recipes_df)))
           end
      else inl "'RecipeId'"
  end.

End recommender.

(** ** routers/recommend.py *)

Module routers.

Import recommender.

Record RecommendationRequest : Type := mkRequest {
  cooking_method : option string;
  servings_bin : option string;
  diet_types : list string;
  meal_type : list string;
  cook_time : option string;
  health_types : list string;
  cuisine_region : option string;
  ingredients : list string;
  weights : list (string * Q);
  top_k : Z;
  flexible : bool
}.

(** The request with every field at its default. *)
Definition default_request : RecommendationRequest :=
  mkRequest None None [] [] None [] None [] [] 5 false.

Definition request_criteria (request : RecommendationRequest) : list criterion :=
  map_user_input_to_criteria
    (cooking_method request) (servings_bin request) (diet_types request)
    (meal_type request) (cook_time request) (health_types request)
    (cuisine_region request) (ingredients request) (weights request).

(** [POST /recommend] *)
Definition recommend_recipes (predict_target : string -> string -> frame)
           (sort_values_desc : frame -> frame) (request : RecommendationRequest)
  : Calls (option (list string)) :=
  let criteria := request_criteria request in
  get_matching_recipes predict_target sort_values_desc criteria
                       (top_k request) (flexible request).

(** [GET /recipe/{recipe_id}]: [inr None] is the answer 404, raised when
    [info] is false in a test, that is [None] or an empty dict. *)
Definition get_recipe_by_id (int_of : string -> option Z) (recipes_df : DataFrame)
           (recipe_id : string) : model.exn + option (list (string * pyobj)) :=
  match fetch_recipe_info int_of recipes_df recipe_id with
  | inl e => inl e
  | inr None => inr None
  | inr (Some []) => inr None
  | inr (Some info) => inr (Some info)
  end.

End routers.

(** * Properties *)

(** ** Runs of the string primitives *)

Example lower_ex : Py.lower "Low_Saturated FAT" = "low_saturated fat".
Proof. reflexivity. Qed.

Example strip_ex : Py.strip "  a b  " = "a b".
Proof. reflexivity. Qed.

Example split_ex : Py.split "," "a, b,,c" = ["a"; " b"; ""; "c"].
Proof. reflexivity. Qed.

Example split_empty_ex : Py.split "," "" = [""].
Proof. reflexivity. Qed.

Example split_long_sep_ex : Py.split "ab" "xabyabab" = ["x"; "y"; ""; ""].
Proof. reflexivity. Qed.

Example split1_ex : Py.split1 "recipe_" "xrecipe_1recipe_2" = ["x"; "1recipe_2"].
Proof. reflexivity. Qed.

Example split1_none_ex : Py.split1 "recipe_" "abc" = ["abc"].
Proof. reflexivity. Qed.

Example repr_ex : Py.repr_str "O'Brien" = String Py.dquote ("O'Brien" ++ String Py.dquote "").
Proof. reflexivity. Qed.

Example node_str_ex :
  graph_triples.node_str ("recipe", graph_triples.VInt 5) = "('recipe', 5)".
Proof. reflexivity. Qed.

(** ** Substring search *)

Module PyFacts.

Lemma prefix_app_l (p q s : string) :
  prefix (p ++ q) s = true -> prefix p s = true.
Proof.
  revert s; induction p as [| c p IH]; intros s H.
  - destruct s; reflexivity.
  - destruct s as [| d s]; simpl in *; [discriminate |].
    destruct (ascii_dec c d); [apply IH; exact H | discriminate].
Qed.

Lemma prefix_cons_r (c : ascii) (q s : string) :
  prefix (String c q) s = true ->
  exists r, s = String c r /\ prefix q r = true.
Proof.
  destruct s as [| d s]; simpl; [discriminate |].
  destruct (ascii_dec c d) as [-> |]; [| discriminate].
  intros H; exists s; split; [reflexivity | exact H].
Qed.

Lemma contains_prefix (p s : string) :
  prefix p s = true -> Py.contains p s = true.
Proof. intros H; destruct s; simpl in *; rewrite H; reflexivity. Qed.

Lemma contains_cons (p : string) (c : ascii) (s : string) :
  Py.contains p s = true -> Py.contains p (String c s) = true.
Proof.
  intros H. change (Py.contains p (String c s))
    with (if prefix p (String c s) then true else Py.contains p s).
  rewrite H; destruct (prefix p (String c s)); reflexivity.
Qed.

(** A text that holds [p ++ q] holds [p]. *)
Lemma contains_app_l (p q s : string) :
  Py.contains (p ++ q) s = true -> Py.contains p s = true.
Proof.
  induction s as [| c s IH]; intros H.
  - change (Py.contains (p ++ q) "")
      with (if prefix (p ++ q) "" then true else false) in H.
    destruct (prefix (p ++ q) "") eqn:E; [| discriminate H].
    apply contains_prefix, (prefix_app_l p q); exact E.
  - change (Py.contains (p ++ q) (String c s))
      with (if prefix (p ++ q) (String c s) then true else Py.contains (p ++ q) s) in H.
    destruct (prefix (p ++ q) (String c s)) eqn:E.
    + apply contains_prefix, (prefix_app_l p q); exact E.
    + apply contains_cons, IH, H.
Qed.

(** A text that holds [String c q] holds [q]. *)
Lemma contains_tail (c : ascii) (q s : string) :
  Py.contains (String c q) s = true -> Py.contains q s = true.
Proof.
  induction s as [| d s IH]; intros H.
  - simpl in H. discriminate H.
  - change (Py.contains (String c q) (String d s))
      with (if prefix (String c q) (String d s) then true
            else Py.contains (String c q) s) in H.
    destruct (prefix (String c q) (String d s)) eqn:E.
    + apply prefix_cons_r in E. destruct E as [r [Hr Hq]].
      injection Hr as _ ->. apply contains_cons, contains_prefix, Hq.
    + apply contains_cons, IH, H.
Qed.

End PyFacts.

(** ** The relation of a health attribute *)

Section Mapper.

Import graph_triples.

Example mapper_protein_ex :
  map_health_attribute "High_Protein" = "HasProteinLevel".
Proof. reflexivity. Qed.

Example mapper_low_fat_ex :
  map_health_attribute "low_fat" = "HasFatLevel".
Proof. reflexivity. Qed.

Example mapper_saturated_fat_ex :
  map_health_attribute "Low_Saturated_Fat" = "HasSaturatedFatLevel".
Proof. reflexivity. Qed.

Lemma saturated_fat_has_saturated (e : string) :
  Py.contains "saturated_fat" e = true -> Py.contains "saturated" e = true.
Proof. apply (PyFacts.contains_app_l "saturated" "_fat"). Qed.

(** C1, as stated, fails: "saturated fat" holds both words and is mapped to
    the catch-all relation. *)
Lemma map_health_attribute_saturated_space :
  ~ (forall s : string,
        Py.contains "saturated" (Py.lower s) = true ->
        Py.contains "fat" (Py.lower s) = true ->
        map_health_attribute s = "HasSaturatedFatLevel"
        /\ map_health_attribute s <> "HasFatLevel").
Proof.
  intros H.
  destruct (H "saturated fat" eq_refl eq_refl) as [E _].
  vm_compute in E. discriminate E.
Qed.

(** C1 (amended): an input that holds both "saturated" and "fat", letter case
    ignored, is never mapped to [HasFatLevel]; it is mapped to
    [HasSaturatedFatLevel] exactly when its lower-cased text holds
    "saturated_fat" and holds neither "protein" nor "carb". *)
Theorem map_health_attribute_saturated_fat (s : string) :
  Py.contains "saturated" (Py.lower s) = true ->
  Py.contains "fat" (Py.lower s) = true ->
  map_health_attribute s <> "HasFatLevel"
  /\ (map_health_attribute s = "HasSaturatedFatLevel"
      <-> Py.contains "protein" (Py.lower s) = false
          /\ Py.contains "carb" (Py.lower s) = false
          /\ Py.contains "saturated_fat" (Py.lower s) = true).
Proof.
  intros Hsat Hfat. unfold map_health_attribute.
  rewrite Hsat, Hfat. cbn [negb andb].
  destruct (Py.contains "protein" (Py.lower s));
    [split; [discriminate | split; [discriminate | intros [? _]; congruence]] |].
  destruct (Py.contains "carb" (Py.lower s));
    [split; [discriminate | split; [discriminate | intros [_ [? _]]; congruence]] |].
  destruct (Py.contains "saturated_fat" (Py.lower s)).
  - split; [discriminate | split; auto].
  - split.
    + repeat match goal with
             | |- context [if ?b then _ else _] => destruct b
             end; discriminate.
    + split.
      * repeat match goal with
               | |- context [if ?b then _ else _] => destruct b
               end; discriminate.
      * intros [_ [_ ?]]; congruence.
Qed.

Lemma map_health_attribute_saturated_fat_witness :
  map_health_attribute "Low_Saturated_Fat" <> "HasFatLevel"
  /\ (map_health_attribute "Low_Saturated_Fat" = "HasSaturatedFatLevel"
      <-> Py.contains "protein" (Py.lower "Low_Saturated_Fat") = false
          /\ Py.contains "carb" (Py.lower "Low_Saturated_Fat") = false
          /\ Py.contains "saturated_fat" (Py.lower "Low_Saturated_Fat") = true).
Proof.
  apply (map_health_attribute_saturated_fat "Low_Saturated_Fat"); reflexivity.
Defined.

End Mapper.

(** ** The canonical text of a node text *)

Section Canonical.

Import model.

Variable literal_eval : string -> exn + pylit.

Example tuple_to_canonical_pair :
  tuple_to_canonical read_pair_literal "('meal_type', 'dinner')"
  = ("meal_type_dinner", []).
Proof. reflexivity. Qed.

(** A string literal parses, and its first two characters are joined. *)
Example tuple_to_canonical_of_string (s : string) :
  literal_eval s = inr (LStr "ab") ->
  tuple_to_canonical literal_eval s = ("a_b", []).
Proof. intros H. unfold tuple_to_canonical. rewrite H. reflexivity. Qed.

(** An integer literal parses and cannot be subscripted. *)
Example tuple_to_canonical_of_int (s : string) (z : Z) :
  literal_eval s = inr (LInt z) ->
  fst (tuple_to_canonical literal_eval s) = s.
Proof. intros H. unfold tuple_to_canonical. rewrite H. reflexivity. Qed.

(** C9: [tuple_to_canonical] returns a string on every input. When the input
    parses as a pair whose components can be written (no integer beyond the
    limit of [int_max_str_digits] digits), the result is the two components
    joined by an underscore, type and value themselves when they are strings;
    when the parse fails, the result is the input itself and one line is
    printed. In every case the result is either such a join or the input. *)
Theorem tuple_to_canonical_total (s : string) :
  (forall a b, literal_eval s = inr (LTuple [a; b]) ->
     writable a = true -> writable b = true ->
     tuple_to_canonical literal_eval s = ((lit_str a ++ "_" ++ lit_str b)%string, []))
  /\ (forall t v, literal_eval s = inr (LTuple [LStr t; LStr v]) ->
        tuple_to_canonical literal_eval s = ((t ++ "_" ++ v)%string, []))
  /\ (forall e, literal_eval s = inl e ->
        tuple_to_canonical literal_eval s
        = (s, [("Error converting tuple: " ++ e ++ " => " ++ s)%string]))
  /\ ((exists a b, tuple_to_canonical literal_eval s
                   = ((lit_str a ++ "_" ++ lit_str b)%string, []))
      \/ (exists e, tuple_to_canonical literal_eval s
                    = (s, [("Error converting tuple: " ++ e ++ " => " ++ s)%string]))).
Proof.
  unfold tuple_to_canonical. repeat split.
  - intros a b H _ _. rewrite H. reflexivity.
  - intros t v H. rewrite H. reflexivity.
  - intros e H. rewrite H. reflexivity.
  - destruct (literal_eval s) as [e | t]; [right; exists e; reflexivity |].
    destruct (getitem t 0) as [e | a]; [right; exists e; reflexivity |].
    destruct (getitem t 1) as [e | b]; [right; exists e; reflexivity |].
    left; exists a, b; reflexivity.
Qed.

End Canonical.

Lemma tuple_to_canonical_total_witness :
  model.tuple_to_canonical model.read_pair_literal "('meal_type', 'dinner')"
  = ("meal_type_dinner", [])
  /\ model.tuple_to_canonical model.read_pair_literal "meal_type"
     = ("meal_type", ["Error converting tuple: invalid syntax => meal_type"])
  /\ model.tuple_to_canonical model.read_node_literal "('recipe', 38)"
     = ("recipe_38", []).
Proof.
  split; [| split].
  - apply (proj1 (proj2 (tuple_to_canonical_total model.read_pair_literal
                           "('meal_type', 'dinner')")) "meal_type" "dinner").
    reflexivity.
  - apply (proj1 (proj2 (proj2 (tuple_to_canonical_total model.read_pair_literal
                                  "meal_type"))) "invalid syntax").
    reflexivity.
  - apply (proj1 (tuple_to_canonical_total model.read_node_literal "('recipe', 38)")
             (model.LStr "recipe") (model.LInt 38)); reflexivity.
Defined.

(** ** Ranking: calls to the model, normalisation, the final cut *)

Section RankingFacts.

Import recommender.

Variable predict_target : string -> string -> frame.
Variable sort_values_desc : frame -> frame.

Lemma score_criterion_run (c : criterion) (log : list (string * string)) :
  score_criterion predict_target c log
  = (weighted_preds predict_target c, log ++ [query_of c]).
Proof. destruct c as [[tail relation] weight]. reflexivity. Qed.

(** The loop over the criteria asks the model once per criterion, in order. *)
Lemma for_each_score_run (cs : list criterion) (log : list (string * string)) :
  for_each (score_criterion predict_target) cs log
  = (map (weighted_preds predict_target) cs, log ++ map query_of cs).
Proof.
  revert log; induction cs as [| c cs IH]; intros log.
  - cbn. rewrite app_nil_r. reflexivity.
  - cbn [for_each]. unfold bind at 1. rewrite score_criterion_run.
    unfold bind at 1. rewrite IH. unfold ret. cbn [map].
    rewrite <- app_assoc. reflexivity.
Qed.

Lemma get_matching_recipes_run (c : criterion) (cs : list criterion)
      (top_k : Z) (flexible : bool) (log : list (string * string)) :
  get_matching_recipes predict_target sort_values_desc (c :: cs) top_k flexible log
  = (top_ids sort_values_desc
       (fold_left (merge_step flexible)
                  (map (weighted_preds predict_target) cs)
                  (weighted_preds predict_target c))
       top_k,
     log ++ map query_of (c :: cs)).
Proof.
  unfold get_matching_recipes, bind. rewrite for_each_score_run.
  cbn [map merge_all]. reflexivity.
Qed.

Lemma head_0 {A : Type} (l : list A) : head l 0 = [].
Proof. reflexivity. Qed.

(** C8: with no criterion the result is the empty list and the model is not
    asked (the list of calls is returned as it was); with [top_k = 0] the
    result is the empty list for every list of criteria. *)
Theorem get_matching_recipes_empty :
  (forall top_k flexible log,
      get_matching_recipes predict_target sort_values_desc [] top_k flexible log
      = (Some [], log))
  /\ (forall criteria flexible log,
         fst (get_matching_recipes predict_target sort_values_desc
                                   criteria 0 flexible log)
         = Some []).
Proof.
  split.
  - reflexivity.
  - intros [| c cs] flexible log.
    + reflexivity.
    + rewrite get_matching_recipes_run. unfold top_ids.
      rewrite head_0. reflexivity.
Qed.

End RankingFacts.

(** ** A sort that meets the contract *)

Section SortFacts.

Import recommender.

Lemma insert_desc_perm (x : string * Q) (l : frame) :
  Permutation (x :: l) (insert_desc x l).
Proof.
  induction l as [| y r IH]; cbn [insert_desc].
  - apply Permutation_refl.
  - destruct (Qle_bool (snd y) (snd x)).
    + apply Permutation_refl.
    + eapply perm_trans; [apply perm_swap | apply perm_skip, IH].
Qed.

Lemma insert_desc_sorted (x : string * Q) (l : frame) :
  StronglySorted by_score_desc l -> StronglySorted by_score_desc (insert_desc x l).
Proof.
  induction l as [| y r IH]; intros Hs; cbn [insert_desc].
  - constructor; constructor.
  - inversion Hs as [| ? ? Hr Hy]; subst.
    destruct (Qle_bool (snd y) (snd x)) eqn:E.
    + apply Qle_bool_iff in E. constructor; [exact Hs |].
      constructor; [exact E |].
      eapply Forall_impl; [| exact Hy].
      intros z Hz. unfold by_score_desc in *. eapply Qle_trans; eauto.
    + constructor; [apply IH, Hr |].
      assert (Hxy : (snd x <= snd y)%Q).
      { destruct (Qlt_le_dec (snd x) (snd y)) as [Hlt | Hle].
        - apply Qlt_le_weak, Hlt.
        - apply Qle_bool_iff in Hle. congruence. }
      eapply Permutation_Forall; [apply insert_desc_perm |].
      constructor; assumption.
Qed.

Lemma insertion_sort_desc_contract : sort_contract insertion_sort_desc.
Proof.
  intros l; split.
  - induction l as [| x l IH]; cbn.
    + apply perm_nil.
    + eapply perm_trans; [apply perm_skip, IH | apply insert_desc_perm].
  - induction l as [| x l IH]; cbn.
    + constructor.
    + apply insert_desc_sorted, IH.
Qed.

(** Two rows with different scores leave only one order. *)
Lemma sort_contract_two (sort : frame -> frame) (a b : string * Q) :
  sort_contract sort -> (snd b < snd a)%Q -> sort [a; b] = [a; b].
Proof.
  intros Hc Hlt. destruct (Hc [a; b]) as [Hp Hs].
  apply Permutation_length_2_inv in Hp. destruct Hp as [E | E]; [exact E |].
  rewrite E in Hs. inversion Hs as [| ? ? _ Hf]; subst.
  inversion Hf as [| ? ? Hab _]; subst.
  exfalso. apply (Qlt_not_le _ _ Hlt). exact Hab.
Qed.

End SortFacts.

(** ** Min-max scaling of constant scores *)

Section Normalisation.

Import recommender.

Lemma fold_min_const (x : Q) (r : list Q) (acc : Q) :
  (forall y, In y r -> y == x) -> acc == x -> fold_left Qmin r acc == x.
Proof.
  revert acc; induction r as [| y r IH]; intros acc Hr Hacc; cbn.
  - exact Hacc.
  - apply IH.
    + intros z Hz; apply Hr; right; exact Hz.
    + rewrite Hacc, (Hr y (or_introl eq_refl)). apply Q.min_id.
Qed.

Lemma fold_max_const (x : Q) (r : list Q) (acc : Q) :
  (forall y, In y r -> y == x) -> acc == x -> fold_left Qmax r acc == x.
Proof.
  revert acc; induction r as [| y r IH]; intros acc Hr Hacc; cbn.
  - exact Hacc.
  - apply IH.
    + intros z Hz; apply Hr; right; exact Hz.
    + rewrite Hacc, (Hr y (or_introl eq_refl)). apply Q.max_id.
Qed.

(** On scores that are all equal the fitted scaler sends each of them to 0. *)
Lemma transform_fit_const (x : Q) (xs : list Q) (y : Q) :
  xs <> [] -> (forall z, In z xs -> z == x) -> y == x ->
  transform (fit xs) y == 0.
Proof.
  intros Hne Hall Hy.
  destruct xs as [| x0 r]; [contradiction Hne; reflexivity |].
  assert (Hmin : data_min (x0 :: r) == x).
  { apply fold_min_const; [intros z Hz; apply Hall; right; exact Hz |].
    apply Hall; left; reflexivity. }
  assert (Hmax : data_max (x0 :: r) == x).
  { apply fold_max_const; [intros z Hz; apply Hall; right; exact Hz |].
    apply Hall; left; reflexivity. }
  unfold transform, fit, handle_zeros_in_scale. cbn [scale_ min_].
  assert (Hr : Qle_bool (10 * eps) (data_max (x0 :: r) - data_min (x0 :: r)) = false).
  { apply not_true_is_false. intros H. apply Qle_bool_iff in H.
    rewrite Hmin, Hmax in H. unfold eps in H. lra. }
  rewrite Hr. cbn [negb]. rewrite Hmin, Hy. field.
Qed.

Lemma normalize_all_equal (df : frame) :
  (forall r r', In r df -> In r' df -> snd r == snd r') ->
  forall row, In row (_normalize_scores df) -> snd row == 0.
Proof.
  intros Hall row Hin.
  destruct df as [| r0 rest]; [contradiction Hin |].
  unfold _normalize_scores in Hin. apply in_map_iff in Hin.
  destruct Hin as [r [<- Hr]]. cbn [snd].
  apply (transform_fit_const (snd r0)).
  - discriminate.
  - intros z Hz. apply in_map_iff in Hz. destruct Hz as [r' [<- Hr']].
    apply Hall; [exact Hr' | left; reflexivity].
  - apply Hall; [exact Hr | left; reflexivity].
Qed.

Lemma weighted_all_equal (predict_target : string -> string -> frame) (c : criterion) :
  (forall r r', In r (predict_target (snd (fst c)) (fst (fst c))) ->
                In r' (predict_target (snd (fst c)) (fst (fst c))) ->
                snd r == snd r') ->
  forall row, In row (weighted_preds predict_target c) -> snd row == 0.
Proof.
  destruct c as [[tail relation] weight]. cbn [fst snd]. intros Hall row Hin.
  unfold weighted_preds in Hin. cbn in Hin.
  apply in_map_iff in Hin. destruct Hin as [r [<- Hr]]. cbn [snd].
  rewrite (normalize_all_equal _ Hall r Hr). ring.
Qed.

Lemma singleton_all_equal (df : frame) :
  List.length df = 1%nat ->
  forall r r', In r df -> In r' df -> snd r == snd r'.
Proof.
  destruct df as [| a [| b df]]; try discriminate.
  intros _ r r' [<- | []] [<- | []]. reflexivity.
Qed.

(** Normalisation adds a column: every row stays, with its label and raw
    score, in its place. *)
Lemma normalize_keeps_rows (df : frame) : map fst (_normalize_scores df) = df.
Proof.
  destruct df as [| r0 rest]; [reflexivity |].
  unfold _normalize_scores. rewrite map_map. cbn [fst].
  rewrite <- (map_id (r0 :: rest)) at 2. apply map_ext. intros [h x]. reflexivity.
Qed.

(** C10: when the rows that the model returns for a criterion all have the
    same raw score, and so whenever there is exactly one row, every candidate
    keeps its row, every normalized score of that criterion is 0 and the
    criterion gives every one of its candidates the weighted score 0. *)
Theorem constant_scores_contribute_zero
        (predict_target : string -> string -> frame) (c : criterion) :
  let preds := predict_target (snd (fst c)) (fst (fst c)) in
  (forall r r', In r preds -> In r' preds -> snd r == snd r')
  \/ List.length preds = 1%nat ->
  map fst (_normalize_scores preds) = preds
  /\ map fst (weighted_preds predict_target c) = map fst preds
  /\ (forall row, In row (_normalize_scores preds) -> snd row == 0)
  /\ (forall row, In row (weighted_preds predict_target c) -> snd row == 0).
Proof.
  intros preds H.
  assert (Hall : forall r r', In r preds -> In r' preds -> snd r == snd r').
  { destruct H as [H | H]; [exact H | apply singleton_all_equal, H]. }
  split; [apply normalize_keeps_rows |]. split; [| split].
  - subst preds. destruct c as [[tail relation] weight]. cbn [fst snd].
    unfold weighted_preds. cbn. rewrite map_map. cbn [fst].
    rewrite <- (normalize_keeps_rows (predict_target relation tail)) at 2.
    rewrite map_map. reflexivity.
  - apply normalize_all_equal, Hall.
  - apply weighted_all_equal, Hall.
Qed.

Lemma constant_scores_contribute_zero_witness :
  map fst (_normalize_scores [("recipe_3", 7 # 10)]) = [("recipe_3", 7 # 10)]
  /\ map fst (weighted_preds (fun _ _ => [("recipe_3", 7 # 10)])
                            ("meal_type_dessert", "isForMealType", 2 # 1))
     = ["recipe_3"]
  /\ (forall row,
         In row (_normalize_scores [("recipe_3", 7 # 10)]) -> snd row == 0)
  /\ (forall row,
         In row (weighted_preds (fun _ _ => [("recipe_3", 7 # 10)])
                                ("meal_type_dessert", "isForMealType", 2 # 1)) ->
         snd row == 0).
Proof.
  apply (constant_scores_contribute_zero
           (fun _ _ => [("recipe_3", 7 # 10)])
           ("meal_type_dessert", "isForMealType", 2 # 1)).
  right. reflexivity.
Defined.

Example normalize_scores_run :
  map (fun row => Qred (snd row))
      (_normalize_scores
         [("recipe_10", 9 # 10); ("recipe_7", 5 # 10); ("ingredient_sugar", 8 # 10)])
  = [1; 0; 3 # 4].
Proof. vm_compute. reflexivity. Qed.

End Normalisation.

(** ** The worked ranking *)

Section Dessert.

Import recommender.

Variable predict_target : string -> string -> frame.
Variable sort_values_desc : frame -> frame.

(** C7: one criterion, strict mode, [top_k = 2], and a model that returns
    recipe_10 (0.9), recipe_7 (0.5) and ingredient_sugar (0.8): the result is
    ["10"; "7"], after one call to the model. *)
Theorem get_matching_recipes_dessert (log : list (string * string)) :
  sort_contract sort_values_desc ->
  predict_target "isForMealType" "meal_type_dessert"
  = [("recipe_10", 9 # 10); ("recipe_7", 5 # 10); ("ingredient_sugar", 8 # 10)] ->
  get_matching_recipes predict_target sort_values_desc
    [("meal_type_dessert", "isForMealType", 1%Q)] 2 false log
  = (Some ["10"; "7"], log ++ [("isForMealType", "meal_type_dessert")]).
Proof.
  intros Hsort Hpred.
  rewrite get_matching_recipes_run. cbn [map fold_left query_of fst snd].
  f_equal. unfold top_ids, weighted_preds, score_criterion, bind, predict, ret.
  cbn [fst]. rewrite Hpred.
  match goal with
  | |- context [sort_values_desc ?l] =>
      let l' := eval vm_compute in l in change l with l'
  end.
  rewrite (sort_contract_two sort_values_desc _ _ Hsort) by reflexivity.
  reflexivity.
Qed.

End Dessert.

Lemma get_matching_recipes_dessert_witness :
  recommender.get_matching_recipes
    (fun _ _ => [("recipe_10", 9 # 10); ("recipe_7", 5 # 10); ("ingredient_sugar", 8 # 10)])
    recommender.insertion_sort_desc
    [("meal_type_dessert", "isForMealType", 1%Q)] 2 false []
  = (Some ["10"; "7"], [("isForMealType", "meal_type_dessert")]).
Proof.
  apply (get_matching_recipes_dessert
           (fun _ _ => [("recipe_10", 9 # 10); ("recipe_7", 5 # 10);
                        ("ingredient_sugar", 8 # 10)])
           recommender.insertion_sort_desc []).
  - apply insertion_sort_desc_contract.
  - reflexivity.
Defined.

(** ** Merging the frames of the criteria *)

Section Merge.

Import recommender.

Lemma rows_of_In (h : string) (df : frame) (row : string * Q) :
  In row (rows_of h df) <-> In row df /\ fst row = h.
Proof.
  unfold rows_of. rewrite filter_In, String.eqb_eq. reflexivity.
Qed.

Lemma rows_of_nil (h : string) (df : frame) :
  rows_of h df = [] <-> ~ In h (map fst df).
Proof.
  induction df as [| r df IH]; cbn.
  - tauto.
  - destruct (String.eqb_spec (fst r) h) as [E | E].
    + split; [discriminate | intros H; exfalso; apply H; left; exact E].
    + rewrite IH. tauto.
Qed.

Lemma has_label_In (h : string) (df : frame) :
  has_label h df = true <-> In h (map fst df).
Proof.
  unfold has_label. rewrite existsb_exists, in_map_iff.
  split; intros [r [H1 H2]]; exists r.
  - apply String.eqb_eq in H2. tauto.
  - rewrite String.eqb_eq. tauto.
Qed.

Lemma In_label (h : string) (s : Q) (df : frame) :
  In (h, s) df -> In h (map fst df).
Proof. intros H. apply in_map_iff. exists (h, s). split; [reflexivity | exact H]. Qed.

(** With one row per label, the score of a label is the score of its row. *)
Lemma score_of_In (h : string) (s : Q) (df : frame) :
  NoDup (map fst df) -> In (h, s) df -> score_of h df = s.
Proof.
  unfold score_of. induction df as [| r df IH]; intros Hnd Hin.
  - contradiction Hin.
  - cbn in Hnd. inversion Hnd as [| ? ? Hnot Hnd']; subst.
    cbn [rows_of filter].
    destruct (String.eqb_spec (fst r) h) as [E | E].
    + destruct Hin as [-> | Hin]; [reflexivity |].
      exfalso. apply Hnot. rewrite E. eapply In_label, Hin.
    + destruct Hin as [-> | Hin]; [contradiction E; reflexivity |].
      apply IH; assumption.
Qed.

Lemma score_of_absent (h : string) (df : frame) :
  ~ In h (map fst df) -> score_of h df = 0.
Proof.
  intros H. unfold score_of. apply rows_of_nil in H. rewrite H. reflexivity.
Qed.

Lemma Qsum_app (a b : list Q) : Qsum (a ++ b) == Qsum a + Qsum b.
Proof.
  unfold Qsum. induction a as [| x a IH]; cbn [app fold_right].
  - ring.
  - rewrite IH. ring.
Qed.

Lemma Qsum_absent (h : string) (dfs : list frame) :
  (forall df, In df dfs -> ~ In h (map fst df)) ->
  Qsum (map (score_of h) dfs) == 0.
Proof.
  unfold Qsum. induction dfs as [| df dfs IH]; intros H; cbn [map fold_right].
  - reflexivity.
  - rewrite (score_of_absent h df) by (apply H; left; reflexivity).
    rewrite IH by (intros d Hd; apply H; right; exact Hd). ring.
Qed.

Lemma insert_by_label_perm {A : Type} (x : string * A) (l : list (string * A)) :
  Permutation (x :: l) (insert_by_label x l).
Proof.
  induction l as [| y r IH]; cbn [insert_by_label].
  - apply Permutation_refl.
  - destruct (String.leb (fst x) (fst y)).
    + apply Permutation_refl.
    + eapply perm_trans; [apply perm_swap | apply perm_skip, IH].
Qed.

Lemma sort_by_label_perm {A : Type} (l : list (string * A)) :
  Permutation l (sort_by_label l).
Proof.
  induction l as [| x l IH]; cbn.
  - apply perm_nil.
  - eapply perm_trans; [apply perm_skip, IH | apply insert_by_label_perm].
Qed.

(** *** One strict step *)

Lemma merge_inner_rows (m o : frame) (h : string) (s : Q) :
  In (h, s) (merge_step false m o) <->
  exists x y, In (h, x) m /\ In (h, y) o /\ s = x + y.
Proof.
  unfold merge_step, merge_inner. rewrite in_map_iff. split.
  - intros [[k [x y]] [E Hin]]. cbn in E. injection E as E1 E2. subst h s.
    apply in_flat_map in Hin. destruct Hin as [[k' x'] [Hl Hr]].
    apply in_map_iff in Hr. destruct Hr as [[k2 y'] [E Hr]].
    cbn in E. injection E as E1 E2 E3. subst k' x' y'.
    apply rows_of_In in Hr. destruct Hr as [Hr E]. cbn in E. subst k2.
    exists x, y. auto.
  - intros [x [y [Hm [Ho ->]]]]. exists (h, (x, y)). split; [reflexivity |].
    apply in_flat_map. exists (h, x). split; [exact Hm |].
    apply in_map_iff. exists (h, y). split; [reflexivity |].
    apply rows_of_In. auto.
Qed.

Lemma merge_inner_labels (m o : frame) (h : string) :
  In h (map fst (merge_step false m o)) <->
  In h (map fst m) /\ In h (map fst o).
Proof.
  split.
  - intros H. apply in_map_iff in H. destruct H as [[k s] [E H]]. cbn in E. subst k.
    apply merge_inner_rows in H. destruct H as [x [y [Hm [Ho _]]]].
    split; eapply In_label; eauto.
  - intros [Hm Ho]. apply in_map_iff in Hm. destruct Hm as [[k x] [E Hm]].
    apply in_map_iff in Ho. destruct Ho as [[k' y] [E' Ho]]. cbn in E, E'. subst.
    apply (In_label h (x + y)). apply merge_inner_rows. exists x, y. auto.
Qed.

Lemma merge_inner_label_list (m o : frame) :
  NoDup (map fst o) ->
  map fst (merge_step false m o)
  = filter (fun h => has_label h o) (map fst m).
Proof.
  intros Hnd. unfold merge_step, merge_inner. rewrite map_map. cbn [fst].
  induction m as [| l m IH]; [reflexivity |].
  cbn [flat_map map filter]. rewrite map_app, IH. f_equal.
  rewrite map_map. cbn [fst].
  destruct (has_label (fst l) o) eqn:E.
  - apply has_label_In in E. apply in_map_iff in E. destruct E as [[k y] [E Hy]].
    cbn in E. subst k.
    assert (Hrows : rows_of (fst l) o = [(fst l, y)]).
    { clear IH. induction o as [| r o IHo]; [contradiction Hy |].
      cbn in Hnd. inversion Hnd as [| ? ? Hnot Hnd']; subst.
      cbn [rows_of filter]. destruct Hy as [-> | Hy].
      - cbn [fst]. rewrite String.eqb_refl. f_equal.
        apply rows_of_nil. exact Hnot.
      - destruct (String.eqb_spec (fst r) (fst l)) as [E | E].
        + exfalso. apply Hnot. rewrite E. eapply In_label, Hy.
        + apply IHo; assumption. }
    rewrite Hrows. reflexivity.
  - assert (Hrows : rows_of (fst l) o = []).
    { apply rows_of_nil. intros H. apply has_label_In in H. congruence. }
    rewrite Hrows. reflexivity.
Qed.

Lemma merge_inner_NoDup (m o : frame) :
  NoDup (map fst m) -> NoDup (map fst o) ->
  NoDup (map fst (merge_step false m o)).
Proof.
  intros Hm Ho. rewrite merge_inner_label_list by exact Ho.
  apply NoDup_filter, Hm.
Qed.

(** *** One flexible step *)

Lemma rows_of_NoDup (h : string) (y : Q) (o : frame) :
  NoDup (map fst o) -> In (h, y) o -> rows_of h o = [(h, y)].
Proof.
  induction o as [| r o IH]; intros Hnd Hy; [contradiction Hy |].
  cbn in Hnd. inversion Hnd as [| ? ? Hnot Hnd']; subst.
  cbn [rows_of filter]. destruct Hy as [-> | Hy].
  - cbn [fst]. rewrite String.eqb_refl. f_equal.
    apply rows_of_nil. exact Hnot.
  - destruct (String.eqb_spec (fst r) h) as [E | E].
    + exfalso. apply Hnot. rewrite E. eapply In_label, Hy.
    + apply IH; assumption.
Qed.

Lemma labels_filter_NoDup (keep : string * Q -> bool) (df : frame) :
  NoDup (map fst df) -> NoDup (map fst (filter keep df)).
Proof.
  intros Hnd. induction df as [| row df IH]; cbn in *; [constructor |].
  inversion Hnd as [| ? ? Hnot Hrest]; subst.
  destruct (keep row); cbn; [| apply IH, Hrest].
  constructor; [| apply IH, Hrest].
  intros Hin. apply Hnot. apply in_map_iff in Hin. destruct Hin as [b [E Hb]].
  apply filter_In in Hb. apply in_map_iff. exists b. tauto.
Qed.

Lemma merge_outer_In (m o : frame) (row : string * (option Q * option Q)) :
  In row (merge_outer m o) <->
  (exists x y, In (fst row, x) m /\ In (fst row, y) o /\ snd row = (Some x, Some y))
  \/ (exists x, In (fst row, x) m /\ ~ In (fst row) (map fst o)
                /\ snd row = (Some x, None))
  \/ (exists y, ~ In (fst row) (map fst m) /\ In (fst row, y) o
                /\ snd row = (None, Some y)).
Proof.
  unfold merge_outer. split.
  - intros H. apply (Permutation_in _ (Permutation_sym (sort_by_label_perm _))) in H.
    apply in_app_or in H. destruct H as [H | H].
    + apply in_flat_map in H. destruct H as [[k x] [Hm H]]. cbn [fst snd] in H.
      destruct (rows_of k o) as [| r rs] eqn:E.
      * destruct H as [<- | []]. cbn [fst snd]. right; left. exists x.
        apply rows_of_nil in E. auto.
      * apply in_map_iff in H. destruct H as [[k' y] [<- Hr]]. cbn [fst snd].
        rewrite <- E in Hr. apply rows_of_In in Hr. destruct Hr as [Hr Ek].
        cbn in Ek. subst k'. left. exists x, y. auto.
    + apply in_map_iff in H. destruct H as [[k y] [<- Hr]]. cbn [fst snd].
      apply filter_In in Hr. destruct Hr as [Hr Hn]. cbn [fst] in Hn.
      right; right. exists y. repeat split; [| exact Hr].
      intros Hin. apply has_label_In in Hin. rewrite Hin in Hn. discriminate Hn.
  - intros H. apply (Permutation_in _ (sort_by_label_perm _)).
    apply in_or_app. destruct row as [k [ox oy]]. cbn [fst snd] in H.
    destruct H as [[x [y [Hm [Ho E]]]] | [[x [Hm [Ho E]]] | [y [Hm [Ho E]]]]];
      injection E as -> ->.
    + left. apply in_flat_map. exists (k, x). split; [exact Hm |]. cbn [fst snd].
      assert (Hr : In (k, y) (rows_of k o)) by (apply rows_of_In; auto).
      destruct (rows_of k o) as [| r rs]; [contradiction Hr |].
      apply in_map_iff. exists (k, y). auto.
    + left. apply in_flat_map. exists (k, x). split; [exact Hm |]. cbn [fst snd].
      apply rows_of_nil in Ho. rewrite Ho. left; reflexivity.
    + right. apply in_map_iff. exists (k, y). split; [reflexivity |].
      apply filter_In. split; [exact Ho |]. cbn [fst].
      destruct (has_label k m) eqn:E; [| reflexivity].
      apply has_label_In in E. contradiction.
Qed.

Lemma merge_outer_rows (m o : frame) (h : string) (s : Q) :
  In (h, s) (merge_step true m o) <->
  (exists x y, In (h, x) m /\ In (h, y) o /\ s = x + y)
  \/ (exists x, In (h, x) m /\ ~ In h (map fst o) /\ s = x + 0)
  \/ (exists y, ~ In h (map fst m) /\ In (h, y) o /\ s = 0 + y).
Proof.
  unfold merge_step. rewrite in_map_iff. split.
  - intros [[k [ox oy]] [E H]]. cbn [fst snd] in E. injection E as E1 E2. subst h s.
    apply merge_outer_In in H. cbn [fst snd] in H.
    destruct H as [[x [y [Hm [Ho E]]]] | [[x [Hm [Ho E]]] | [y [Hm [Ho E]]]]];
      injection E as -> ->; cbn [fillna0].
    + left. exists x, y. auto.
    + right; left. exists x. auto.
    + right; right. exists y. auto.
  - intros [[x [y [Hm [Ho ->]]]] | [[x [Hm [Ho ->]]] | [y [Hm [Ho ->]]]]].
    + exists (h, (Some x, Some y)). split; [reflexivity |].
      apply merge_outer_In. left. exists x, y. auto.
    + exists (h, (Some x, None)). split; [reflexivity |].
      apply merge_outer_In. right; left. exists x. auto.
    + exists (h, (None, Some y)). split; [reflexivity |].
      apply merge_outer_In. right; right. exists y. auto.
Qed.

Lemma merge_outer_labels (m o : frame) (h : string) :
  In h (map fst (merge_step true m o)) <->
  In h (map fst m) \/ In h (map fst o).
Proof.
  split.
  - intros H. apply in_map_iff in H. destruct H as [[k s] [E H]]. cbn in E. subst k.
    apply merge_outer_rows in H.
    destruct H as [[x [y [Hm _]]] | [[x [Hm _]] | [y [_ [Ho _]]]]].
    + left. eapply In_label, Hm.
    + left. eapply In_label, Hm.
    + right. eapply In_label, Ho.
  - intros H.
    assert (Hdec : forall df : frame, In h (map fst df) \/ ~ In h (map fst df)).
    { intros df. destruct (has_label h df) eqn:E.
      - left. apply has_label_In, E.
      - right. intros Hin. apply has_label_In in Hin. congruence. }
    destruct (Hdec m) as [Hm | Hm], (Hdec o) as [Ho | Ho].
    + apply in_map_iff in Hm. destruct Hm as [[k x] [E Hm]]. cbn in E. subst k.
      apply in_map_iff in Ho. destruct Ho as [[k y] [E Ho]]. cbn in E. subst k.
      apply (In_label h (x + y)), merge_outer_rows. left. exists x, y. auto.
    + apply in_map_iff in Hm. destruct Hm as [[k x] [E Hm]]. cbn in E. subst k.
      apply (In_label h (x + 0)), merge_outer_rows. right; left. exists x. auto.
    + apply in_map_iff in Ho. destruct Ho as [[k y] [E Ho]]. cbn in E. subst k.
      apply (In_label h (0 + y)), merge_outer_rows. right; right. exists y. auto.
    + tauto.
Qed.

Lemma map_fst_flat_map_single {A B : Type} (f : A -> list (string * B))
      (g : A -> string) (m : list A) :
  (forall l, In l m -> exists b, f l = [(g l, b)]) ->
  map fst (flat_map f m) = map g m.
Proof.
  induction m as [| l m IH]; intros H; [reflexivity |].
  cbn [flat_map map]. rewrite map_app, IH by (intros l' Hl'; apply H; right; exact Hl').
  destruct (H l (or_introl eq_refl)) as [b ->]. reflexivity.
Qed.

Lemma merge_outer_NoDup (m o : frame) :
  NoDup (map fst m) -> NoDup (map fst o) ->
  NoDup (map fst (merge_step true m o)).
Proof.
  intros Hm Ho. unfold merge_step, merge_outer. rewrite map_map. cbn [fst].
  eapply Permutation_NoDup;
    [apply Permutation_map, sort_by_label_perm |].
  rewrite map_app. apply NoDup_app.
  - erewrite (map_fst_flat_map_single _ fst); [exact Hm |].
    intros l _. cbn beta.
    destruct (rows_of (fst l) o) as [| r rs] eqn:Er; [eexists; reflexivity |].
    assert (Hr : In r (rows_of (fst l) o)) by (rewrite Er; left; reflexivity).
    apply rows_of_In in Hr. destruct Hr as [Hr Ek]. destruct r as [k y].
    cbn in Ek. subst k. rewrite (rows_of_NoDup _ _ _ Ho Hr) in Er.
    injection Er as <-. eexists; reflexivity.
  - rewrite map_map. cbn [fst]. apply labels_filter_NoDup, Ho.
  - intros a Ha Hb. rewrite map_map in Hb. cbn [fst] in Hb.
    apply in_map_iff in Hb. destruct Hb as [r [<- Hr]].
    apply filter_In in Hr. destruct Hr as [_ Hn].
    assert (Hin : In (fst r) (map fst m)).
    { apply in_map_iff in Ha. destruct Ha as [row [E Hrow]].
      apply in_flat_map in Hrow. destruct Hrow as [l [Hl Hrow]].
      assert (fst row = fst l).
      { destruct (rows_of (fst l) o) as [| r0 rs].
        - destruct Hrow as [<- | []]. reflexivity.
        - apply in_map_iff in Hrow. destruct Hrow as [r' [<- _]]. reflexivity. }
      rewrite <- E. apply in_map_iff. exists l. split; [congruence | exact Hl]. }
    apply has_label_In in Hin. rewrite Hin in Hn. discriminate Hn.
Qed.

End Merge.

(** ** The merged frame of all criteria *)

Section MergeAll.

Import recommender.

Lemma merge_fold_flexible (rest : list frame) :
  forall (acc : frame) (prev : list frame),
    NoDup (map fst acc) ->
    (forall df, In df rest -> NoDup (map fst df)) ->
    (forall h, In h (map fst acc) <-> exists df, In df prev /\ In h (map fst df)) ->
    (forall h s, In (h, s) acc -> s == Qsum (map (score_of h) prev)) ->
    NoDup (map fst (fold_left (merge_step true) rest acc))
    /\ (forall h, In h (map fst (fold_left (merge_step true) rest acc)) <->
                  exists df, In df (prev ++ rest) /\ In h (map fst df))
    /\ (forall h s, In (h, s) (fold_left (merge_step true) rest acc) ->
                    s == Qsum (map (score_of h) (prev ++ rest))).
Proof.
  induction rest as [| o rest IH]; intros acc prev Hnd Hrest Hlab Hsc.
  - cbn [fold_left]. rewrite app_nil_r. auto.
  - cbn [fold_left].
    assert (Ho : NoDup (map fst o)) by (apply Hrest; left; reflexivity).
    replace (prev ++ o :: rest) with ((prev ++ [o]) ++ rest)
      by (rewrite <- app_assoc; reflexivity).
    apply IH.
    + apply merge_outer_NoDup; assumption.
    + intros df Hdf. apply Hrest. right. exact Hdf.
    + intros h. rewrite merge_outer_labels, Hlab. split.
      * intros [[df [Hdf Hh]] | Hh].
        -- exists df. split; [apply in_or_app; left; exact Hdf | exact Hh].
        -- exists o. split; [apply in_or_app; right; left; reflexivity | exact Hh].
      * intros [df [Hdf Hh]]. apply in_app_or in Hdf.
        destruct Hdf as [Hdf | [<- | []]]; [left; exists df; auto | right; exact Hh].
    + intros h s Hin. rewrite map_app, Qsum_app. cbn [map]. unfold Qsum at 2.
      cbn [fold_right]. apply merge_outer_rows in Hin.
      destruct Hin as [[x [y [Hm [Hy ->]]]] | [[x [Hm [Hy ->]]] | [y [Hm [Hy ->]]]]].
      * rewrite (score_of_In h y o Ho Hy), (Hsc h x Hm). ring.
      * rewrite (score_of_absent h o Hy), (Hsc h x Hm). ring.
      * rewrite (score_of_In h y o Ho Hy).
        rewrite (Qsum_absent h prev).
        -- ring.
        -- intros df Hdf Hh. apply Hm. apply Hlab. exists df. auto.
Qed.

Lemma merge_fold_strict (rest : list frame) :
  forall (acc : frame) (prev : list frame),
    NoDup (map fst acc) ->
    (forall df, In df rest -> NoDup (map fst df)) ->
    (forall h, In h (map fst acc) <-> forall df, In df prev -> In h (map fst df)) ->
    (forall h s, In (h, s) acc -> s == Qsum (map (score_of h) prev)) ->
    NoDup (map fst (fold_left (merge_step false) rest acc))
    /\ (forall h, In h (map fst (fold_left (merge_step false) rest acc)) <->
                  forall df, In df (prev ++ rest) -> In h (map fst df))
    /\ (forall h s, In (h, s) (fold_left (merge_step false) rest acc) ->
                    s == Qsum (map (score_of h) (prev ++ rest))).
Proof.
  induction rest as [| o rest IH]; intros acc prev Hnd Hrest Hlab Hsc.
  - cbn [fold_left]. rewrite app_nil_r. auto.
  - cbn [fold_left].
    assert (Ho : NoDup (map fst o)) by (apply Hrest; left; reflexivity).
    replace (prev ++ o :: rest) with ((prev ++ [o]) ++ rest)
      by (rewrite <- app_assoc; reflexivity).
    apply IH.
    + apply merge_inner_NoDup; assumption.
    + intros df Hdf. apply Hrest. right. exact Hdf.
    + intros h. rewrite merge_inner_labels, Hlab. split.
      * intros [Hp Hh] df Hdf. apply in_app_or in Hdf.
        destruct Hdf as [Hdf | [<- | []]]; [apply Hp, Hdf | exact Hh].
      * intros H. split.
        -- intros df Hdf. apply H, in_or_app. left. exact Hdf.
        -- apply H, in_or_app. right. left. reflexivity.
    + intros h s Hin. rewrite map_app, Qsum_app. cbn [map]. unfold Qsum at 2.
      cbn [fold_right]. apply merge_inner_rows in Hin.
      destruct Hin as [x [y [Hm [Hy ->]]]].
      rewrite (score_of_In h y o Ho Hy), (Hsc h x Hm). ring.
Qed.

Variable predict_target : string -> string -> frame.
Variable sort_values_desc : frame -> frame.

Lemma weighted_preds_labels (c : criterion) :
  map fst (weighted_preds predict_target c)
  = map fst (predict_target (snd (fst c)) (fst (fst c))).
Proof.
  destruct c as [[tail relation] weight]. unfold weighted_preds. cbn.
  rewrite map_map. cbn [fst].
  destruct (predict_target relation tail) as [| r df]; [reflexivity |].
  unfold _normalize_scores. rewrite map_map. reflexivity.
Qed.

(** C2: let every criterion's frame have one row per candidate. In flexible
    mode the merged frame holds exactly the candidates of some criterion, in
    strict mode exactly the candidates of every criterion; in both modes it has
    one row per candidate, and the score of a row is the sum over all criteria
    of the candidate's weighted score, 0 where the criterion does not list
    it. The result of [get_matching_recipes] is computed from that frame. *)
Theorem merged_candidates (flexible : bool) (c : criterion) (cs : list criterion)
        (top_k : Z) (log : list (string * string)) :
  (forall c', In c' (c :: cs) ->
              NoDup (map fst (predict_target (snd (fst c')) (fst (fst c'))))) ->
  let all_preds := map (weighted_preds predict_target) (c :: cs) in
  exists merged : frame,
    merge_all flexible all_preds = Some merged
    /\ fst (get_matching_recipes predict_target sort_values_desc
                                 (c :: cs) top_k flexible log)
       = top_ids sort_values_desc merged top_k
    /\ NoDup (map fst merged)
    /\ (forall h, In h (map fst merged) <->
                  if flexible
                  then exists df, In df all_preds /\ In h (map fst df)
                  else forall df, In df all_preds -> In h (map fst df))
    /\ (forall h s, In (h, s) merged -> s == Qsum (map (score_of h) all_preds)).
Proof.
  intros Hnd all_preds.
  exists (fold_left (merge_step flexible)
                    (map (weighted_preds predict_target) cs)
                    (weighted_preds predict_target c)).
  split; [reflexivity |].
  split; [rewrite get_matching_recipes_run; reflexivity |].
  assert (H0 : NoDup (map fst (weighted_preds predict_target c))).
  { rewrite weighted_preds_labels. apply Hnd. left. reflexivity. }
  assert (Hrest : forall df, In df (map (weighted_preds predict_target) cs) ->
                             NoDup (map fst df)).
  { intros df Hdf. apply in_map_iff in Hdf. destruct Hdf as [c' [<- Hc']].
    rewrite weighted_preds_labels. apply Hnd. right. exact Hc'. }
  assert (Hsc : forall h s, In (h, s) (weighted_preds predict_target c) ->
                            s == Qsum (map (score_of h) [weighted_preds predict_target c])).
  { intros h s Hin. unfold Qsum. cbn [map fold_right].
    rewrite (score_of_In h s _ H0 Hin). ring. }
  subst all_preds. cbn [map].
  change (weighted_preds predict_target c :: map (weighted_preds predict_target) cs)
    with ([weighted_preds predict_target c] ++ map (weighted_preds predict_target) cs).
  destruct flexible.
  - apply merge_fold_flexible; try assumption.
    intros h. split.
    + intros Hh. exists (weighted_preds predict_target c). split; [left; reflexivity | exact Hh].
    + intros [df [[<- | []] Hh]]. exact Hh.
  - apply merge_fold_strict; try assumption.
    intros h. split.
    + intros Hh df [<- | []]. exact Hh.
    + intros H. apply H. left. reflexivity.
Qed.

End MergeAll.

Ltac nodup_labels :=
  cbn; repeat (constructor; [cbn; intuition congruence |]); constructor.

Lemma merged_candidates_witness :
  let predict_target :=
    fun (_ tail : string) =>
      if String.eqb tail "meal_type_dessert"
      then [("recipe_1", 9 # 10); ("recipe_2", 5 # 10)]
      else [("recipe_2", 4 # 10); ("recipe_3", 1 # 10)] in
  let criteria :=
    [("meal_type_dessert", "isForMealType", 1%Q);
     ("diet_type_Vegan", "hasDietType", 2 # 1)] in
  let all_preds := map (recommender.weighted_preds predict_target) criteria in
  exists merged : recommender.frame,
    recommender.merge_all true all_preds = Some merged
    /\ fst (recommender.get_matching_recipes
              predict_target recommender.insertion_sort_desc criteria 5 true [])
       = recommender.top_ids recommender.insertion_sort_desc merged 5
    /\ NoDup (map fst merged)
    /\ (forall h, In h (map fst merged) <->
                  exists df, In df all_preds /\ In h (map fst df))
    /\ (forall h s, In (h, s) merged ->
                    s == recommender.Qsum (map (recommender.score_of h) all_preds)).
Proof.
  intros predict_target criteria.
  apply (merged_candidates predict_target recommender.insertion_sort_desc true
           ("meal_type_dessert", "isForMealType", 1%Q)
           [("diet_type_Vegan", "hasDietType", 2 # 1)] 5 []).
  intros c' [<- | [<- | []]]; nodup_labels.
Defined.

(** Union against intersection on two criteria that share recipe_2. *)
Example union_and_intersection :
  let predict_target :=
    fun (_ tail : string) =>
      if String.eqb tail "meal_type_dessert"
      then [("recipe_1", 9 # 10); ("recipe_2", 5 # 10)]
      else [("recipe_2", 4 # 10); ("recipe_3", 1 # 10)] in
  let criteria :=
    [("meal_type_dessert", "isForMealType", 1%Q);
     ("diet_type_Vegan", "hasDietType", 1%Q)] in
  fst (recommender.get_matching_recipes
         predict_target recommender.insertion_sort_desc criteria 5 true [])
  = Some ["1"; "2"; "3"]
  /\ fst (recommender.get_matching_recipes
            predict_target recommender.insertion_sort_desc criteria 5 false [])
     = Some ["2"].
Proof. split; vm_compute; reflexivity. Qed.

(** ** The graph builder, record by record *)

Section Builder.

Import graph_triples.

Lemma nval_eqb_eq (a b : nval) : nval_eqb a b = true <-> a = b.
Proof.
  destruct a as [x | x], b as [y | y]; cbn.
  - rewrite Z.eqb_eq. split; [intros -> | intros [= ->]]; reflexivity.
  - split; discriminate.
  - split; discriminate.
  - rewrite String.eqb_eq. split; [intros -> | intros [= ->]]; reflexivity.
Qed.

Lemma node_eqb_eq (a b : node) : node_eqb a b = true <-> a = b.
Proof.
  destruct a as [ta va], b as [tb vb]. unfold node_eqb. cbn [fst snd].
  rewrite andb_true_iff, String.eqb_eq, nval_eqb_eq.
  split; [intros [-> ->] | intros [= -> ->]]; auto.
Qed.

Lemma fold_left_flat_map {A B S : Type} (f : S -> B -> S) (g : A -> list B)
      (l : list A) (st : S) :
  fold_left f (flat_map g l) st = fold_left (fun st x => fold_left f (g x) st) l st.
Proof.
  revert st; induction l as [| x l IH]; intros st; cbn; [reflexivity |].
  rewrite fold_left_app. apply IH.
Qed.

Lemma fold_left_guarded {A B S : Type} (f : S -> B -> S) (h : A -> B)
      (p : A -> bool) (l : list A) (st : S) :
  fold_left (fun st x => if p x then f st (h x) else st) l st
  = fold_left f (map h (filter p l)) st.
Proof.
  revert st; induction l as [| x l IH]; intros st; cbn; [reflexivity |].
  destruct (p x); cbn; apply IH.
Qed.

Lemma fold_left_ext {A S : Type} (f g : S -> A -> S) (l : list A) (st : S) :
  (forall s x, f s x = g s x) -> fold_left f l st = fold_left g l st.
Proof.
  intros H. revert st; induction l as [| x l IH]; intros st; cbn; [reflexivity |].
  rewrite H. apply IH.
Qed.

Variable recipe_node : node.

Lemma single_values_as_links (d : details) (st : state) :
  fold_left (single_value_step recipe_node d) attribute_mappings st
  = fold_left (attach_link recipe_node) (single_value_links d) st.
Proof.
  unfold single_value_links. rewrite fold_left_flat_map.
  apply fold_left_ext. intros s [col [relation node_type]].
  unfold single_value_step. destruct (has_value (dict_get d col PyNone)); reflexivity.
Qed.

Lemma healthy_as_links (d : details) (st : state) :
  healthy_step recipe_node d st
  = fold_left (attach_link recipe_node) (healthy_links d) st.
Proof.
  unfold healthy_step, healthy_links.
  destruct (has_value (dict_get d "Healthy_Type" PyNone)); [| reflexivity].
  rewrite <- fold_left_guarded. reflexivity.
Qed.

Lemma list_values_as_links (d : details) (st : state) :
  fold_left (list_value_step recipe_node d) list_attributes st
  = fold_left (attach_link recipe_node) (list_value_links d) st.
Proof.
  unfold list_value_links. rewrite fold_left_flat_map.
  apply fold_left_ext. intros s [col [[relation node_type] delimiter]].
  unfold list_value_step. destruct (has_value (dict_get d col PyNone)); [| reflexivity].
  rewrite <- fold_left_guarded. reflexivity.
Qed.

Lemma ingredients_as_links (d : details) (st : state) :
  ingredients_step recipe_node d st
  = fold_left (attach_link recipe_node) (ingredient_links d) st.
Proof.
  unfold ingredients_step, ingredient_links.
  destruct (has_value (dict_get d "BestUsdaIngredientName" PyNone)); [| reflexivity].
  rewrite <- fold_left_guarded. reflexivity.
Qed.

(** *** What one attachment does to the triples and to the edges *)

Lemma add_node_edges (G : DiGraph) (n : node) (a : attrs) :
  edges (add_node G n a) = edges G.
Proof. unfold add_node. destruct (has_node G n); reflexivity. Qed.

Lemma add_edge_edges (G : DiGraph) (u v : node) (r : string) :
  edges (add_edge G u v r) = put_edge (edges G) (u, v, r).
Proof.
  unfold add_edge, put_edge, has_edge, edge. cbn [fst snd].
  destruct (has_node G u); cbn [edges nodes];
    match goal with
    | |- context [has_node ?g v] => destruct (has_node g v)
    end; cbn [edges nodes];
    match goal with
    | |- context [existsb ?f ?l] => destruct (existsb f l)
    end; reflexivity.
Qed.

Lemma attach_link_triples (st : state) (l : link) :
  snd (attach_link recipe_node st l)
  = snd st ++ [edge_triple (recipe_node, link_node l, link_relation l)].
Proof. destruct st as [G triples]. reflexivity. Qed.

Lemma attach_link_edges (st : state) (l : link) :
  edges (fst (attach_link recipe_node st l))
  = put_edge (edges (fst st)) (recipe_node, link_node l, link_relation l).
Proof.
  destruct st as [G triples]. unfold attach_link, attach. cbn [fst].
  rewrite add_edge_edges. destruct (negb (has_node G (link_node l))); [| reflexivity].
  rewrite add_node_edges. reflexivity.
Qed.

Lemma attach_links_triples (ls : list link) (st : state) :
  snd (fold_left (attach_link recipe_node) ls st)
  = snd st ++ map (fun l => edge_triple (recipe_node, link_node l, link_relation l)) ls.
Proof.
  revert st; induction ls as [| l ls IH]; intros st; cbn [fold_left map].
  - rewrite app_nil_r. reflexivity.
  - rewrite IH, attach_link_triples, <- app_assoc. reflexivity.
Qed.

Lemma attach_links_edges (ls : list link) (st : state) :
  edges (fst (fold_left (attach_link recipe_node) ls st))
  = fold_left put_edge
              (map (fun l => (recipe_node, link_node l, link_relation l)) ls)
              (edges (fst st)).
Proof.
  revert st; induction ls as [| l ls IH]; intros st; cbn [fold_left map].
  - reflexivity.
  - rewrite IH, attach_link_edges. reflexivity.
Qed.

End Builder.

Section BuilderFold.

Import graph_triples.

Lemma recipe_step_as_links (st : state) (recipe_id : Z) (d : details) :
  recipe_step st (recipe_id, d)
  = fold_left (attach_link ("recipe", VInt recipe_id)) (recipe_links d)
              (add_node (fst st) ("recipe", VInt recipe_id)
                        [("type", VStr "recipe"); ("RecipeId", VInt recipe_id)],
               snd st).
Proof.
  unfold recipe_step, recipe_links. rewrite !fold_left_app.
  rewrite single_values_as_links, healthy_as_links, list_values_as_links,
    ingredients_as_links. reflexivity.
Qed.

Lemma recipes_fold_triples (recipes : list (Z * details)) (st : state) :
  snd (fold_left recipe_step recipes st)
  = snd st ++ map edge_triple (asked_edges recipes).
Proof.
  revert st; induction recipes as [| [rid d] recipes IH]; intros st;
    cbn [fold_left asked_edges flat_map].
  - cbn. rewrite app_nil_r. reflexivity.
  - rewrite IH, recipe_step_as_links, attach_links_triples. cbn [snd].
    rewrite map_app, <- app_assoc. unfold record_edges. rewrite map_map.
    reflexivity.
Qed.

Lemma recipes_fold_edges (recipes : list (Z * details)) (st : state) :
  edges (fst (fold_left recipe_step recipes st))
  = fold_left put_edge (asked_edges recipes) (edges (fst st)).
Proof.
  revert st; induction recipes as [| [rid d] recipes IH]; intros st;
    cbn [fold_left asked_edges flat_map].
  - reflexivity.
  - rewrite IH, recipe_step_as_links, attach_links_edges. cbn [fst].
    rewrite add_node_edges, fold_left_app. reflexivity.
Qed.

(** The triples are the asked edges, one triple per attachment. *)
Lemma create_triples (recipes : list (Z * details)) :
  snd (create_graph_and_triples recipes) = map edge_triple (asked_edges recipes).
Proof. unfold create_graph_and_triples. rewrite recipes_fold_triples. reflexivity. Qed.

Lemma create_edges (recipes : list (Z * details)) :
  edges (fst (create_graph_and_triples recipes))
  = fold_left put_edge (asked_edges recipes) [].
Proof. unfold create_graph_and_triples. rewrite recipes_fold_edges. reflexivity. Qed.

End BuilderFold.

(** ** Edges of the graph against asked edges *)

Section Edges.

Import graph_triples.

Lemma links_consistent (d : details) (l : link) :
  In l (recipe_links d) -> link_relation l = relation_of (link_node l).
Proof.
  unfold recipe_links. rewrite !in_app_iff. intros [H | [H | [H | H]]].
  - unfold single_value_links in H. apply in_flat_map in H.
    destruct H as [m [Hm H]].
    destruct Hm as [<- | [<- | [<- | [<- | []]]]]; cbn beta iota in H;
      match type of H with
      | In _ (if ?b then _ else _) => destruct b
      end; try contradiction H; destruct H as [<- | []]; reflexivity.
  - unfold healthy_links in H.
    destruct (has_value (dict_get d "Healthy_Type" PyNone)); [| contradiction H].
    apply in_map_iff in H. destruct H as [el [<- _]]. reflexivity.
  - unfold list_value_links in H. apply in_flat_map in H.
    destruct H as [m [Hm H]].
    destruct Hm as [<- | [<- | []]]; cbn beta iota in H;
      match type of H with
      | In _ (if ?b then _ else _) => destruct b
      end; try contradiction H;
      apply in_map_iff in H; destruct H as [el [<- _]]; reflexivity.
  - unfold ingredient_links in H.
    destruct (has_value (dict_get d "BestUsdaIngredientName" PyNone));
      [| contradiction H].
    apply in_map_iff in H. destruct H as [el [<- _]]. reflexivity.
Qed.

Lemma asked_edges_In (recipes : list (Z * details)) (e : edge) :
  In e (asked_edges recipes) <->
  exists rid d l, In (rid, d) recipes /\ In l (recipe_links d)
                  /\ e = (("recipe", VInt rid), link_node l, link_relation l).
Proof.
  unfold asked_edges, record_edges. rewrite in_flat_map. split.
  - intros [[rid d] [Hitem He]]. apply in_map_iff in He.
    destruct He as [l [<- Hl]]. exists rid, d, l. auto.
  - intros [rid [d [l [Hitem [Hl ->]]]]]. exists (rid, d). split; [exact Hitem |].
    apply in_map_iff. exists l. auto.
Qed.

Lemma asked_edges_consistent (recipes : list (Z * details)) :
  Forall edge_consistent (asked_edges recipes).
Proof.
  apply Forall_forall. intros e He. apply asked_edges_In in He.
  destruct He as [rid [d [l [_ [Hl ->]]]]]. unfold edge_consistent. cbn [fst snd].
  apply links_consistent with (d := d). exact Hl.
Qed.

Lemma same_pair_consistent (e e' : edge) :
  edge_consistent e -> edge_consistent e' ->
  node_eqb (fst (fst e')) (fst (fst e)) && node_eqb (snd (fst e')) (snd (fst e)) = true
  <-> e' = e.
Proof.
  intros He He'. rewrite andb_true_iff, !node_eqb_eq.
  destruct e as [[u v] r], e' as [[u' v'] r']. unfold edge_consistent in *.
  cbn [fst snd] in *. split.
  - intros [-> ->]. congruence.
  - intros [= -> -> ->]. auto.
Qed.

Lemma put_edge_cases (es : list edge) (e : edge) :
  Forall edge_consistent es -> edge_consistent e ->
  (In e es /\ put_edge es e = es) \/ (~ In e es /\ put_edge es e = es ++ [e]).
Proof.
  intros Hes He. unfold put_edge.
  destruct (existsb _ es) eqn:E.
  - left. apply existsb_exists in E. destruct E as [e' [Hin Hsame]].
    assert (e' = e).
    { apply same_pair_consistent; try assumption.
      eapply Forall_forall in Hes; eauto. }
    subst e'. clear Hsame. split; [exact Hin |].
    rewrite <- (map_id es) at 2. apply map_ext_in. intros a Ha.
    destruct (node_eqb (fst (fst a)) _ && node_eqb _ _) eqn:Ea; [| reflexivity].
    symmetry. apply same_pair_consistent; try assumption.
    eapply Forall_forall in Hes; eauto.
  - right. split; [| reflexivity].
    intros Hin. assert (Ht : existsb
      (fun e' : edge =>
         node_eqb (fst (fst e')) (fst (fst e)) && node_eqb (snd (fst e')) (snd (fst e)))
      es = true).
    { apply existsb_exists. exists e. split; [exact Hin |].
      apply same_pair_consistent; auto. }
    congruence.
Qed.

Lemma fold_put_edge_In (evs es : list edge) :
  Forall edge_consistent es -> Forall edge_consistent evs ->
  Forall edge_consistent (fold_left put_edge evs es)
  /\ forall x, In x (fold_left put_edge evs es) <-> In x es \/ In x evs.
Proof.
  revert es; induction evs as [| e evs IH]; intros es Hes Hevs; cbn [fold_left].
  - split; [exact Hes | intros x; cbn; tauto].
  - inversion Hevs as [| ? ? He Hevs']; subst.
    destruct (put_edge_cases es e Hes He) as [[Hin ->] | [Hin ->]].
    + destruct (IH es Hes Hevs') as [Hc Hx]. split; [exact Hc |].
      intros x. rewrite Hx. cbn. split; [tauto |].
      intros [H | [<- | H]]; auto.
    + assert (Hes' : Forall edge_consistent (es ++ [e])).
      { apply Forall_app. split; [exact Hes | constructor; [exact He | constructor]]. }
      destruct (IH _ Hes' Hevs') as [Hc Hx]. split; [exact Hc |].
      intros x. rewrite Hx, in_app_iff. cbn. tauto.
Qed.

Lemma fold_put_edge_NoDup (evs es : list edge) :
  Forall edge_consistent es -> Forall edge_consistent evs -> NoDup (es ++ evs) ->
  fold_left put_edge evs es = es ++ evs.
Proof.
  revert es; induction evs as [| e evs IH]; intros es Hes Hevs Hnd; cbn [fold_left].
  - rewrite app_nil_r. reflexivity.
  - inversion Hevs as [| ? ? He Hevs']; subst.
    destruct (put_edge_cases es e Hes He) as [[Hin _] | [_ ->]].
    + exfalso. apply NoDup_remove_2 in Hnd. apply Hnd, in_or_app. left. exact Hin.
    + replace (es ++ e :: evs) with ((es ++ [e]) ++ evs) in *
        by (rewrite <- app_assoc; reflexivity).
      apply IH; try assumption.
      apply Forall_app. split; [exact Hes | constructor; [exact He | constructor]].
Qed.

(** The graph holds exactly the asked edges. *)
Lemma create_edges_In (recipes : list (Z * details)) (e : edge) :
  In e (edges (fst (create_graph_and_triples recipes))) <-> In e (asked_edges recipes).
Proof.
  rewrite create_edges.
  destruct (fold_put_edge_In (asked_edges recipes) [] (Forall_nil _)
                             (asked_edges_consistent recipes)) as [_ H].
  rewrite H. cbn. tauto.
Qed.

Lemma create_edges_NoDup (recipes : list (Z * details)) :
  NoDup (asked_edges recipes) ->
  edges (fst (create_graph_and_triples recipes)) = asked_edges recipes.
Proof.
  intros H. rewrite create_edges.
  apply (fold_put_edge_NoDup (asked_edges recipes) [] (Forall_nil _)
                             (asked_edges_consistent recipes)).
  exact H.
Qed.

End Edges.

(** ** The text of a node names the node *)

Section NodeText.

Import graph_triples.

Lemma append_assoc (a b c : string) : ((a ++ b) ++ c = a ++ (b ++ c))%string.
Proof. induction a as [| x a IH]; cbn; [reflexivity | rewrite IH; reflexivity]. Qed.

Lemma append_char_inj (a b : string) (c : ascii) :
  (a ++ String c "" = b ++ String c "")%string -> a = b.
Proof.
  revert b; induction a as [| x a IH]; intros [| y b] H; cbn in H.
  - reflexivity.
  - injection H as _ H. destruct b; discriminate H.
  - injection H as _ H. destruct a; discriminate H.
  - injection H as -> H. f_equal. apply IH, H.
Qed.

(** One character written by [repr_char] is read back by [unrepr_body]. *)
Lemma unrepr_char (q c : ascii) (rest : string) :
  q = Py.quote \/ q = Py.dquote ->
  Py.unrepr_body q (Py.repr_char q c ++ rest)
  = match Py.unrepr_body q rest with
    | Some (d, r) => Some (String c d, r)
    | None => None
    end.
Proof.
  intros [-> | ->];
    destruct c as [[] [] [] [] [] [] [] []]; reflexivity.
Qed.

Lemma unrepr_repr_body (q : ascii) (s rest : string) :
  q = Py.quote \/ q = Py.dquote ->
  Py.unrepr_body q (Py.repr_body q s ++ String q rest) = Some (s, rest).
Proof.
  intros Hq. induction s as [| c s IH]; cbn [Py.repr_body].
  - cbn. rewrite Ascii.eqb_refl. reflexivity.
  - rewrite append_assoc, unrepr_char by exact Hq. rewrite IH. reflexivity.
Qed.

(** [repr] of a string is a prefix code. *)
Lemma repr_str_inj (s1 s2 r1 r2 : string) :
  (Py.repr_str s1 ++ r1 = Py.repr_str s2 ++ r2)%string -> s1 = s2 /\ r1 = r2.
Proof.
  unfold Py.repr_str.
  destruct (Py.contains (String Py.quote "") s1
            && negb (Py.contains (String Py.dquote "") s1));
    destruct (Py.contains (String Py.quote "") s2
              && negb (Py.contains (String Py.dquote "") s2));
    cbn [String.append]; intros H.
  - injection H as H. rewrite !append_assoc in H. cbn [String.append] in H.
    apply (f_equal (Py.unrepr_body Py.dquote)) in H.
    rewrite !unrepr_repr_body in H by (right; reflexivity).
    injection H as -> ->. auto.
  - exfalso. injection H as Hq _. vm_compute in Hq. discriminate Hq.
  - exfalso. injection H as Hq _. vm_compute in Hq. discriminate Hq.
  - injection H as H. rewrite !append_assoc in H. cbn [String.append] in H.
    apply (f_equal (Py.unrepr_body Py.quote)) in H.
    rewrite !unrepr_repr_body in H by (left; reflexivity).
    injection H as -> ->. auto.
Qed.

Lemma str_int_head (z : Z) :
  exists c r, Py.str_int z = String c r /\ c <> Py.quote /\ c <> Py.dquote.
Proof.
  unfold Py.str_int. destruct z as [| p | p]; cbn.
  - eexists _, _. repeat split; discriminate.
  - pose proof (Unsigned.to_uint_nonnil p) as Hn.
    destruct (Pos.to_uint p); try contradiction; cbn;
      eexists _, _; repeat split; discriminate.
  - eexists _, _. repeat split; discriminate.
Qed.

Lemma str_int_inj (z1 z2 : Z) : Py.str_int z1 = Py.str_int z2 -> z1 = z2.
Proof.
  unfold Py.str_int. intros H. apply to_int_inj.
  assert (Hnn : forall z, Z.to_int z <> Decimal.Pos Decimal.Nil
                          /\ Z.to_int z <> Decimal.Neg Decimal.Nil).
  { intros [| p | p]; cbn; split; try discriminate;
      intros [= E]; apply (Unsigned.to_uint_nonnil p); exact E. }
  apply (f_equal NilZero.int_of_string) in H.
  rewrite !NilZero.isi in H by apply Hnn.
  injection H as H. exact H.
Qed.

Lemma string_tail_inj (c : ascii) (a b : string) : String c a = String c b -> a = b.
Proof. intros [= E]. exact E. Qed.

Lemma node_str_inj (n1 n2 : node) : node_str n1 = node_str n2 -> n1 = n2.
Proof.
  destruct n1 as [t1 v1], n2 as [t2 v2]. unfold node_str. cbn [fst snd].
  intros H.
  change (String "(" (Py.repr_str t1 ++ (", " ++ (repr_nval v1 ++ ")")))
          = String "(" (Py.repr_str t2 ++ (", " ++ (repr_nval v2 ++ ")"))))%string in H.
  apply string_tail_inj in H. apply repr_str_inj in H. destruct H as [-> H].
  change (String "," (String " " (repr_nval v1 ++ ")"))
          = String "," (String " " (repr_nval v2 ++ ")")))%string in H.
  do 2 apply string_tail_inj in H. f_equal.
  destruct v1 as [z1 | s1], v2 as [z2 | s2]; cbn [repr_nval] in H.
  - apply append_char_inj in H. f_equal. apply str_int_inj, H.
  - exfalso. destruct (str_int_head z1) as [c [r [E [Hq Hd]]]]. rewrite E in H.
    unfold Py.repr_str in H. cbn [String.append] in H.
    apply (f_equal (String.get 0)) in H. cbn [String.get] in H.
    destruct (_ && _) in H; congruence.
  - exfalso. destruct (str_int_head z2) as [c [r [E [Hq Hd]]]]. rewrite E in H.
    unfold Py.repr_str in H. cbn [String.append] in H.
    apply (f_equal (String.get 0)) in H. cbn [String.get] in H.
    destruct (_ && _) in H; congruence.
  - apply repr_str_inj in H. destruct H as [-> _]. reflexivity.
Qed.

Lemma edge_triple_inj (e1 e2 : edge) : edge_triple e1 = edge_triple e2 -> e1 = e2.
Proof.
  destruct e1 as [[u1 v1] r1], e2 as [[u2 v2] r2]. unfold edge_triple. cbn [fst snd].
  intros H.
  pose proof (f_equal (fun t : triple => fst (fst t)) H) as Hu.
  pose proof (f_equal (fun t : triple => snd (fst t)) H) as Hr.
  pose proof (f_equal (fun t : triple => snd t) H) as Hv.
  cbn [fst snd] in Hu, Hr, Hv. apply node_str_inj in Hu, Hv. congruence.
Qed.

End NodeText.

(** ** Triples against edges *)

Section TriplesAndEdges.

Import graph_triples.

Lemma record_edges_NoDup (item : Z * details) :
  NoDup (map link_node (recipe_links (snd item))) -> NoDup (record_edges item).
Proof.
  intros H. unfold record_edges.
  apply (NoDup_map_inv (fun e : edge => snd (fst e))).
  rewrite map_map. cbn [fst snd]. exact H.
Qed.

Lemma record_edges_source (item : Z * details) (e : edge) :
  In e (record_edges item) -> fst (fst e) = ("recipe", VInt (fst item)).
Proof.
  unfold record_edges. intros H. apply in_map_iff in H.
  destruct H as [l [<- _]]. reflexivity.
Qed.

(** Distinct recipe ids and no repeated target within a record: no edge is
    asked twice. *)
Lemma asked_edges_NoDup (recipes : list (Z * details)) :
  NoDup (map fst recipes) ->
  (forall item, In item recipes -> NoDup (map link_node (recipe_links (snd item)))) ->
  NoDup (asked_edges recipes).
Proof.
  induction recipes as [| item recipes IH]; intros Hk Hl; cbn [asked_edges flat_map].
  - constructor.
  - cbn [map] in Hk. inversion Hk as [| ? ? Hnot Hk']; subst.
    apply NoDup_app.
    + apply record_edges_NoDup, Hl. left. reflexivity.
    + apply IH; [exact Hk' | intros it Hit; apply Hl; right; exact Hit].
    + intros e He Hrest. apply record_edges_source in He.
      apply in_flat_map in Hrest. destruct Hrest as [item' [Hitem' He']].
      apply record_edges_source in He'. rewrite He in He'.
      injection He' as E. apply Hnot. rewrite E. apply in_map. exact Hitem'.
Qed.

(** C4, as stated, fails: a record that lists "Vegan" twice gets one edge
    and two triples. *)
Lemma repeated_element_two_triples :
  let recipes := [(5%Z, [("Diet_Types", PyStr "Vegan,Vegan")])] in
  let e := (("recipe", VInt 5), ("diet_type", VStr "Vegan"), "hasDietType") in
  edges (fst (create_graph_and_triples recipes)) = [e]
  /\ snd (create_graph_and_triples recipes) = [edge_triple e; edge_triple e]
  /\ ~ Permutation (map edge_triple (edges (fst (create_graph_and_triples recipes))))
                   (snd (create_graph_and_triples recipes)).
Proof.
  cbv zeta. split; [reflexivity |]. split; [reflexivity |].
  intros H. apply Permutation_length in H. vm_compute in H. discriminate H.
Qed.

(** C4 (amended): every triple is the text of exactly one edge of the graph,
    and every edge has its triple in the list. When the recipe ids are
    distinct and no record names the same attribute node twice, the list of
    triples is the list of edges, each written once. *)
Theorem triples_and_edges (recipes : list (Z * details)) :
  let G := fst (create_graph_and_triples recipes) in
  let triples := snd (create_graph_and_triples recipes) in
  (forall t, In t triples -> exists! e, In e (edges G) /\ edge_triple e = t)
  /\ (forall e, In e (edges G) -> In (edge_triple e) triples)
  /\ (NoDup (map fst recipes) ->
      (forall item, In item recipes ->
                    NoDup (map link_node (recipe_links (snd item)))) ->
      triples = map edge_triple (edges G) /\ NoDup triples).
Proof.
  cbv zeta. rewrite create_triples. repeat split.
  - intros t Ht. apply in_map_iff in Ht. destruct Ht as [e [<- He]].
    exists e. split.
    + split; [apply create_edges_In, He | reflexivity].
    + intros e' [_ E]. symmetry. apply edge_triple_inj, E.
  - intros e He. apply in_map, create_edges_In, He.
  - rewrite create_edges_NoDup; [reflexivity | apply asked_edges_NoDup; assumption].
  - apply Injective_map_NoDup.
    + intros a b. apply edge_triple_inj.
    + apply asked_edges_NoDup; assumption.
Qed.

Lemma triples_and_edges_witness :
  let recipes :=
    [(5%Z, [("Cooking_Method", PyStr "Baked"); ("Diet_Types", PyStr "Vegan, Keto")]);
     (7%Z, [("Diet_Types", PyStr "Vegan"); ("BestUsdaIngredientName", PyStr "Tomato;Salt")])] in
  snd (create_graph_and_triples recipes)
  = map edge_triple (edges (fst (create_graph_and_triples recipes)))
  /\ NoDup (snd (create_graph_and_triples recipes)).
Proof.
  intros recipes.
  apply (proj2 (proj2 (triples_and_edges recipes))).
  - subst recipes. cbn [map fst].
    repeat (constructor; [cbn; intuition congruence |]). constructor.
  - subst recipes. intros item [<- | [<- | []]]; vm_compute;
      repeat (constructor; [cbn; intuition congruence |]); constructor.
Defined.

End TriplesAndEdges.

(** ** Placeholders and blank values *)

Section Placeholder.

Import graph_triples.

Lemma has_value_placeholder (v : pyobj) :
  v = PyStr UNKNOWN_PLACEHOLDER \/ Py.strip (str v) = "" -> has_value v = false.
Proof.
  intros [-> | H]; [reflexivity |].
  unfold has_value. rewrite H. cbn. apply andb_false_r.
Qed.

Lemma map_health_attribute_values (element : string) :
  In (map_health_attribute element)
     ["HasProteinLevel"; "HasCarbLevel"; "HasFatLevel"; "HasSaturatedFatLevel";
      "HasCalorieLevel"; "HasSodiumLevel"; "HasSugarLevel"; "HasFiberLevel";
      "HasCholesterolLevel"; "HasHealthAttribute"].
Proof.
  unfold map_health_attribute.
  repeat match goal with
         | |- context [if ?b then _ else _] => destruct b
         end; cbn; tauto.
Qed.

Lemma health_relation_not_single (element col rel nt : string) :
  In (col, (rel, nt)) attribute_mappings -> map_health_attribute element <> rel.
Proof.
  intros Hm E. pose proof (map_health_attribute_values element) as Hv.
  rewrite E in Hv.
  destruct Hm as [[= <- <- <-] | [[= <- <- <-] | [[= <- <- <-] | [[= <- <- <-] | []]]]];
    cbn in Hv; intuition discriminate.
Qed.

(** A link into a node of a single-valued category, or with the relation of
    that category, is there only when the record has a value for it. *)
Lemma links_single_category (d : details) (l : link) (col rel nt : string) :
  In (col, (rel, nt)) attribute_mappings ->
  In l (recipe_links d) ->
  fst (link_node l) = nt \/ link_relation l = rel ->
  has_value (dict_get d col PyNone) = true.
Proof.
  intros Hm Hl Hmatch. unfold recipe_links in Hl. rewrite !in_app_iff in Hl.
  destruct Hl as [H | [H | [H | H]]].
  - unfold single_value_links in H. apply in_flat_map in H.
    destruct H as [[col' [rel' nt']] [Hm' H]]. cbn beta iota in H.
    destruct (has_value (dict_get d col' PyNone)) eqn:Ev; [| contradiction H].
    destruct H as [<- | []]. cbn [link_node link_relation fst] in Hmatch.
    destruct Hm as [[= <- <- <-] | [[= <- <- <-] | [[= <- <- <-] | [[= <- <- <-] | []]]]];
      destruct Hm' as [[= <- <- <-] | [[= <- <- <-] | [[= <- <- <-] | [[= <- <- <-] | []]]]];
      try exact Ev; destruct Hmatch as [E | E]; discriminate E.
  - exfalso. unfold healthy_links in H.
    destruct (has_value (dict_get d "Healthy_Type" PyNone)); [| contradiction H].
    apply in_map_iff in H. destruct H as [el [<- _]].
    cbn [link_node link_relation fst] in Hmatch. destruct Hmatch as [E | E].
    + destruct Hm as [[= <- <- <-] | [[= <- <- <-] | [[= <- <- <-] | [[= <- <- <-] | []]]]];
        discriminate E.
    + apply (health_relation_not_single el col rel nt Hm E).
  - exfalso. unfold list_value_links in H. apply in_flat_map in H.
    destruct H as [m [Hm' H]].
    destruct Hm' as [<- | [<- | []]]; cbn beta iota in H;
      match type of H with
      | In _ (if ?b then _ else _) => destruct b
      end; try contradiction H;
      apply in_map_iff in H; destruct H as [el [<- _]];
      cbn [link_node link_relation fst] in Hmatch;
      destruct Hm as [[= <- <- <-] | [[= <- <- <-] | [[= <- <- <-] | [[= <- <- <-] | []]]]];
      destruct Hmatch as [E | E]; discriminate E.
  - exfalso. unfold ingredient_links in H.
    destruct (has_value (dict_get d "BestUsdaIngredientName" PyNone));
      [| contradiction H].
    apply in_map_iff in H. destruct H as [el [<- _]].
    cbn [link_node link_relation fst] in Hmatch.
    destruct Hm as [[= <- <- <-] | [[= <- <- <-] | [[= <- <- <-] | [[= <- <- <-] | []]]]];
      destruct Hmatch as [E | E]; discriminate E.
Qed.

(** A dict has one value per key. *)
Lemma unique_key {V : Type} (l : list (Z * V)) (k : Z) (a b : V) :
  NoDup (map fst l) -> In (k, a) l -> In (k, b) l -> a = b.
Proof.
  induction l as [| [k' v] l IH]; intros Hnd Ha Hb; [contradiction Ha |].
  cbn in Hnd. inversion Hnd as [| ? ? Hnot Hnd']; subst.
  destruct Ha as [Ea | Ha], Hb as [Eb | Hb].
  - congruence.
  - exfalso. assert (k' = k) by congruence. subst k'.
    apply Hnot. apply (in_map fst) in Hb. exact Hb.
  - exfalso. assert (k' = k) by congruence. subst k'.
    apply Hnot. apply (in_map fst) in Ha. exact Ha.
  - apply IH; assumption.
Qed.

(** The asked edges that leave a recipe are those of its own record. *)
Lemma asked_edges_of_recipe (recipes : list (Z * details)) (rid : Z) (d : details)
      (v : node) (r : string) :
  NoDup (map fst recipes) -> In (rid, d) recipes ->
  In (("recipe", VInt rid), v, r) (asked_edges recipes) <->
  exists l, In l (recipe_links d) /\ link_node l = v /\ link_relation l = r.
Proof.
  intros Hnd Hin. rewrite asked_edges_In. split.
  - intros [rid' [d' [l [Hin' [Hl E]]]]]. injection E as E1 E2 E3. subst rid' v r.
    rewrite (unique_key recipes rid d d' Hnd Hin Hin'). exists l. auto.
  - intros [l [Hl [<- <-]]]. exists rid, d, l. auto.
Qed.

(** C5: let the value of a single-valued category be the placeholder
    "unknown", or blank after trimming. The turn of the loop for that category
    leaves the graph and the triples as they were: no node, no edge, no
    triple. In the graph built from distinct recipe ids no edge leaves the
    recipe for a node of that category, and no triple has the recipe as head
    and the relation of the category. *)
Theorem placeholder_skipped (recipes : list (Z * details)) (rid : Z) (d : details)
        (col rel nt : string) (st : state) :
  In (col, (rel, nt)) attribute_mappings ->
  dict_get d col PyNone = PyStr UNKNOWN_PLACEHOLDER
  \/ Py.strip (str (dict_get d col PyNone)) = "" ->
  single_value_step ("recipe", VInt rid) d st (col, (rel, nt)) = st
  /\ (NoDup (map fst recipes) -> In (rid, d) recipes ->
      (forall v r, ~ In (("recipe", VInt rid), (nt, v), r)
                        (edges (fst (create_graph_and_triples recipes))))
      /\ (forall tail, ~ In (node_str ("recipe", VInt rid), rel, tail)
                            (snd (create_graph_and_triples recipes)))).
Proof.
  intros Hm Hv. apply has_value_placeholder in Hv. split.
  - unfold single_value_step. rewrite Hv. reflexivity.
  - intros Hnd Hin. split.
    + intros v r He. apply create_edges_In in He.
      apply (asked_edges_of_recipe recipes rid d _ r Hnd Hin) in He.
      destruct He as [l [Hl [En _]]].
      rewrite (links_single_category d l col rel nt Hm Hl) in Hv;
        [discriminate Hv | left; rewrite En; reflexivity].
    + intros tail Ht. rewrite create_triples in Ht. apply in_map_iff in Ht.
      destruct Ht as [[[u v] r] [E He]]. unfold edge_triple in E. cbn [fst snd] in E.
      pose proof (f_equal (fun t : triple => fst (fst t)) E) as Eu.
      pose proof (f_equal (fun t : triple => snd (fst t)) E) as Er.
      cbn [fst snd] in Eu, Er. apply node_str_inj in Eu. subst u r.
      apply (asked_edges_of_recipe recipes rid d v rel Hnd Hin) in He.
      destruct He as [l [Hl [_ Er]]].
      rewrite (links_single_category d l col rel nt Hm Hl) in Hv;
        [discriminate Hv | right; exact Er].
Qed.

Lemma placeholder_skipped_witness :
  let d := [("Cooking_Method", PyStr "unknown"); ("cook_time", PyStr "  ");
            ("Diet_Types", PyStr "Vegan")] in
  let recipes := [(5%Z, d)] in
  single_value_step ("recipe", VInt 5) d (empty_graph, [])
                    ("Cooking_Method", ("usesCookingMethod", "cooking_method"))
  = (empty_graph, [])
  /\ (forall v r, ~ In (("recipe", VInt 5), ("cooking_method", v), r)
                       (edges (fst (create_graph_and_triples recipes))))
  /\ (forall tail, ~ In (node_str ("recipe", VInt 5), "usesCookingMethod", tail)
                        (snd (create_graph_and_triples recipes))).
Proof.
  intros d recipes.
  destruct (placeholder_skipped recipes 5 d "Cooking_Method" "usesCookingMethod"
              "cooking_method" (empty_graph, [])) as [H1 H2].
  - left. reflexivity.
  - left. reflexivity.
  - split; [exact H1 |]. apply H2.
    + subst recipes. cbn. constructor; [intros [] | constructor].
    + left. reflexivity.
Defined.

Example blank_cook_time_skipped :
  create_graph_and_triples [(5%Z, [("cook_time", PyStr "  ")])]
  = (mkDiGraph [(("recipe", VInt 5), [("type", VStr "recipe"); ("RecipeId", VInt 5)])] [],
     []).
Proof. reflexivity. Qed.

(** The placeholder is compared before trimming. *)
Example padded_placeholder_kept :
  snd (create_graph_and_triples [(5%Z, [("cook_time", PyStr " unknown ")])])
  = [("('recipe', 5)", "hasCookTime", "('cook_time', 'unknown')")].
Proof. reflexivity. Qed.

End Placeholder.

(** ** Lower-casing commutes with trimming and splitting *)

Section LowerCase.

Import graph_triples.

Lemma isspace_lower (c : ascii) : Py.isspace (Py.lower_char c) = Py.isspace c.
Proof. destruct c as [[] [] [] [] [] [] [] []]; reflexivity. Qed.

Lemma semicolon_lower (c : ascii) :
  Ascii.eqb (Py.lower_char c) ";" = Ascii.eqb c ";".
Proof. destruct c as [[] [] [] [] [] [] [] []]; reflexivity. Qed.

Lemma lower_empty (s : string) : Py.lower s = "" <-> s = "".
Proof. destruct s; cbn; split; intros H; try reflexivity; discriminate H. Qed.

Lemma truthy_lower (s : string) : Py.truthy_str (Py.lower s) = Py.truthy_str s.
Proof. destruct s; reflexivity. Qed.

Lemma lstrip_lower (s : string) : Py.lstrip (Py.lower s) = Py.lower (Py.lstrip s).
Proof.
  induction s as [| c s IH]; cbn [Py.lower Py.lstrip]; [reflexivity |].
  rewrite isspace_lower. destruct (Py.isspace c); [exact IH | reflexivity].
Qed.

Lemma rstrip_lower (s : string) : Py.rstrip (Py.lower s) = Py.lower (Py.rstrip s).
Proof.
  induction s as [| c s IH]; cbn [Py.lower Py.rstrip]; [reflexivity |].
  rewrite IH, isspace_lower.
  destruct (Py.rstrip s); cbn [Py.lower]; [destruct (Py.isspace c) |]; reflexivity.
Qed.

Lemma strip_lower (s : string) : Py.strip (Py.lower s) = Py.lower (Py.strip s).
Proof. unfold Py.strip. rewrite lstrip_lower, rstrip_lower. reflexivity. Qed.

Lemma prefix_semicolon (c : ascii) (r : string) :
  prefix ";" (String c r) = Ascii.eqb c ";".
Proof.
  cbn [prefix]. destruct (ascii_dec ";" c) as [<- | N].
  - destruct r; reflexivity.
  - symmetry. apply Ascii.eqb_neq. congruence.
Qed.

Lemma split_from_lower (s : string) :
  Py.split_from ";" (Py.lower s) 0
  = (Py.lower (fst (Py.split_from ";" s 0)), map Py.lower (snd (Py.split_from ";" s 0))).
Proof.
  induction s as [| c s IH]; [reflexivity |].
  cbn [Py.lower]. unfold Py.split_from; fold Py.split_from.
  rewrite !prefix_semicolon, semicolon_lower. cbn [String.length Nat.sub].
  rewrite IH. destruct (Py.split_from ";" s 0) as [p ps].
  destruct (Ascii.eqb c ";"); reflexivity.
Qed.

Lemma split_lower (s : string) :
  Py.split ";" (Py.lower s) = map Py.lower (Py.split ";" s).
Proof.
  unfold Py.split. rewrite split_from_lower.
  destruct (Py.split_from ";" s 0) as [p ps]. reflexivity.
Qed.

Lemma filter_map_commute {A B : Type} (f : A -> B) (p : B -> bool) (l : list A) :
  filter p (map f l) = map f (filter (fun x => p (f x)) l).
Proof.
  induction l as [| x l IH]; cbn; [reflexivity |].
  rewrite IH. destruct (p (f x)); reflexivity.
Qed.

Lemma split_and_clean_lower (s : string) :
  split_and_clean (Py.lower s) ";" = map Py.lower (split_and_clean s ";").
Proof.
  unfold split_and_clean. rewrite split_lower, filter_map_commute, !map_map.
  rewrite (filter_ext (fun x => Py.truthy_str (Py.strip (Py.lower x)))
                      (fun v => Py.truthy_str (Py.strip v)))
    by (intros x; rewrite strip_lower; apply truthy_lower).
  apply map_ext. intros x. apply strip_lower.
Qed.

Lemma has_value_lower (f1 f2 : string) :
  Py.lower f1 = Py.lower f2 ->
  f1 <> UNKNOWN_PLACEHOLDER -> f2 <> UNKNOWN_PLACEHOLDER ->
  has_value (PyStr f1) = has_value (PyStr f2).
Proof.
  intros E H1 H2.
  assert (T : Py.truthy_str f1 = Py.truthy_str f2)
    by (rewrite <- (truthy_lower f1), <- (truthy_lower f2), E; reflexivity).
  assert (B : Py.truthy_str (Py.strip f1) = Py.truthy_str (Py.strip f2)).
  { rewrite <- (truthy_lower (Py.strip f1)), <- (truthy_lower (Py.strip f2)).
    rewrite <- !strip_lower, E. reflexivity. }
  apply String.eqb_neq in H1, H2.
  unfold has_value. cbn [truthy ne_str str]. rewrite H1, H2, T.
  change (negb (Py.strip f1 =? "")) with (Py.truthy_str (Py.strip f1)).
  change (negb (Py.strip f2 =? "")) with (Py.truthy_str (Py.strip f2)).
  rewrite B. reflexivity.
Qed.

(** The ingredient nodes of a record, from the lower-cased field. *)
Lemma ingredient_nodes_lower (d : details) (f : string) :
  dict_get d "BestUsdaIngredientName" PyNone = PyStr f ->
  map link_node (ingredient_links d)
  = if has_value (PyStr f)
    then map (fun x => ("ingredient", VStr x))
             (filter Py.truthy_str (split_and_clean (Py.lower f) ";"))
    else [].
Proof.
  intros E. unfold ingredient_links. rewrite E. cbn [str].
  destruct (has_value (PyStr f)); [| reflexivity].
  unfold ingredient_delimiter.
  rewrite split_and_clean_lower, filter_map_commute, !map_map. cbn [link_node].
  rewrite (filter_ext (fun x => Py.truthy_str (Py.lower x)) Py.truthy_str)
    by apply truthy_lower.
  reflexivity.
Qed.

End LowerCase.

(** ** Ingredient nodes and letter case *)

Section Ingredients.

Import graph_triples.

Lemma links_ingredient_type (d : details) (l : link) :
  In l (recipe_links d) -> fst (link_node l) = "ingredient" ->
  In l (ingredient_links d) /\ link_relation l = ingredient_relation.
Proof.
  intros Hl Ht. unfold recipe_links in Hl. rewrite !in_app_iff in Hl.
  destruct Hl as [H | [H | [H | H]]].
  - exfalso. unfold single_value_links in H. apply in_flat_map in H.
    destruct H as [m [Hm H]].
    destruct Hm as [<- | [<- | [<- | [<- | []]]]]; cbn beta iota in H;
      match type of H with
      | In _ (if ?b then _ else _) => destruct b
      end; try contradiction H; destruct H as [<- | []]; discriminate Ht.
  - exfalso. unfold healthy_links in H.
    destruct (has_value (dict_get d "Healthy_Type" PyNone)); [| contradiction H].
    apply in_map_iff in H. destruct H as [el [<- _]]. discriminate Ht.
  - exfalso. unfold list_value_links in H. apply in_flat_map in H.
    destruct H as [m [Hm H]].
    destruct Hm as [<- | [<- | []]]; cbn beta iota in H;
      match type of H with
      | In _ (if ?b then _ else _) => destruct b
      end; try contradiction H;
      apply in_map_iff in H; destruct H as [el [<- _]]; discriminate Ht.
  - split; [exact H |]. unfold ingredient_links in H.
    destruct (has_value (dict_get d "BestUsdaIngredientName" PyNone));
      [| contradiction H].
    apply in_map_iff in H. destruct H as [el [<- _]]. reflexivity.
Qed.

(** The edges from a recipe into ingredient nodes are those of its field. *)
Lemma ingredient_edges (recipes : list (Z * details)) (rid : Z) (d : details)
      (x : nval) (r : string) :
  NoDup (map fst recipes) -> In (rid, d) recipes ->
  In (("recipe", VInt rid), ("ingredient", x), r)
     (edges (fst (create_graph_and_triples recipes)))
  <-> In ("ingredient", x) (map link_node (ingredient_links d))
      /\ r = ingredient_relation.
Proof.
  intros Hnd Hin. rewrite create_edges_In.
  rewrite (asked_edges_of_recipe recipes rid d _ r Hnd Hin). split.
  - intros [l [Hl [En Er]]].
    destruct (links_ingredient_type d l Hl) as [Hi Hr]; [rewrite En; reflexivity |].
    split; [rewrite <- En; apply in_map, Hi | congruence].
  - intros [Hn ->]. apply in_map_iff in Hn. destruct Hn as [l [En Hl]].
    exists l. split; [| split; [exact En |]].
    + unfold recipe_links. rewrite !in_app_iff. auto.
    + unfold ingredient_links in Hl.
      destruct (has_value (dict_get d "BestUsdaIngredientName" PyNone));
        [| contradiction Hl].
      apply in_map_iff in Hl. destruct Hl as [el [<- _]]. reflexivity.
Qed.

(** C6, as stated, fails: "Unknown" and "unknown" differ only in letter
    case; the first record gets an edge to the ingredient node "unknown", the
    second is taken for the placeholder and gets none. *)
Lemma unknown_casing_differs :
  let recipes := [(1%Z, [("BestUsdaIngredientName", PyStr "Unknown")]);
                  (2%Z, [("BestUsdaIngredientName", PyStr "unknown")])] in
  let G := fst (create_graph_and_triples recipes) in
  Py.lower "Unknown" = Py.lower "unknown"
  /\ In (("recipe", VInt 1), ("ingredient", VStr "unknown"), "containsIngredient")
        (edges G)
  /\ forall v r, ~ In (("recipe", VInt 2), v, r) (edges G).
Proof.
  cbv zeta. split; [reflexivity |]. split; [left; reflexivity |].
  intros v r [H | []]. discriminate H.
Qed.

(** C6 (amended): let the ingredient fields of two records differ only in
    letter case, neither being exactly the placeholder "unknown". The two
    records name the same ingredient nodes, each the pair of "ingredient" and
    a lower-cased name, and in the graph built from distinct recipe ids an
    edge leaves the first recipe for an ingredient node exactly when one
    leaves the second recipe for it. *)
Theorem ingredient_case_insensitive (recipes : list (Z * details))
        (rid1 rid2 : Z) (d1 d2 : details) (f1 f2 : string) :
  dict_get d1 "BestUsdaIngredientName" PyNone = PyStr f1 ->
  dict_get d2 "BestUsdaIngredientName" PyNone = PyStr f2 ->
  Py.lower f1 = Py.lower f2 ->
  f1 <> UNKNOWN_PLACEHOLDER -> f2 <> UNKNOWN_PLACEHOLDER ->
  map link_node (ingredient_links d1) = map link_node (ingredient_links d2)
  /\ (forall n, In n (map link_node (ingredient_links d1)) ->
                exists i, n = ("ingredient", VStr (Py.lower i)))
  /\ (NoDup (map fst recipes) -> In (rid1, d1) recipes -> In (rid2, d2) recipes ->
      forall x r,
        In (("recipe", VInt rid1), ("ingredient", x), r)
           (edges (fst (create_graph_and_triples recipes)))
        <-> In (("recipe", VInt rid2), ("ingredient", x), r)
               (edges (fst (create_graph_and_triples recipes)))).
Proof.
  intros E1 E2 El H1 H2.
  assert (Hn : map link_node (ingredient_links d1) = map link_node (ingredient_links d2)).
  { rewrite (ingredient_nodes_lower d1 f1 E1), (ingredient_nodes_lower d2 f2 E2).
    rewrite (has_value_lower f1 f2 El H1 H2), El. reflexivity. }
  split; [exact Hn |]. split.
  - intros n Hin. apply in_map_iff in Hin. destruct Hin as [l [<- Hl]].
    unfold ingredient_links in Hl.
    destruct (has_value (dict_get d1 "BestUsdaIngredientName" PyNone));
      [| contradiction Hl].
    apply in_map_iff in Hl. destruct Hl as [i [<- _]]. exists i. reflexivity.
  - intros Hnd Hin1 Hin2 x r.
    rewrite (ingredient_edges recipes rid1 d1 x r Hnd Hin1).
    rewrite (ingredient_edges recipes rid2 d2 x r Hnd Hin2).
    rewrite Hn. reflexivity.
Qed.

Lemma ingredient_case_insensitive_witness :
  let d1 := [("BestUsdaIngredientName", PyStr "Tomato; Olive Oil")] in
  let d2 := [("BestUsdaIngredientName", PyStr "tomato; OLIVE oil")] in
  let recipes := [(1%Z, d1); (2%Z, d2)] in
  map link_node (ingredient_links d1) = map link_node (ingredient_links d2)
  /\ forall x r,
      In (("recipe", VInt 1), ("ingredient", x), r)
         (edges (fst (create_graph_and_triples recipes)))
      <-> In (("recipe", VInt 2), ("ingredient", x), r)
             (edges (fst (create_graph_and_triples recipes))).
Proof.
  intros d1 d2 recipes.
  destruct (ingredient_case_insensitive recipes 1 2 d1 d2
              "Tomato; Olive Oil" "tomato; OLIVE oil")
    as [Hn [_ He]]; try reflexivity; try discriminate.
  split; [exact Hn |]. apply He.
  - subst recipes. cbn.
    repeat (constructor; [cbn; intuition congruence |]). constructor.
  - left. reflexivity.
  - right. left. reflexivity.
Defined.

Example tomato_nodes :
  map link_node (ingredient_links [("BestUsdaIngredientName", PyStr "Tomato; Olive Oil")])
  = [("ingredient", VStr "tomato"); ("ingredient", VStr "olive oil")].
Proof. reflexivity. Qed.

End Ingredients.

(** ** The criteria of a request against the nodes of the builder *)

Section Translator.

Import graph_triples model recommender.

Variable literal_eval : string -> exn + pylit.

Lemma builder_tails_one (rid : Z) (d : details) :
  builder_tails literal_eval [(rid, d)]
  = map (fun l => (fst (tuple_to_canonical literal_eval (node_str (link_node l))),
                   Py.strip (link_relation l)))
        (recipe_links d).
Proof.
  unfold builder_tails. rewrite create_triples. unfold asked_edges.
  cbn [flat_map]. rewrite app_nil_r. unfold record_edges. rewrite !map_map.
  apply map_ext. intros l. reflexivity.
Qed.

Lemma canonical_node (nt x : string) :
  reads_back literal_eval nt x ->
  fst (tuple_to_canonical literal_eval (node_str (nt, VStr x))) = (nt ++ "_" ++ x)%string.
Proof. intros H. unfold tuple_to_canonical. rewrite H. reflexivity. Qed.

Lemma has_value_truthy (v : string) :
  has_value (PyStr v) = true ->
  Py.truthy_str v = true /\ Py.truthy_str (Py.strip v) = true.
Proof.
  unfold has_value. cbn [truthy ne_str str]. rewrite !andb_true_iff.
  intros [[H1 _] H2]. split; assumption.
Qed.

Lemma contains_false_prefix (sep : string) (c : ascii) (r : string) :
  Py.contains sep (String c r) = false ->
  prefix sep (String c r) = false /\ Py.contains sep r = false.
Proof.
  change (Py.contains sep (String c r))
    with (if prefix sep (String c r) then true else Py.contains sep r).
  destruct (prefix sep (String c r)); [discriminate | auto].
Qed.

(** A text without the separator is one piece. *)
Lemma split_no_separator (sep v : string) :
  Py.contains sep v = false -> Py.split sep v = [v].
Proof.
  intros H. unfold Py.split.
  assert (E : Py.split_from sep v 0 = (v, [])).
  { induction v as [| c r IH]; [reflexivity |].
    apply contains_false_prefix in H. destruct H as [Hp Hc].
    unfold Py.split_from; fold Py.split_from. rewrite Hp, (IH Hc). reflexivity. }
  rewrite E. reflexivity.
Qed.

Lemma split_and_clean_one (sep v : string) :
  Py.contains sep v = false -> Py.truthy_str (Py.strip v) = true ->
  filter Py.truthy_str (split_and_clean v sep) = [Py.strip v].
Proof.
  intros Hc Ht. unfold split_and_clean. rewrite (split_no_separator sep v Hc).
  cbn [filter map]. rewrite Ht. cbn [filter map]. rewrite Ht. reflexivity.
Qed.

Lemma strip_health_relation (x : string) :
  Py.strip (map_health_attribute x) = map_health_attribute x.
Proof.
  pose proof (map_health_attribute_values x) as H. cbn [In] in H.
  repeat (destruct H as [<- | H]; [reflexivity |]). contradiction H.
Qed.

Ltac links_of_one_field :=
  unfold recipe_links, single_value_links, healthy_links, list_value_links,
    ingredient_links;
  cbn [flat_map attribute_mappings list_attributes dict_get String.eqb Ascii.eqb
       Bool.eqb app];
  change (has_value PyNone) with false; cbv iota;
  match goal with
  | H : has_value (PyStr _) = true |- _ => rewrite H
  end;
  cbn [app str].

(** C3, as stated, fails: the translator lower-cases a cooking method that
    the builder keeps as written, and keeps an ingredient as written that the
    builder lower-cases. *)
Lemma casing_mismatch :
  (criteria_tails (map_user_input_to_criteria (Some "Baked") None [] [] None [] None [] [])
   = [("cooking_method_baked", "usesCookingMethod")]
   /\ builder_tails read_pair_literal [(1%Z, [("Cooking_Method", PyStr "Baked")])]
      = [("cooking_method_Baked", "usesCookingMethod")]
   /\ criteria_tails (map_user_input_to_criteria (Some "Baked") None [] [] None [] None [] [])
      <> builder_tails read_pair_literal [(1%Z, [("Cooking_Method", PyStr "Baked")])])
  /\ (criteria_tails (map_user_input_to_criteria None None [] [] None [] None ["Tomato"] [])
      = [("ingredient_Tomato", "containsIngredient")]
      /\ builder_tails read_pair_literal [(1%Z, [("BestUsdaIngredientName", PyStr "Tomato")])]
         = [("ingredient_tomato", "containsIngredient")]
      /\ criteria_tails (map_user_input_to_criteria None None [] [] None [] None ["Tomato"] [])
         <> builder_tails read_pair_literal
              [(1%Z, [("BestUsdaIngredientName", PyStr "Tomato")])]).
Proof.
  split; (split; [reflexivity | split; [reflexivity |]]);
    intros H; vm_compute in H; discriminate H.
Qed.

(** C3 (amended): let [v] be a value from which the builder makes a node (not
    empty, not "unknown", not blank), free of the delimiter where the field
    is a list, and let Python read the text of that node back as the pair it
    was. The translator's tail and relation for [v] are those of the builder
    for servings bin, cook time, cuisine region, diet type, meal type and
    health attribute; for cooking method and for ingredient they are when the
    trimmed value is already in lower case. *)
Theorem translator_mirrors_builder (rid : Z) (v : string) (w : list (string * Q)) :
  has_value (PyStr v) = true ->
  (reads_back literal_eval "servings_bin" (Py.strip v) ->
   criteria_tails (map_user_input_to_criteria None (Some v) [] [] None [] None [] w)
   = builder_tails literal_eval [(rid, [("servings_bin", PyStr v)])])
  /\ (reads_back literal_eval "cook_time" (Py.strip v) ->
      criteria_tails (map_user_input_to_criteria None None [] [] (Some v) [] None [] w)
      = builder_tails literal_eval [(rid, [("cook_time", PyStr v)])])
  /\ (reads_back literal_eval "cuisine_region" (Py.strip v) ->
      criteria_tails (map_user_input_to_criteria None None [] [] None [] (Some v) [] w)
      = builder_tails literal_eval [(rid, [("CuisineRegion", PyStr v)])])
  /\ (reads_back literal_eval "cooking_method" (Py.strip v) ->
      Py.lower (Py.strip v) = Py.strip v ->
      criteria_tails (map_user_input_to_criteria (Some v) None [] [] None [] None [] w)
      = builder_tails literal_eval [(rid, [("Cooking_Method", PyStr v)])])
  /\ (Py.contains "," v = false -> reads_back literal_eval "diet_type" (Py.strip v) ->
      criteria_tails (map_user_input_to_criteria None None [v] [] None [] None [] w)
      = builder_tails literal_eval [(rid, [("Diet_Types", PyStr v)])])
  /\ (Py.contains "," v = false -> reads_back literal_eval "meal_type" (Py.strip v) ->
      criteria_tails (map_user_input_to_criteria None None [] [v] None [] None [] w)
      = builder_tails literal_eval [(rid, [("meal_type", PyStr v)])])
  /\ (Py.contains "," v = false -> reads_back literal_eval "health_attribute" (Py.strip v) ->
      criteria_tails (map_user_input_to_criteria None None [] [] None [v] None [] w)
      = builder_tails literal_eval [(rid, [("Healthy_Type", PyStr v)])])
  /\ (Py.contains ";" v = false -> reads_back literal_eval "ingredient" (Py.lower (Py.strip v)) ->
      Py.lower (Py.strip v) = Py.strip v ->
      criteria_tails (map_user_input_to_criteria None None [] [] None [] None [v] w)
      = builder_tails literal_eval [(rid, [("BestUsdaIngredientName", PyStr v)])]).
Proof.
  intros Hv. destruct (has_value_truthy v Hv) as [Ht Hs].
  repeat split.
  - intros Hr. rewrite builder_tails_one. links_of_one_field.
    cbn [map link_node link_relation]. rewrite (canonical_node _ _ Hr).
    unfold map_user_input_to_criteria. rewrite Ht. reflexivity.
  - intros Hr. rewrite builder_tails_one. links_of_one_field.
    cbn [map link_node link_relation]. rewrite (canonical_node _ _ Hr).
    unfold map_user_input_to_criteria. rewrite Ht. reflexivity.
  - intros Hr. rewrite builder_tails_one. links_of_one_field.
    cbn [map link_node link_relation]. rewrite (canonical_node _ _ Hr).
    unfold map_user_input_to_criteria. rewrite Ht. reflexivity.
  - intros Hr Hl. rewrite builder_tails_one. links_of_one_field.
    cbn [map link_node link_relation]. rewrite (canonical_node _ _ Hr).
    unfold map_user_input_to_criteria. rewrite Ht, Hl. reflexivity.
  - intros Hc Hr. rewrite builder_tails_one. links_of_one_field.
    rewrite (split_and_clean_one "," v Hc Hs).
    cbn [map app link_node link_relation]. rewrite (canonical_node _ _ Hr). reflexivity.
  - intros Hc Hr. rewrite builder_tails_one. links_of_one_field.
    rewrite (split_and_clean_one "," v Hc Hs).
    cbn [map app link_node link_relation]. rewrite (canonical_node _ _ Hr). reflexivity.
  - intros Hc Hr. rewrite builder_tails_one. links_of_one_field.
    rewrite (split_and_clean_one "," v Hc Hs).
    cbn [map app link_node link_relation]. rewrite (canonical_node _ _ Hr).
    rewrite strip_health_relation. reflexivity.
  - intros Hc Hr Hl. rewrite builder_tails_one. links_of_one_field.
    unfold ingredient_delimiter. rewrite (split_and_clean_one ";" v Hc Hs).
    cbn [map app link_node link_relation]. rewrite (canonical_node _ _ Hr), Hl.
    reflexivity.
Qed.

End Translator.

Lemma translator_mirrors_builder_witness :
  recommender.criteria_tails
    (recommender.map_user_input_to_criteria
       None None [] [] None [] None [" olive oil "] [])
  = recommender.builder_tails model.read_pair_literal
      [(3%Z, [("BestUsdaIngredientName", PyStr " olive oil ")])]
  /\ recommender.criteria_tails
       (recommender.map_user_input_to_criteria
          None None [] [] None [" olive oil "] None [] [])
     = recommender.builder_tails model.read_pair_literal
         [(3%Z, [("Healthy_Type", PyStr " olive oil ")])].
Proof.
  pose proof (translator_mirrors_builder model.read_pair_literal 3 " olive oil " []
                                         eq_refl) as H.
  split.
  - apply H; reflexivity.
  - apply H; reflexivity.
Defined.

(** * Further properties of the code *)

(** ** The mapper: range and letter case *)

Section MapperMore.

Import graph_triples.

Lemma lower_char_idem (c : ascii) : Py.lower_char (Py.lower_char c) = Py.lower_char c.
Proof. destruct c as [[] [] [] [] [] [] [] []]; reflexivity. Qed.

Lemma lower_idem (s : string) : Py.lower (Py.lower s) = Py.lower s.
Proof.
  induction s as [| c s IH]; cbn [Py.lower]; [reflexivity |].
  rewrite lower_char_idem, IH. reflexivity.
Qed.

(** X1: the relation of a health attribute is always one of the ten names
    of the mapper, whatever the text. *)
Theorem map_health_attribute_range (element : string) :
  In (map_health_attribute element)
     ["HasProteinLevel"; "HasCarbLevel"; "HasFatLevel"; "HasSaturatedFatLevel";
      "HasCalorieLevel"; "HasSodiumLevel"; "HasSugarLevel"; "HasFiberLevel";
      "HasCholesterolLevel"; "HasHealthAttribute"].
Proof. apply map_health_attribute_values. Qed.

(** X2: the mapper ignores letter case: two texts with the same lower-case
    form get the same relation, and so does a text and its lower-case form. *)
Theorem map_health_attribute_ignores_case (s1 s2 : string) :
  Py.lower s1 = Py.lower s2 ->
  map_health_attribute s1 = map_health_attribute s2
  /\ map_health_attribute (Py.lower s1) = map_health_attribute s1.
Proof.
  intros E. unfold map_health_attribute. rewrite lower_idem, E. auto.
Qed.

Lemma map_health_attribute_ignores_case_witness :
  map_health_attribute "LOW_Fat" = map_health_attribute "low_fat"
  /\ map_health_attribute (Py.lower "LOW_Fat") = map_health_attribute "LOW_Fat".
Proof. apply (map_health_attribute_ignores_case "LOW_Fat" "low_fat"). reflexivity. Defined.

End MapperMore.

(** ** Pieces of a delimited field *)

Section Pieces.

Import graph_triples.

Lemma lstrip_head (s : string) :
  match Py.lstrip s with
  | EmptyString => True
  | String c _ => Py.isspace c = false
  end.
Proof.
  induction s as [| c s IH]; cbn [Py.lstrip]; [exact I |].
  destruct (Py.isspace c) eqn:E; [exact IH | exact E].
Qed.

Lemma rstrip_keeps_head (c : ascii) (r : string) :
  Py.isspace c = false -> Py.rstrip (String c r) = String c (Py.rstrip r).
Proof.
  intros H. cbn [Py.rstrip]. destruct (Py.rstrip r); [rewrite H |]; reflexivity.
Qed.

Lemma rstrip_cons (c : ascii) (r : string) :
  Py.rstrip (String c r)
  = match Py.rstrip r with
    | EmptyString => if Py.isspace c then EmptyString else String c EmptyString
    | String d t => String c (String d t)
    end.
Proof. reflexivity. Qed.

Lemma rstrip_idem (s : string) : Py.rstrip (Py.rstrip s) = Py.rstrip s.
Proof.
  induction s as [| c s IH]; [reflexivity |].
  rewrite (rstrip_cons c s). destruct (Py.rstrip s) as [| d t] eqn:E.
  - destruct (Py.isspace c) eqn:Ec; [reflexivity |].
    cbn [Py.rstrip]. rewrite Ec. reflexivity.
  - rewrite (rstrip_cons c (String d t)), IH. reflexivity.
Qed.

(** Trimming a trimmed text changes nothing. *)
Lemma strip_idem (s : string) : Py.strip (Py.strip s) = Py.strip s.
Proof.
  unfold Py.strip. pose proof (lstrip_head s) as H.
  destruct (Py.lstrip s) as [| c r] eqn:E; [reflexivity |].
  rewrite (rstrip_keeps_head c r H). cbn [Py.lstrip]. rewrite H.
  rewrite (rstrip_keeps_head c _ H), rstrip_idem. reflexivity.
Qed.

Lemma contains_char_cons (d c : ascii) (s : string) :
  Py.contains (String d "") (String c s)
  = Ascii.eqb c d || Py.contains (String d "") s.
Proof.
  change (Py.contains (String d "") (String c s))
    with (if prefix (String d "") (String c s) then true
          else Py.contains (String d "") s).
  cbn [prefix]. destruct (ascii_dec d c) as [<- | N].
  - rewrite Ascii.eqb_refl. destruct s; reflexivity.
  - assert (E : Ascii.eqb c d = false) by (apply Ascii.eqb_neq; congruence).
    rewrite E. reflexivity.
Qed.

Lemma lstrip_no_char (d : ascii) (s : string) :
  Py.contains (String d "") s = false ->
  Py.contains (String d "") (Py.lstrip s) = false.
Proof.
  induction s as [| c s IH]; intros H; cbn [Py.lstrip]; [exact H |].
  destruct (Py.isspace c); [| exact H].
  rewrite contains_char_cons in H. apply orb_false_iff in H. apply IH, H.
Qed.

Lemma rstrip_no_char (d : ascii) (s : string) :
  Py.contains (String d "") s = false ->
  Py.contains (String d "") (Py.rstrip s) = false.
Proof.
  induction s as [| c s IH]; intros H; [exact H |].
  rewrite contains_char_cons in H. apply orb_false_iff in H. destruct H as [Hc Hs].
  cbn [Py.rstrip]. specialize (IH Hs). destruct (Py.rstrip s) as [| e t].
  - destruct (Py.isspace c); [reflexivity |].
    rewrite contains_char_cons, Hc. reflexivity.
  - rewrite contains_char_cons, Hc. exact IH.
Qed.

Lemma prefix_char (d c : ascii) (r : string) :
  prefix (String d "") (String c r) = Ascii.eqb c d.
Proof.
  cbn [prefix]. destruct (ascii_dec d c) as [<- | N].
  - rewrite Ascii.eqb_refl. destruct r; reflexivity.
  - symmetry. apply Ascii.eqb_neq. congruence.
Qed.

(** No piece cut at the character [d] holds [d]. *)
Lemma split_char_pieces (d : ascii) (s : string) :
  forall p, In p (Py.split (String d "") s) -> Py.contains (String d "") p = false.
Proof.
  unfold Py.split.
  assert (H : Py.contains (String d "") (fst (Py.split_from (String d "") s 0)) = false
              /\ forall p, In p (snd (Py.split_from (String d "") s 0)) ->
                           Py.contains (String d "") p = false).
  { induction s as [| c s [IH1 IH2]]; [split; [reflexivity | intros p []] |].
    unfold Py.split_from; fold Py.split_from. rewrite prefix_char.
    cbn [String.length Nat.sub].
    destruct (Py.split_from (String d "") s 0) as [q qs]. cbn [fst snd] in *.
    destruct (Ascii.eqb c d) eqn:E; cbn [fst snd].
    - split; [reflexivity |]. intros p [<- | Hp]; [exact IH1 | apply IH2, Hp].
    - split; [| exact IH2]. rewrite contains_char_cons, E. exact IH1. }
  destruct (Py.split_from (String d "") s 0) as [q qs]. cbn [fst snd] in H.
  destruct H as [H1 H2]. intros p [<- | Hp]; [exact H1 | apply H2, Hp].
Qed.

(** X3: every piece that [split_and_clean] returns for a one-character
    delimiter is not empty, is trimmed, is free of the delimiter, and is the
    trimmed form of a piece of the field. *)
Theorem split_and_clean_pieces (value : string) (d : ascii) (p : string) :
  In p (split_and_clean value (String d "")) ->
  p <> ""
  /\ Py.strip p = p
  /\ Py.contains (String d "") p = false
  /\ exists v, In v (Py.split (String d "") value) /\ p = Py.strip v.
Proof.
  unfold split_and_clean. intros H. apply in_map_iff in H.
  destruct H as [v [<- Hv]]. apply filter_In in Hv. destruct Hv as [Hv Ht].
  repeat split.
  - intros E. rewrite E in Ht. discriminate Ht.
  - apply strip_idem.
  - unfold Py.strip. apply rstrip_no_char, lstrip_no_char.
    apply (split_char_pieces d value v Hv).
  - exists v. auto.
Qed.

Lemma split_and_clean_pieces_witness :
  "b c" <> ""
  /\ Py.strip "b c" = "b c"
  /\ Py.contains "," "b c" = false
  /\ exists v, In v (Py.split "," " a , b c ,,") /\ "b c" = Py.strip v.
Proof.
  apply (split_and_clean_pieces " a , b c ,," ","%char "b c").
  right. left. reflexivity.
Defined.

Example split_and_clean_ex :
  split_and_clean " a , b c ,," "," = ["a"; "b c"].
Proof. reflexivity. Qed.

End Pieces.

(** ** Nodes of the built graph *)

Section GraphNodes.

Import graph_triples.

Lemma has_node_In (G : DiGraph) (n : node) :
  has_node G n = true <-> In n (node_ids G).
Proof.
  unfold has_node, node_ids. rewrite existsb_exists, in_map_iff. split.
  - intros [p [Hp E]]. apply node_eqb_eq in E. exists p. auto.
  - intros [p [E Hp]]. exists p. split; [exact Hp | apply node_eqb_eq, E].
Qed.

Lemma has_node_false (G : DiGraph) (n : node) :
  has_node G n = false <-> ~ In n (node_ids G).
Proof.
  rewrite <- has_node_In. destruct (has_node G n); split; congruence.
Qed.

Lemma add_node_ids (G : DiGraph) (n : node) (a : attrs) :
  node_ids (add_node G n a)
  = if has_node G n then node_ids G else node_ids G ++ [n].
Proof.
  unfold add_node, node_ids. destruct (has_node G n); cbn [nodes].
  - rewrite map_map. apply map_ext. intros p.
    destruct (node_eqb (fst p) n); reflexivity.
  - rewrite map_app. reflexivity.
Qed.

(** The identifiers after making sure that [n] is a node. *)
Lemma ensure_ids (ids : list node) (n : node) (b : bool) :
  NoDup ids -> (b = true <-> In n ids) ->
  NoDup (if b then ids else ids ++ [n])
  /\ forall x, In x (if b then ids else ids ++ [n]) <-> In x ids \/ x = n.
Proof.
  intros Hnd Hb. destruct b.
  - split; [exact Hnd |]. intros x. split; [auto |].
    intros [H | ->]; [exact H | apply Hb; reflexivity].
  - split.
    + apply NoDup_app; [exact Hnd | repeat constructor; intros [] |].
      intros a Ha [<- | []]. apply Hb in Ha. discriminate Ha.
    + intros x. rewrite in_app_iff. cbn. intuition.
Qed.

Lemma add_node_spec (G : DiGraph) (n : node) (a : attrs) :
  NoDup (node_ids G) ->
  NoDup (node_ids (add_node G n a))
  /\ forall x, In x (node_ids (add_node G n a)) <-> In x (node_ids G) \/ x = n.
Proof.
  intros H. rewrite add_node_ids. apply ensure_ids; [exact H | apply has_node_In].
Qed.

Lemma add_edge_spec (G : DiGraph) (u v : node) (r : string) :
  NoDup (node_ids G) ->
  NoDup (node_ids (add_edge G u v r))
  /\ forall x, In x (node_ids (add_edge G u v r))
               <-> In x (node_ids G) \/ x = u \/ x = v.
Proof.
  intros H. unfold add_edge.
  set (G1 := if has_node G u then G else mkDiGraph (nodes G ++ [(u, [])]) (edges G)).
  assert (H1 : NoDup (node_ids G1)
               /\ forall x, In x (node_ids G1) <-> In x (node_ids G) \/ x = u).
  { replace (node_ids G1) with (if has_node G u then node_ids G else node_ids G ++ [u]).
    - apply ensure_ids; [exact H | apply has_node_In].
    - subst G1. destruct (has_node G u); [reflexivity |].
      unfold node_ids. cbn [nodes]. rewrite map_app. reflexivity. }
  destruct H1 as [Hn1 Hi1].
  set (G2 := if has_node G1 v then G1 else mkDiGraph (nodes G1 ++ [(v, [])]) (edges G1)).
  assert (H2 : NoDup (node_ids G2)
               /\ forall x, In x (node_ids G2) <-> In x (node_ids G1) \/ x = v).
  { replace (node_ids G2) with (if has_node G1 v then node_ids G1 else node_ids G1 ++ [v]).
    - apply ensure_ids; [exact Hn1 | apply has_node_In].
    - subst G2. destruct (has_node G1 v); [reflexivity |].
      unfold node_ids. cbn [nodes]. rewrite map_app. reflexivity. }
  destruct H2 as [Hn2 Hi2].
  assert (E : node_ids
                (if has_edge G2 u v
                 then mkDiGraph (nodes G2)
                        (map (fun e => if node_eqb (fst (fst e)) u
                                          && node_eqb (snd (fst e)) v
                                       then (u, v, r) else e) (edges G2))
                 else mkDiGraph (nodes G2) (edges G2 ++ [(u, v, r)]))
              = node_ids G2) by (destruct (has_edge G2 u v); reflexivity).
  rewrite E. split; [exact Hn2 |].
  intros x. rewrite Hi2, Hi1. tauto.
Qed.

Lemma attach_link_nodes (recipe_node : node) (st : state) (l : link) :
  NoDup (node_ids (fst st)) ->
  NoDup (node_ids (fst (attach_link recipe_node st l)))
  /\ forall x, In x (node_ids (fst (attach_link recipe_node st l)))
               <-> In x (node_ids (fst st)) \/ x = recipe_node \/ x = link_node l.
Proof.
  destruct st as [G triples]. cbn [fst]. intros H.
  unfold attach_link, attach. cbn [fst].
  destruct (negb (has_node G (link_node l))).
  - destruct (add_node_spec G (link_node l)
                [("type", VStr (link_type l)); ("label", VStr (link_label l))] H)
      as [Hn Hi].
    destruct (add_edge_spec _ recipe_node (link_node l) (link_relation l) Hn)
      as [Hn' Hi'].
    split; [exact Hn' |]. intros x. rewrite Hi', Hi. tauto.
  - apply add_edge_spec, H.
Qed.

Lemma attach_links_nodes (recipe_node : node) (ls : list link) (st : state) :
  NoDup (node_ids (fst st)) -> In recipe_node (node_ids (fst st)) ->
  NoDup (node_ids (fst (fold_left (attach_link recipe_node) ls st)))
  /\ forall x, In x (node_ids (fst (fold_left (attach_link recipe_node) ls st)))
               <-> In x (node_ids (fst st)) \/ In x (map link_node ls).
Proof.
  revert st; induction ls as [| l ls IH]; intros st Hnd Hr; cbn [fold_left map].
  - split; [exact Hnd | intros x; cbn; tauto].
  - destruct (attach_link_nodes recipe_node st l Hnd) as [Hn Hi].
    destruct (IH (attach_link recipe_node st l) Hn) as [Hn' Hi'].
    { apply Hi. left. exact Hr. }
    split; [exact Hn' |]. intros x. rewrite Hi', Hi. cbn [In]. split.
    + intros [[H | [-> | ->]] | H]; auto.
    + intros [H | [<- | H]]; auto.
Qed.

Lemma recipe_step_nodes (st : state) (rid : Z) (d : details) :
  NoDup (node_ids (fst st)) ->
  NoDup (node_ids (fst (recipe_step st (rid, d))))
  /\ forall x, In x (node_ids (fst (recipe_step st (rid, d))))
               <-> In x (node_ids (fst st)) \/ x = ("recipe", VInt rid)
                   \/ In x (map link_node (recipe_links d)).
Proof.
  intros Hnd. rewrite recipe_step_as_links.
  destruct (add_node_spec (fst st) ("recipe", VInt rid)
              [("type", VStr "recipe"); ("RecipeId", VInt rid)] Hnd) as [Hn Hi].
  destruct (attach_links_nodes ("recipe", VInt rid) (recipe_links d)
              (add_node (fst st) ("recipe", VInt rid)
                        [("type", VStr "recipe"); ("RecipeId", VInt rid)], snd st))
    as [Hn' Hi']; cbn [fst].
  - exact Hn.
  - apply Hi. right. reflexivity.
  - split; [exact Hn' |]. intros x. rewrite Hi'. cbn [fst]. rewrite Hi. tauto.
Qed.

Lemma recipes_fold_nodes (recipes : list (Z * details)) (st : state) :
  NoDup (node_ids (fst st)) ->
  NoDup (node_ids (fst (fold_left recipe_step recipes st)))
  /\ forall x, In x (node_ids (fst (fold_left recipe_step recipes st)))
               <-> In x (node_ids (fst st))
                   \/ (exists rid, In rid (map fst recipes) /\ x = ("recipe", VInt rid))
                   \/ (exists e, In e (asked_edges recipes) /\ x = snd (fst e)).
Proof.
  revert st; induction recipes as [| [rid d] recipes IH]; intros st Hnd;
    cbn [fold_left].
  - split; [exact Hnd |]. intros x. split; [auto |].
    intros [H | [[rid [[] _]] | [e [[] _]]]]. exact H.
  - destruct (recipe_step_nodes st rid d Hnd) as [Hn Hi].
    destruct (IH _ Hn) as [Hn' Hi']. split; [exact Hn' |].
    intros x. rewrite Hi', Hi. cbn [map fst asked_edges flat_map]. split.
    + intros [[H | [-> | H]] | [[r [Hr ->]] | [e [He ->]]]].
      * auto.
      * right. left. exists rid. split; [left; reflexivity | reflexivity].
      * right. right. apply in_map_iff in H. destruct H as [l [<- Hl]].
        exists (("recipe", VInt rid), link_node l, link_relation l).
        split; [| reflexivity]. apply in_or_app. left.
        unfold record_edges. apply in_map_iff. exists l. auto.
      * right. left. exists r. split; [right; exact Hr | reflexivity].
      * right. right. exists e. split; [apply in_or_app; right; exact He | reflexivity].
    + intros [H | [[r [[<- | Hr] ->]] | [e [He ->]]]].
      * auto.
      * auto.
      * right. left. exists r. auto.
      * apply in_app_or in He. destruct He as [He | He].
        -- left. right. right. unfold record_edges in He. apply in_map_iff in He.
           destruct He as [l [<- Hl]]. cbn [fst snd]. apply in_map, Hl.
        -- right. right. exists e. auto.
Qed.

(** X4: the graph never holds a node twice; its nodes are exactly the recipe
    nodes of the input, one for every recipe even without attributes, and
    the targets of its edges; and both ends of every edge are nodes. *)
Theorem graph_nodes (recipes : list (Z * details)) :
  let G := fst (create_graph_and_triples recipes) in
  NoDup (node_ids G)
  /\ (forall x, In x (node_ids G)
                <-> (exists rid, In rid (map fst recipes) /\ x = ("recipe", VInt rid))
                    \/ (exists e, In e (edges G) /\ x = snd (fst e)))
  /\ (forall e, In e (edges G) ->
                In (fst (fst e)) (node_ids G) /\ In (snd (fst e)) (node_ids G)).
Proof.
  cbv zeta. unfold create_graph_and_triples.
  destruct (recipes_fold_nodes recipes (empty_graph, [])) as [Hn Hi];
    [constructor |].
  fold (create_graph_and_triples recipes) in *.
  assert (Hx : forall x, In x (node_ids (fst (create_graph_and_triples recipes)))
                         <-> (exists rid, In rid (map fst recipes)
                                          /\ x = ("recipe", VInt rid))
                             \/ (exists e, In e (edges (fst (create_graph_and_triples
                                                              recipes)))
                                           /\ x = snd (fst e))).
  { intros x. rewrite Hi. cbn [fst empty_graph node_ids nodes map In]. split.
    - intros [[] | [H | [e [He ->]]]]; [left; exact H |].
      right. exists e. split; [apply create_edges_In, He | reflexivity].
    - intros [H | [e [He ->]]]; [right; left; exact H |].
      right. right. exists e. split; [apply create_edges_In, He | reflexivity]. }
  split; [exact Hn |]. split; [exact Hx |].
  intros e He. split.
  - apply Hx. left. apply create_edges_In, asked_edges_In in He.
    destruct He as [rid [d [l [Hin [_ ->]]]]]. exists rid. cbn [fst snd].
    split; [apply (in_map fst) in Hin; exact Hin | reflexivity].
  - apply Hx. right. exists e. auto.
Qed.

End GraphNodes.

(** ** Shape of the edges *)

Section EdgeShape.

Import graph_triples.

Lemma split_and_clean_trimmed (value delimiter p : string) :
  In p (split_and_clean value delimiter) -> p <> "" /\ Py.strip p = p.
Proof.
  unfold split_and_clean. intros H. apply in_map_iff in H.
  destruct H as [v [<- Hv]]. apply filter_In in Hv. destruct Hv as [_ Ht].
  split; [| apply strip_idem]. intros E. rewrite E in Ht. discriminate Ht.
Qed.

Lemma has_value_strip (x : pyobj) :
  has_value x = true -> Py.strip (str x) <> "".
Proof.
  unfold has_value. rewrite !andb_true_iff. intros [_ H] E. rewrite E in H.
  discriminate H.
Qed.

(** The target of a link: one of the seven attribute types, with a text that
    is not empty and is trimmed. *)
Lemma link_target_shape (d : details) (l : link) :
  In l (recipe_links d) ->
  In (fst (link_node l))
     ["cooking_method"; "servings_bin"; "cook_time"; "cuisine_region";
      "health_attribute"; "diet_type"; "meal_type"; "ingredient"]
  /\ exists x, snd (link_node l) = VStr x /\ x <> "" /\ Py.strip x = x.
Proof.
  unfold recipe_links. rewrite !in_app_iff. intros [H | [H | [H | H]]].
  - unfold single_value_links in H. apply in_flat_map in H.
    destruct H as [[col [rel nt]] [Hm H]]. cbn beta iota in H.
    destruct (has_value (dict_get d col PyNone)) eqn:Ev; [| contradiction H].
    destruct H as [<- | []]. cbn [link_node fst snd]. split.
    + destruct Hm as [[= <- <- <-] | [[= <- <- <-] | [[= <- <- <-] | [[= <- <- <-] | []]]]];
        cbn; tauto.
    + eexists. split; [reflexivity |].
      split; [apply has_value_strip, Ev | apply strip_idem].
  - unfold healthy_links in H.
    destruct (has_value (dict_get d "Healthy_Type" PyNone)); [| contradiction H].
    apply in_map_iff in H. destruct H as [el [<- Hel]]. apply filter_In in Hel.
    cbn [link_node fst snd]. split; [cbn; tauto |].
    exists el. split; [reflexivity |]. eapply split_and_clean_trimmed, Hel.
  - unfold list_value_links in H. apply in_flat_map in H.
    destruct H as [m [Hm H]].
    destruct Hm as [<- | [<- | []]]; cbn beta iota in H;
      match type of H with
      | In _ (if ?b then _ else _) => destruct b
      end; try contradiction H;
      apply in_map_iff in H; destruct H as [el [<- Hel]]; apply filter_In in Hel;
      cbn [link_node fst snd]; (split; [cbn; tauto |]);
      exists el; (split; [reflexivity |]); eapply split_and_clean_trimmed, Hel.
  - unfold ingredient_links in H.
    destruct (has_value (dict_get d "BestUsdaIngredientName" PyNone));
      [| contradiction H].
    apply in_map_iff in H. destruct H as [el [<- Hel]]. apply filter_In in Hel.
    destruct Hel as [Hel _]. apply split_and_clean_trimmed in Hel.
    destruct Hel as [Hne Hs]. cbn [link_node fst snd]. split; [cbn; tauto |].
    exists (Py.lower el). split; [reflexivity |]. split.
    + intros E. apply (proj1 (lower_empty el)) in E. exact (Hne E).
    + rewrite strip_lower, Hs. reflexivity.
Qed.

(** X5: every edge of the graph leaves the node of a recipe of the input for
    an attribute node of one of the eight attribute types, whose text is not
    empty and is trimmed, and carries the relation that belongs to that type;
    the head of every triple is the text of a recipe node of the input. *)
Theorem edges_leave_recipes (recipes : list (Z * details)) :
  let G := fst (create_graph_and_triples recipes) in
  (forall e, In e (edges G) ->
     (exists rid, In rid (map fst recipes) /\ fst (fst e) = ("recipe", VInt rid))
     /\ In (fst (snd (fst e)))
           ["cooking_method"; "servings_bin"; "cook_time"; "cuisine_region";
            "health_attribute"; "diet_type"; "meal_type"; "ingredient"]
     /\ (exists x, snd (snd (fst e)) = VStr x /\ x <> "" /\ Py.strip x = x)
     /\ snd e = relation_of (snd (fst e)))
  /\ (forall t, In t (snd (create_graph_and_triples recipes)) ->
        exists rid, In rid (map fst recipes)
                    /\ fst (fst t) = node_str ("recipe", VInt rid)).
Proof.
  cbv zeta. split.
  - intros e He. apply create_edges_In in He.
    pose proof (asked_edges_consistent recipes) as Hc.
    rewrite Forall_forall in Hc. specialize (Hc e He).
    apply asked_edges_In in He. destruct He as [rid [d [l [Hin [Hl ->]]]]].
    cbn [fst snd]. destruct (link_target_shape d l Hl) as [Ht Hx].
    repeat split.
    + exists rid. split; [apply (in_map fst) in Hin; exact Hin | reflexivity].
    + exact Ht.
    + exact Hx.
    + exact Hc.
  - intros t Ht. rewrite create_triples in Ht. apply in_map_iff in Ht.
    destruct Ht as [e [<- He]]. apply asked_edges_In in He.
    destruct He as [rid [d [l [Hin [_ ->]]]]]. exists rid.
    split; [apply (in_map fst) in Hin; exact Hin | reflexivity].
Qed.

Lemma fold_put_edge_keeps_NoDup (evs es : list edge) :
  Forall edge_consistent es -> Forall edge_consistent evs -> NoDup es ->
  Forall edge_consistent (fold_left put_edge evs es)
  /\ NoDup (fold_left put_edge evs es).
Proof.
  revert es; induction evs as [| e evs IH]; intros es Hes Hevs Hnd; cbn [fold_left].
  - auto.
  - inversion Hevs as [| ? ? He Hevs']; subst.
    destruct (put_edge_cases es e Hes He) as [[_ ->] | [Hin ->]].
    + apply IH; assumption.
    + apply IH; [| exact Hevs' |].
      * apply Forall_app. split; [exact Hes | constructor; [exact He | constructor]].
      * apply NoDup_app; [exact Hnd | repeat constructor; intros [] |].
        intros a Ha [<- | []]. contradiction.
Qed.

(** X6: the graph holds at most one edge for an ordered pair of nodes,
    however often the records ask for it. *)
Theorem one_edge_per_pair (recipes : list (Z * details)) :
  NoDup (map fst (edges (fst (create_graph_and_triples recipes)))).
Proof.
  rewrite create_edges.
  destruct (fold_put_edge_keeps_NoDup (asked_edges recipes) [] (Forall_nil _)
              (asked_edges_consistent recipes) (NoDup_nil _)) as [Hc Hnd].
  apply Injective_map_NoDup_in; [| exact Hnd].
  rewrite Forall_forall in Hc.
  intros [[u v] r] [[u' v'] r'] Ha Hb E. cbn [fst] in E.
  apply Hc in Ha, Hb. unfold edge_consistent in Ha, Hb. cbn [fst snd] in Ha, Hb.
  congruence.
Qed.

Example repeated_pair_one_edge :
  map fst (edges (fst (create_graph_and_triples
                         [(5%Z, [("BestUsdaIngredientName", PyStr "Salt; salt ;SALT")])])))
  = [(("recipe", VInt 5), ("ingredient", VStr "salt"))].
Proof. reflexivity. Qed.

End EdgeShape.

(** ** Canonical texts and the recipe prefix *)

Section CanonicalMore.

Import graph_triples model recommender.

Variable literal_eval : string -> exn + pylit.

Lemma append_not_self (t : string) (c : ascii) (r : string) :
  t <> (t ++ String c r)%string.
Proof.
  induction t as [| x t IH]; cbn; [discriminate |].
  intros E. injection E as E. exact (IH E).
Qed.

(** X7: the canonical text does not tell two nodes apart when an underscore
    can be read as part of the type or as part of the value: the node of type
    [t] and value [a_b] and the node of type [t_a] and value [b] are different
    nodes with the same canonical text. *)
Theorem canonical_text_ambiguous (t a b : string) :
  reads_back literal_eval t (a ++ "_" ++ b) ->
  reads_back literal_eval (t ++ "_" ++ a) b ->
  (t, VStr (a ++ "_" ++ b)%string) <> ((t ++ "_" ++ a)%string, VStr b)
  /\ fst (tuple_to_canonical literal_eval (node_str (t, VStr (a ++ "_" ++ b)%string)))
     = fst (tuple_to_canonical literal_eval (node_str ((t ++ "_" ++ a)%string, VStr b))).
Proof.
  intros H1 H2. split.
  - intros E. injection E as E _. exact (append_not_self t _ _ E).
  - unfold reads_back in H1, H2. unfold tuple_to_canonical. rewrite H1, H2.
    cbn [getitem nth_error lit_str fst]. rewrite append_assoc. reflexivity.
Qed.

End CanonicalMore.

Lemma canonical_text_ambiguous_witness :
  ("cuisine_region", graph_triples.VStr "South_Asian")
  <> ("cuisine_region_South", graph_triples.VStr "Asian")
  /\ fst (model.tuple_to_canonical model.read_pair_literal
            (graph_triples.node_str ("cuisine_region", graph_triples.VStr "South_Asian")))
     = fst (model.tuple_to_canonical model.read_pair_literal
              (graph_triples.node_str
                 ("cuisine_region_South", graph_triples.VStr "Asian"))).
Proof.
  apply (canonical_text_ambiguous model.read_pair_literal
           "cuisine_region" "South" "Asian"); reflexivity.
Defined.

Section RecipePrefix.

Import graph_triples model recommender.

Lemma prefix_app_self (p x : string) : prefix p (p ++ x) = true.
Proof.
  induction p as [| c p IH]; cbn.
  - destruct x; reflexivity.
  - destruct (ascii_dec c c); [exact IH | congruence].
Qed.

Lemma prefix_split (p s : string) :
  prefix p s = true -> exists x, s = (p ++ x)%string.
Proof.
  revert s; induction p as [| c p IH]; intros s H.
  - exists s. reflexivity.
  - apply PyFacts.prefix_cons_r in H. destruct H as [r [-> Hr]].
    destruct (IH r Hr) as [x ->]. exists x. reflexivity.
Qed.

Lemma substring_all (x : string) (m : nat) :
  (String.length x <= m)%nat -> substring 0 m x = x.
Proof.
  revert m; induction x as [| c x IH]; intros m H.
  - destruct m; reflexivity.
  - destruct m as [| m]; cbn in H; [lia |]. cbn. rewrite IH by lia. reflexivity.
Qed.

Lemma substring_skip (p x : string) (m : nat) :
  substring (String.length p) m (p ++ x) = substring 0 m x.
Proof. induction p as [| c p IH]; cbn; [reflexivity | exact IH]. Qed.

Lemma length_app (p x : string) :
  String.length (p ++ x) = (String.length p + String.length x)%nat.
Proof. induction p as [| c p IH]; cbn; [reflexivity | rewrite IH; reflexivity]. Qed.

Lemma split1_prefixed (p x : string) :
  Py.split1 p (p ++ x) = [""; x].
Proof.
  assert (E : Py.split1 p (p ++ x)
              = [""; substring (String.length p) (String.length (p ++ x)) (p ++ x)]).
  { destruct (p ++ x)%string eqn:Es; cbn [Py.split1];
      rewrite <- Es, prefix_app_self; reflexivity. }
  rewrite E, substring_skip, substring_all; [reflexivity |].
  rewrite length_app. lia.
Qed.

Lemma parse_recipe_id_prefixed (x : string) :
  Py.startswith ("recipe_" ++ x) "recipe_" = true
  /\ parse_recipe_id ("recipe_" ++ x) = Some x.
Proof.
  split; [apply (prefix_app_self "recipe_" x) |].
  unfold parse_recipe_id. rewrite split1_prefixed. reflexivity.
Qed.

(** X8: stripping the recipe prefix inverts naming: [parse_recipe_id] gives
    [x] back from "recipe_" followed by [x], and every label that passes the
    test [startswith("recipe_")] is such a text, so the parse never fails
    on a label that the filter lets through. *)
Theorem parse_recipe_id_roundtrip :
  (forall x, Py.startswith ("recipe_" ++ x) "recipe_" = true
             /\ parse_recipe_id ("recipe_" ++ x) = Some x)
  /\ (forall label, Py.startswith label "recipe_" = true ->
                    exists x, label = ("recipe_" ++ x)%string
                              /\ parse_recipe_id label = Some x).
Proof.
  split.
  - apply parse_recipe_id_prefixed.
  - intros label Hp. apply prefix_split in Hp. destruct Hp as [x ->].
    exists x. split; [reflexivity | apply parse_recipe_id_prefixed].
Qed.

Lemma parse_recipe_id_roundtrip_witness :
  exists x, "recipe_38" = ("recipe_" ++ x)%string
            /\ parse_recipe_id "recipe_38" = Some x.
Proof. apply (proj2 parse_recipe_id_roundtrip "recipe_38"). reflexivity. Defined.

Example parse_recipe_id_missing : parse_recipe_id "ingredient_salt" = None.
Proof. reflexivity. Qed.

Variable literal_eval : string -> exn + pylit.

Lemma strip_relation_of (v : node) : Py.strip (relation_of v) = relation_of v.
Proof.
  unfold relation_of.
  repeat match goal with
         | |- context [if ?b then _ else _] => destruct b; [reflexivity |]
         end.
  destruct (snd v); [reflexivity | apply strip_health_relation].
Qed.

(** X9: a triple of the builder, in the form the embedding model is given:
    when Python reads the two node texts back, the head is "recipe_" followed
    by the decimal id, it passes the recipe filter of the ranking and its id
    is read back from it; the tail does not pass the filter; the relation is
    unchanged. *)
Theorem canonical_triple_of_edge (recipes : list (Z * details)) (e : edge)
        (rid : Z) (x : string) :
  In e (edges (fst (create_graph_and_triples recipes))) ->
  fst (fst e) = ("recipe", VInt rid) ->
  snd (snd (fst e)) = VStr x ->
  literal_eval (node_str ("recipe", VInt rid)) = inr (LTuple [LStr "recipe"; LInt rid]) ->
  reads_back literal_eval (fst (snd (fst e))) x ->
  let '(head, relation, tail) := canonical_row literal_eval (edge_triple e) in
  head = ("recipe_" ++ Py.str_int rid)%string
  /\ Py.startswith head "recipe_" = true
  /\ parse_recipe_id head = Some (Py.str_int rid)
  /\ tail = (fst (snd (fst e)) ++ "_" ++ x)%string
  /\ Py.startswith tail "recipe_" = false
  /\ relation = snd e.
Proof.
  intros He Hu Hv Hr Ht.
  pose proof (asked_edges_consistent recipes) as Hc. rewrite Forall_forall in Hc.
  apply create_edges_In in He. specialize (Hc e He).
  apply asked_edges_In in He. destruct He as [rid' [d [l [_ [Hl ->]]]]].
  cbn [fst snd] in *. destruct (link_target_shape d l Hl) as [Hty _].
  destruct (link_node l) as [nt v] eqn:En. cbn [fst snd] in *. subst v.
  unfold canonical_row, edge_triple. cbn [fst snd].
  injection Hu as Hu. subst rid'. unfold reads_back in Ht.
  unfold tuple_to_canonical. rewrite Hr, Ht. cbn [getitem nth_error lit_str fst lit_repr].
  rewrite Hc, strip_relation_of.
  destruct (parse_recipe_id_prefixed (Py.str_int rid)) as [Ha Hb].
  repeat split; try assumption.
  cbn [In] in Hty.
  repeat (destruct Hty as [<- | Hty]; [reflexivity |]). contradiction Hty.
Qed.

End RecipePrefix.

Lemma canonical_triple_of_edge_witness :
  let e := (("recipe", graph_triples.VInt 5),
            ("diet_type", graph_triples.VStr "Vegan"), "hasDietType") in
  let '(head, relation, tail) :=
    model.canonical_row model.read_node_literal (graph_triples.edge_triple e) in
  head = ("recipe_" ++ Py.str_int 5)%string
  /\ Py.startswith head "recipe_" = true
  /\ recommender.parse_recipe_id head = Some (Py.str_int 5)
  /\ tail = ("diet_type" ++ "_" ++ "Vegan")%string
  /\ Py.startswith tail "recipe_" = false
  /\ relation = "hasDietType".
Proof.
  apply (canonical_triple_of_edge model.read_node_literal
           [(5%Z, [("Diet_Types", PyStr "Vegan")])]
           (("recipe", graph_triples.VInt 5),
            ("diet_type", graph_triples.VStr "Vegan"), "hasDietType")
           5 "Vegan").
  - left. reflexivity.
  - reflexivity.
  - reflexivity.
  - reflexivity.
  - reflexivity.
Defined.

(** ** What the ranking returns *)

Section RankingResult.

Import recommender.

Variable predict_target : string -> string -> frame.
Variable sort_values_desc : frame -> frame.

Lemma head_firstn {A : Type} (l : list A) (n : Z) :
  exists m, head l n = firstn m l /\ ((0 <= n)%Z -> m = Z.to_nat n).
Proof.
  unfold head. destruct (0 <=? n)%Z eqn:E.
  - exists (Z.to_nat n). auto.
  - exists (List.length l - Z.to_nat (- n))%nat. split; [reflexivity |].
    intros H. apply Z.leb_gt in E. lia.
Qed.

Lemma sorted_app_inv (a b : frame) :
  StronglySorted by_score_desc (a ++ b) ->
  StronglySorted by_score_desc a
  /\ forall x y, In x a -> In y b -> by_score_desc x y.
Proof.
  induction a as [| r a IH]; cbn [app]; intros H.
  - split; [constructor | intros x y []].
  - inversion H as [| ? ? Hs Hf]; subst. destruct (IH Hs) as [Ha Hab].
    rewrite Forall_app in Hf. destruct Hf as [Hfa Hfb]. split.
    + constructor; assumption.
    + intros x y [<- | Hx] Hy; [| apply Hab; assumption].
      rewrite Forall_forall in Hfb. apply Hfb, Hy.
Qed.

Lemma apply_parse_prefixed (labels : list string) :
  (forall l, In l labels -> Py.startswith l "recipe_" = true) ->
  exists ids, apply parse_recipe_id labels = Some ids
              /\ labels = map (String.append "recipe_") ids.
Proof.
  induction labels as [| l labels IH]; intros H.
  - exists []. split; reflexivity.
  - destruct IH as [ids [E1 E2]]; [intros x Hx; apply H; right; exact Hx |].
    assert (Hl : Py.startswith l "recipe_" = true) by (apply H; left; reflexivity).
    apply prefix_split in Hl. destruct Hl as [x ->].
    exists (x :: ids). cbn [apply map].
    rewrite (proj2 (parse_recipe_id_prefixed x)), E1, <- E2. auto.
Qed.

(** The part after the merge: the rows kept, in order. *)
Lemma top_ids_rows (merged : frame) (top_k : Z) :
  sort_contract sort_values_desc ->
  exists (ids : list string) (rows : frame),
    top_ids sort_values_desc merged top_k = Some ids
    /\ map fst rows = map (String.append "recipe_") ids
    /\ ((0 <= top_k)%Z -> (List.length ids <= Z.to_nat top_k)%nat)
    /\ incl rows merged
    /\ StronglySorted by_score_desc rows
    /\ (forall a b, In a rows -> In b merged ->
                    Py.startswith (fst b) "recipe_" = true -> ~ In b rows ->
                    (snd b <= snd a)%Q).
Proof.
  intros Hsort. unfold top_ids.
  set (kept := filter (fun row : string * Q => Py.startswith (fst row) "recipe_") merged).
  destruct (Hsort kept) as [Hperm Hsorted].
  destruct (head_firstn (sort_values_desc kept) top_k) as [m [Eh Hm]].
  rewrite Eh.
  assert (Hsub : forall r, In r (firstn m (sort_values_desc kept)) -> In r kept).
  { intros r Hr. apply (Permutation_in _ (Permutation_sym Hperm)).
    rewrite <- (firstn_skipn m (sort_values_desc kept)). apply in_or_app. left. exact Hr. }
  destruct (apply_parse_prefixed (map fst (firstn m (sort_values_desc kept))))
    as [ids [E1 E2]].
  { intros l Hl. apply in_map_iff in Hl. destruct Hl as [r [<- Hr]].
    apply Hsub in Hr. subst kept. apply filter_In in Hr. apply Hr. }
  exists ids, (firstn m (sort_values_desc kept)).
  rewrite <- (firstn_skipn m (sort_values_desc kept)) in Hsorted.
  apply sorted_app_inv in Hsorted. destruct Hsorted as [Hs Hab].
  repeat split.
  - exact E1.
  - exact E2.
  - intros Hk. rewrite (Hm Hk) in E2.
    apply (f_equal (@List.length string)) in E2. rewrite !length_map in E2.
    rewrite <- E2. apply firstn_le_length.
  - intros r Hr. apply Hsub in Hr. subst kept. apply filter_In in Hr. apply Hr.
  - exact Hs.
  - intros a b Ha Hb Hp Hnot. apply (Hab a b Ha).
    assert (Hk : In b kept) by (subst kept; apply filter_In; auto).
    apply (Permutation_in _ Hperm) in Hk.
    rewrite <- (firstn_skipn m (sort_values_desc kept)) in Hk.
    apply in_app_or in Hk. destruct Hk as [Hk | Hk]; [contradiction | exact Hk].
Qed.

(** X10: with a sort that meets its contract [get_matching_recipes] never
    raises. Its result has at most [top_k] ids when [top_k] is not negative;
    the ids are those of rows of the merged frame whose label starts with
    "recipe_", in descending order of combined score, and no recipe row left
    out scores higher than a row returned. *)
Theorem ranking_result (criteria : list criterion) (top_k : Z) (flexible : bool)
        (log : list (string * string)) :
  sort_contract sort_values_desc ->
  exists ids,
    fst (get_matching_recipes predict_target sort_values_desc
                              criteria top_k flexible log) = Some ids
    /\ ((0 <= top_k)%Z -> (List.length ids <= Z.to_nat top_k)%nat)
    /\ forall merged,
        merge_all flexible (map (weighted_preds predict_target) criteria) = Some merged ->
        exists rows : frame,
          map fst rows = map (String.append "recipe_") ids
          /\ incl rows merged
          /\ StronglySorted by_score_desc rows
          /\ (forall a b, In a rows -> In b merged ->
                          Py.startswith (fst b) "recipe_" = true -> ~ In b rows ->
                          (snd b <= snd a)%Q).
Proof.
  intros Hsort. destruct criteria as [| c cs].
  - exists []. split; [reflexivity |]. split; [cbn; lia |].
    intros merged H. discriminate H.
  - rewrite get_matching_recipes_run. cbn [fst].
    destruct (top_ids_rows
                (fold_left (merge_step flexible)
                           (map (weighted_preds predict_target) cs)
                           (weighted_preds predict_target c))
                top_k Hsort) as [ids [rows [E [Hl [Hk H]]]]].
    exists ids. split; [exact E |]. split; [exact Hk |].
    intros merged Hm. cbn [map merge_all] in Hm. injection Hm as <-.
    exists rows. split; [exact Hl | exact H].
Qed.

(** X11: the model is asked once for every criterion, in the order of the
    criteria and with the relation and tail of each, whatever [top_k] and
    [flexible] are; with no criterion it is not asked. *)
Theorem model_calls (criteria : list criterion) (top_k : Z) (flexible : bool)
        (log : list (string * string)) :
  snd (get_matching_recipes predict_target sort_values_desc
                            criteria top_k flexible log)
  = log ++ map query_of criteria.
Proof.
  destruct criteria as [| c cs].
  - cbn. rewrite app_nil_r. reflexivity.
  - rewrite get_matching_recipes_run. reflexivity.
Qed.

End RankingResult.

Lemma ranking_result_witness :
  exists ids,
    fst (recommender.get_matching_recipes
           (fun _ _ => [("recipe_1", 3 # 10); ("recipe_2", 9 # 10); ("diet_type_Vegan", 1)])
           recommender.insertion_sort_desc
           [("diet_type_Vegan", "hasDietType", 1%Q)] 1 true []) = Some ids
    /\ ((0 <= 1)%Z -> (List.length ids <= Z.to_nat 1)%nat)
    /\ forall merged,
        recommender.merge_all true
          (map (recommender.weighted_preds
                  (fun _ _ => [("recipe_1", 3 # 10); ("recipe_2", 9 # 10);
                               ("diet_type_Vegan", 1)]))
               [("diet_type_Vegan", "hasDietType", 1%Q)]) = Some merged ->
        exists rows : recommender.frame,
          map fst rows = map (String.append "recipe_") ids
          /\ incl rows merged
          /\ StronglySorted recommender.by_score_desc rows
          /\ (forall a b, In a rows -> In b merged ->
                          Py.startswith (fst b) "recipe_" = true -> ~ In b rows ->
                          (snd b <= snd a)%Q).
Proof.
  apply (ranking_result
           (fun _ _ => [("recipe_1", 3 # 10); ("recipe_2", 9 # 10); ("diet_type_Vegan", 1)])
           recommender.insertion_sort_desc
           [("diet_type_Vegan", "hasDietType", 1%Q)] 1 true []).
  apply insertion_sort_desc_contract.
Defined.

(** ** Normalized and weighted scores *)

Section ScoreRange.

Import recommender.

Lemma fold_min_le (r : list Q) (acc : Q) :
  fold_left Qmin r acc <= acc /\ forall y, In y r -> fold_left Qmin r acc <= y.
Proof.
  revert acc; induction r as [| z r IH]; intros acc; cbn [fold_left].
  - split; [apply Qle_refl | intros y []].
  - destruct (IH (Qmin acc z)) as [H1 H2]. split.
    + eapply Qle_trans; [exact H1 | apply Q.le_min_l].
    + intros y [<- | Hy]; [| apply H2, Hy].
      eapply Qle_trans; [exact H1 | apply Q.le_min_r].
Qed.

Lemma fold_max_ge (r : list Q) (acc : Q) :
  acc <= fold_left Qmax r acc /\ forall y, In y r -> y <= fold_left Qmax r acc.
Proof.
  revert acc; induction r as [| z r IH]; intros acc; cbn [fold_left].
  - split; [apply Qle_refl | intros y []].
  - destruct (IH (Qmax acc z)) as [H1 H2]. split.
    + eapply Qle_trans; [apply Q.le_max_l | exact H1].
    + intros y [<- | Hy]; [| apply H2, Hy].
      eapply Qle_trans; [apply Q.le_max_r | exact H1].
Qed.

Lemma data_min_le (xs : list Q) (x : Q) : In x xs -> data_min xs <= x.
Proof.
  destruct xs as [| x0 r]; [intros [] |]. cbn [data_min].
  destruct (fold_min_le r x0) as [H1 H2]. intros [<- | H]; [exact H1 | apply H2, H].
Qed.

Lemma data_max_ge (xs : list Q) (x : Q) : In x xs -> x <= data_max xs.
Proof.
  destruct xs as [| x0 r]; [intros [] |]. cbn [data_max].
  destruct (fold_max_ge r x0) as [H1 H2]. intros [<- | H]; [exact H1 | apply H2, H].
Qed.

Lemma fold_min_attained (r : list Q) (acc : Q) :
  exists y, In y (acc :: r) /\ fold_left Qmin r acc == y.
Proof.
  revert acc; induction r as [| z r IH]; intros acc; cbn [fold_left].
  - exists acc. split; [left; reflexivity | reflexivity].
  - destruct (IH (Qmin acc z)) as [y [[<- | Hy] E]].
    + destruct (Q.min_dec acc z) as [Em | Em].
      * exists acc. split; [left; reflexivity | rewrite E; exact Em].
      * exists z. split; [right; left; reflexivity | rewrite E; exact Em].
    + exists y. split; [right; right; exact Hy | exact E].
Qed.

Lemma fold_max_attained (r : list Q) (acc : Q) :
  exists y, In y (acc :: r) /\ fold_left Qmax r acc == y.
Proof.
  revert acc; induction r as [| z r IH]; intros acc; cbn [fold_left].
  - exists acc. split; [left; reflexivity | reflexivity].
  - destruct (IH (Qmax acc z)) as [y [[<- | Hy] E]].
    + destruct (Q.max_dec acc z) as [Em | Em].
      * exists acc. split; [left; reflexivity | rewrite E; exact Em].
      * exists z. split; [right; left; reflexivity | rewrite E; exact Em].
    + exists y. split; [right; right; exact Hy | exact E].
Qed.

Lemma data_range_nonneg (xs : list Q) : 0 <= data_max xs - data_min xs.
Proof.
  destruct xs as [| x0 r]; [cbn; discriminate |].
  pose proof (data_min_le (x0 :: r) x0 (or_introl eq_refl)).
  pose proof (data_max_ge (x0 :: r) x0 (or_introl eq_refl)). lra.
Qed.

(** Scores are exact rationals here. The statements of this section and the
    next are those that the rounding of doubles keeps: rounding is monotone,
    so it keeps [<=] and the sign of a sum or product, but neither [<] nor
    the bound 1 on a normalized score. *)
Lemma scale_positive (xs : list Q) : 0 < scale_ (fit xs).
Proof.
  unfold fit, handle_zeros_in_scale. cbn [scale_].
  destruct (Qle_bool (10 * eps) (data_max xs - data_min xs)) eqn:E; cbn [negb].
  - apply Qle_bool_iff in E. unfold eps in E. apply Qlt_shift_div_l; lra.
  - reflexivity.
Qed.

Lemma transform_fit (xs : list Q) (x : Q) :
  transform (fit xs) x == (x - data_min xs) * scale_ (fit xs).
Proof. unfold transform, fit. cbn [scale_ min_]. ring. Qed.

Lemma transform_nonneg (xs : list Q) (x : Q) :
  In x xs -> 0 <= transform (fit xs) x.
Proof.
  intros Hx. rewrite transform_fit.
  pose proof (data_min_le xs x Hx) as Hmin.
  pose proof (scale_positive xs) as Hs.
  apply Qmult_le_0_compat; lra.
Qed.

Lemma normalize_rows (df : frame) (row : string * Q * Q) :
  In row (_normalize_scores df) ->
  In (fst row) df /\ snd row = transform (fit (map snd df)) (snd (fst row)).
Proof.
  destruct df as [| r0 rest]; [intros [] |].
  unfold _normalize_scores. intros H. apply in_map_iff in H.
  destruct H as [r [<- Hr]]. cbn [fst snd]. split; [| reflexivity].
  destruct r; exact Hr.
Qed.

(** X12: min-max normalisation keeps every row with its label and raw
    score, and no normalized score is negative; with a weight that is not
    negative, no weighted score of the criterion is negative. *)
Theorem normalized_scores_nonneg (predict_target : string -> string -> frame)
        (c : criterion) :
  let preds := predict_target (snd (fst c)) (fst (fst c)) in
  map fst (_normalize_scores preds) = preds
  /\ (forall row, In row (_normalize_scores preds) -> 0 <= snd row)
  /\ (0 <= snd c ->
      forall row, In row (weighted_preds predict_target c) -> 0 <= snd row).
Proof.
  cbv zeta. destruct c as [[tail relation] weight]. cbn [fst snd].
  set (preds := predict_target relation tail).
  assert (Hrange : forall row, In row (_normalize_scores preds) -> 0 <= snd row).
  { intros row Hrow. apply normalize_rows in Hrow. destruct Hrow as [Hin ->].
    apply transform_nonneg. apply in_map, Hin. }
  split; [apply normalize_keeps_rows |]. split; [exact Hrange |].
  intros Hw row Hrow. unfold weighted_preds in Hrow. cbn in Hrow.
  fold preds in Hrow. apply in_map_iff in Hrow. destruct Hrow as [r [<- Hr]].
  cbn [snd]. apply Qmult_le_0_compat; [apply Hrange, Hr | exact Hw].
Qed.

Lemma normalized_scores_nonneg_witness :
  Forall (fun row => 0 <= snd row)
         (weighted_preds (fun _ _ => [("recipe_1", - (5 # 10)); ("recipe_2", 73 # 10)])
                         ("diet_type_Vegan", "hasDietType", 2 # 1)).
Proof.
  apply Forall_forall.
  apply (proj2 (proj2 (normalized_scores_nonneg
                         (fun _ _ => [("recipe_1", - (5 # 10)); ("recipe_2", 73 # 10)])
                         ("diet_type_Vegan", "hasDietType", 2 # 1)))).
  discriminate.
Defined.

(** X13: normalisation never reverses the order of the raw scores of a
    criterion: of two rows, the one whose raw score is not higher gets a
    normalized score that is not higher, so equal raw scores get equal
    normalized scores; every row with the lowest raw score gets 0, and a
    frame that is not empty has such a row. *)
Theorem normalisation_keeps_order (df : frame) :
  (forall r1 r2, In r1 (_normalize_scores df) -> In r2 (_normalize_scores df) ->
     (snd (fst r1) <= snd (fst r2) -> snd r1 <= snd r2)
     /\ (snd (fst r1) == snd (fst r2) -> snd r1 == snd r2))
  /\ (forall r, In r (_normalize_scores df) ->
                (forall r', In r' df -> snd (fst r) <= snd r') -> snd r == 0)
  /\ (df <> [] ->
      exists r, In r (_normalize_scores df) /\ snd r == 0
                /\ forall r', In r' df -> snd (fst r) <= snd r').
Proof.
  split; [| split].
  - intros r1 r2 H1 H2. apply normalize_rows in H1, H2.
    destruct H1 as [_ ->], H2 as [_ ->]. rewrite !transform_fit.
    pose proof (scale_positive (map snd df)) as Hs. split; intros H.
    + apply Qmult_le_compat_r; lra.
    + rewrite H. reflexivity.
  - intros r Hr Hlow. apply normalize_rows in Hr. destruct Hr as [Hin ->].
    rewrite transform_fit.
    destruct df as [| r0 rest]; [contradiction Hin |].
    destruct (fold_min_attained (map snd rest) (snd r0)) as [y [Hy Ey]].
    change (snd r0 :: map snd rest) with (map snd (r0 :: rest)) in Hy.
    apply in_map_iff in Hy. destruct Hy as [m [<- Hm]].
    pose proof (Hlow m Hm) as H1.
    pose proof (data_min_le (map snd (r0 :: rest)) _ (in_map snd _ _ Hin)) as H2.
    change (data_min (map snd (r0 :: rest)))
      with (fold_left Qmin (map snd rest) (snd r0)) in *.
    assert (E0 : snd (fst r) - fold_left Qmin (map snd rest) (snd r0) == 0) by lra.
    rewrite E0. ring.
  - intros Hne. destruct df as [| r0 rest]; [contradiction Hne; reflexivity |].
    destruct (fold_min_attained (map snd rest) (snd r0)) as [y [Hy Ey]].
    change (snd r0 :: map snd rest) with (map snd (r0 :: rest)) in Hy.
    apply in_map_iff in Hy. destruct Hy as [r [<- Hr]].
    exists (fst r, snd r, transform (fit (map snd (r0 :: rest))) (snd r)).
    cbn [fst snd]. split; [| split].
    + unfold _normalize_scores. apply in_map_iff. exists r. auto.
    + rewrite transform_fit. change (data_min (map snd (r0 :: rest)))
        with (fold_left Qmin (map snd rest) (snd r0)). rewrite Ey. ring.
    + intros r' Hr'. rewrite <- Ey.
      apply (data_min_le (map snd (r0 :: rest))). apply in_map, Hr'.
Qed.

Lemma normalisation_keeps_order_witness :
  exists r, In r (_normalize_scores [("recipe_1", 3 # 10); ("recipe_2", 9 # 10)])
            /\ snd r == 0
            /\ forall r', In r' [("recipe_1", 3 # 10); ("recipe_2", 9 # 10)] ->
                          snd (fst r) <= snd r'.
Proof.
  apply (proj2 (proj2 (normalisation_keeps_order
                         [("recipe_1", 3 # 10); ("recipe_2", 9 # 10)]))).
  discriminate.
Defined.

(** A range below ten machine epsilons is not stretched: the two scores stay
    that close, where a division by the range would send them to 0 and 1. *)
Example normalize_close_scores :
  map (fun row => Qred (snd row))
      (_normalize_scores [("recipe_1", 1); ("recipe_2", 1 + eps)])
  = [0; eps].
Proof. vm_compute. reflexivity. Qed.

End ScoreRange.

(** ** Strict against flexible, and bounds of the combined score *)

Section MergeMore.

Import recommender.

Lemma strict_labels_in_flexible (rest : list frame) :
  forall a b : frame,
    incl (map fst a) (map fst b) ->
    incl (map fst (fold_left (merge_step false) rest a))
         (map fst (fold_left (merge_step true) rest b)).
Proof.
  induction rest as [| o rest IH]; intros a b H; cbn [fold_left]; [exact H |].
  apply IH. intros h Hh. apply merge_inner_labels in Hh.
  apply merge_outer_labels. left. apply H, Hh.
Qed.

(** X14: on the same frames every candidate of the strict merge is a
    candidate of the flexible merge. *)
Theorem strict_within_flexible (all_preds : list frame) (ms mf : frame) :
  merge_all false all_preds = Some ms ->
  merge_all true all_preds = Some mf ->
  incl (map fst ms) (map fst mf).
Proof.
  destruct all_preds as [| first rest]; [discriminate |].
  cbn [merge_all]. intros [= <-] [= <-].
  apply strict_labels_in_flexible. apply incl_refl.
Qed.

Lemma strict_within_flexible_witness :
  incl (map fst (fold_left (merge_step false)
                           [[("recipe_2", 4 # 10); ("recipe_3", 1 # 10)]]
                           [("recipe_1", 9 # 10); ("recipe_2", 5 # 10)]))
       (map fst (fold_left (merge_step true)
                           [[("recipe_2", 4 # 10); ("recipe_3", 1 # 10)]]
                           [("recipe_1", 9 # 10); ("recipe_2", 5 # 10)])).
Proof.
  apply (strict_within_flexible
           [[("recipe_1", 9 # 10); ("recipe_2", 5 # 10)];
            [("recipe_2", 4 # 10); ("recipe_3", 1 # 10)]]); reflexivity.
Defined.

Variable predict_target : string -> string -> frame.

Lemma weighted_score_nonneg (c : criterion) (row : string * Q) :
  0 <= snd c -> In row (weighted_preds predict_target c) -> 0 <= snd row.
Proof.
  destruct c as [[tail relation] weight]. cbn [snd]. intros Hw Hrow.
  unfold weighted_preds in Hrow. cbn in Hrow.
  apply in_map_iff in Hrow. destruct Hrow as [r [<- Hr]]. cbn [snd].
  apply normalize_rows in Hr. destruct Hr as [Hin ->].
  apply Qmult_le_0_compat; [| exact Hw].
  apply transform_nonneg. apply in_map, Hin.
Qed.

Lemma score_of_nonneg (c : criterion) (h : string) :
  0 <= snd c -> 0 <= score_of h (weighted_preds predict_target c).
Proof.
  intros Hw. unfold score_of.
  destruct (rows_of h (weighted_preds predict_target c)) as [| row rs] eqn:E.
  - apply Qle_refl.
  - apply (weighted_score_nonneg c row Hw).
    assert (H : In row (rows_of h (weighted_preds predict_target c)))
      by (rewrite E; left; reflexivity).
    apply rows_of_In in H. apply H.
Qed.

(** A sum of scores none of which is negative is at least each of them. *)
Lemma Qsum_scores_at_least (cs : list criterion) (h : string) :
  (forall c, In c cs -> 0 <= snd c) ->
  0 <= Qsum (map (score_of h) (map (weighted_preds predict_target) cs))
  /\ forall c, In c cs ->
               score_of h (weighted_preds predict_target c)
               <= Qsum (map (score_of h) (map (weighted_preds predict_target) cs)).
Proof.
  unfold Qsum. induction cs as [| c cs IH]; intros Hw; cbn [map fold_right].
  - split; [apply Qle_refl | intros c []].
  - destruct IH as [I0 I1]; [intros c' Hc'; apply Hw; right; exact Hc' |].
    pose proof (score_of_nonneg c h (Hw c (or_introl eq_refl))) as S0.
    split; [lra |].
    intros c' [<- | Hc']; [lra |]. specialize (I1 c' Hc'). lra.
Qed.

(** The combined score of a row of the merged frame, as a sum. *)
Lemma merged_row_score (flexible : bool) (c : criterion) (cs : list criterion)
      (h : string) (s : Q) :
  (forall c', In c' (c :: cs) ->
              NoDup (map fst (predict_target (snd (fst c')) (fst (fst c'))))) ->
  In (h, s) (fold_left (merge_step flexible)
                       (map (weighted_preds predict_target) cs)
                       (weighted_preds predict_target c)) ->
  s == Qsum (map (score_of h) (map (weighted_preds predict_target) (c :: cs))).
Proof.
  intros Hnd Hin.
  assert (H0 : NoDup (map fst (weighted_preds predict_target c))).
  { rewrite weighted_preds_labels. apply Hnd. left. reflexivity. }
  assert (Hrest : forall df, In df (map (weighted_preds predict_target) cs) ->
                             NoDup (map fst df)).
  { intros df Hdf. apply in_map_iff in Hdf. destruct Hdf as [c' [<- Hc']].
    rewrite weighted_preds_labels. apply Hnd. right. exact Hc'. }
  assert (Hsc : forall h s, In (h, s) (weighted_preds predict_target c) ->
                            s == Qsum (map (score_of h) [weighted_preds predict_target c])).
  { intros h' s' Hin'. unfold Qsum. cbn [map fold_right].
    rewrite (score_of_In h' s' _ H0 Hin'). ring. }
  cbn [map].
  change (weighted_preds predict_target c :: map (weighted_preds predict_target) cs)
    with ([weighted_preds predict_target c] ++ map (weighted_preds predict_target) cs).
  destruct flexible.
  - apply (merge_fold_flexible _ _ [weighted_preds predict_target c] H0 Hrest);
      [| exact Hsc | exact Hin].
    intros h'. split.
    + intros Hh. exists (weighted_preds predict_target c). split; [left; reflexivity | exact Hh].
    + intros [df [[<- | []] Hh]]. exact Hh.
  - apply (merge_fold_strict _ _ [weighted_preds predict_target c] H0 Hrest);
      [| exact Hsc | exact Hin].
    intros h'. split.
    + intros Hh df [<- | []]. exact Hh.
    + intros H. apply H. left. reflexivity.
Qed.

(** X15: when no weight is negative and every criterion's frame lists a
    candidate once, no combined score of the merged frame is negative, and a
    candidate's combined score is at least its weighted score under each
    single criterion (0 where the criterion does not list it): a further
    criterion never lowers a score. *)
Theorem combined_score_at_least (flexible : bool) (c : criterion) (cs : list criterion)
        (merged : frame) (h : string) (s : Q) :
  (forall c', In c' (c :: cs) -> 0 <= snd c') ->
  (forall c', In c' (c :: cs) ->
              NoDup (map fst (predict_target (snd (fst c')) (fst (fst c'))))) ->
  merge_all flexible (map (weighted_preds predict_target) (c :: cs)) = Some merged ->
  In (h, s) merged ->
  0 <= s
  /\ forall c', In c' (c :: cs) -> score_of h (weighted_preds predict_target c') <= s.
Proof.
  intros Hw Hnd Hm Hin. cbn [map merge_all] in Hm. injection Hm as <-.
  pose proof (merged_row_score flexible c cs h s Hnd Hin) as Es.
  destruct (Qsum_scores_at_least (c :: cs) h Hw) as [H0 H1].
  split; [rewrite Es; exact H0 |].
  intros c' Hc'. rewrite Es. apply H1, Hc'.
Qed.

End MergeMore.

Lemma combined_score_at_least_witness :
  let predict_target :=
    fun (_ tail : string) =>
      if String.eqb tail "meal_type_dessert"
      then [("recipe_1", 9 # 10); ("recipe_2", 5 # 10)]
      else [("recipe_2", 4 # 10); ("recipe_3", 1 # 10)] in
  let c1 := ("meal_type_dessert", "isForMealType", 1%Q) in
  let c2 := ("diet_type_Vegan", "hasDietType", 2 # 1) in
  let merged :=
    fold_left (recommender.merge_step true)
              (map (recommender.weighted_preds predict_target) [c2])
              (recommender.weighted_preds predict_target c1) in
  0 <= recommender.score_of "recipe_2" merged
  /\ forall c', In c' [c1; c2] ->
                recommender.score_of "recipe_2"
                  (recommender.weighted_preds predict_target c')
                <= recommender.score_of "recipe_2" merged.
Proof.
  intros predict_target c1 c2 merged.
  apply (combined_score_at_least predict_target true c1 [c2] merged "recipe_2"
           (recommender.score_of "recipe_2" merged)).
  - intros c' [<- | [<- | []]]; discriminate.
  - intros c' [<- | [<- | []]]; nodup_labels.
  - reflexivity.
  - right. left. reflexivity.
Defined.

(** ** The criteria of a request *)

Section Criteria.

Import graph_triples recommender routers.

Lemma fold_left_snoc {A B : Type} (f : A -> B) (l : list A) (acc : list B) :
  fold_left (fun acc x => acc ++ [f x]) l acc = acc ++ map f l.
Proof.
  revert acc; induction l as [| x l IH]; intros acc; cbn [fold_left map].
  - rewrite app_nil_r. reflexivity.
  - rewrite IH, <- app_assoc. reflexivity.
Qed.

Lemma criteria_by_field (cm sb : option string) (dts mts : list string)
      (ct : option string) (hts : list string) (cr : option string)
      (ings : list string) (w : list (string * Q)) :
  map_user_input_to_criteria cm sb dts mts ct hts cr ings w
  = of_field cm (fun v => (("cooking_method_" ++ Py.lower (Py.strip v))%string,
                           "usesCookingMethod", dict_get w "cooking_method" 1))
    ++ of_field sb (fun v => (("servings_bin_" ++ Py.strip v)%string,
                              "hasServingsBin", dict_get w "servings_bin" 1))
    ++ map (fun v => (("diet_type_" ++ Py.strip v)%string,
                      "hasDietType", dict_get w "diet_types" 1)) dts
    ++ map (fun v => (("meal_type_" ++ Py.strip v)%string,
                      "isForMealType", dict_get w "meal_type" 1)) mts
    ++ of_field ct (fun v => (("cook_time_" ++ Py.strip v)%string,
                              "hasCookTime", dict_get w "cook_time" 1))
    ++ map (fun v => (("health_attribute_" ++ Py.strip v)%string,
                      map_health_attribute (Py.strip v),
                      dict_get w "healthy_type" 1)) hts
    ++ of_field cr (fun v => (("cuisine_region_" ++ Py.strip v)%string,
                              "hasCuisineRegion", dict_get w "cuisine_region" 1))
    ++ map (fun v => (("ingredient_" ++ Py.strip v)%string,
                      "containsIngredient", dict_get w "ingredients" 1)) ings.
Proof.
  unfold map_user_input_to_criteria.
  rewrite (fold_left_snoc (fun v => (("ingredient_" ++ Py.strip v)%string,
                                     "containsIngredient", dict_get w "ingredients" 1))).
  rewrite (fold_left_snoc (fun v => (("health_attribute_" ++ Py.strip v)%string,
                                     map_health_attribute (Py.strip v),
                                     dict_get w "healthy_type" 1))).
  rewrite (fold_left_snoc (fun v => (("meal_type_" ++ Py.strip v)%string,
                                     "isForMealType", dict_get w "meal_type" 1))).
  rewrite (fold_left_snoc (fun v => (("diet_type_" ++ Py.strip v)%string,
                                     "hasDietType", dict_get w "diet_types" 1))).
  unfold of_field.
  destruct cm as [cm |]; [destruct (Py.truthy_str cm) |];
    (destruct sb as [sb |]; [destruct (Py.truthy_str sb) |]);
    (destruct ct as [ct |]; [destruct (Py.truthy_str ct) |]);
    (destruct cr as [cr |]; [destruct (Py.truthy_str cr) |]);
    cbn [app]; rewrite <- ?app_assoc; cbn [app]; reflexivity.
Qed.

(** X16: a request gives one criterion for every optional field that holds a
    non-empty text and one for every element of its four lists, blank
    elements too. Every criterion belongs to one of the eight categories: its
    tail starts with the prefix of the category, its relation is one of the
    category's, and its weight is the one the request gives under the key of
    that category, 1 when the request gives none. No relation belongs to two
    categories, so the relation of a criterion fixes the key of its weight. *)
Theorem criteria_count_and_weights (cm sb : option string) (dts mts : list string)
        (ct : option string) (hts : list string) (cr : option string)
        (ings : list string) (w : list (string * Q)) :
  List.length (map_user_input_to_criteria cm sb dts mts ct hts cr ings w)
  = (named cm + named sb + List.length dts + List.length mts + named ct
     + List.length hts + named cr + List.length ings)%nat
  /\ (forall c, In c (map_user_input_to_criteria cm sb dts mts ct hts cr ings w) ->
        exists key pre rels,
          In (key, pre, rels) categories
          /\ Py.startswith (fst (fst c)) pre = true
          /\ In (snd (fst c)) rels
          /\ snd c = dict_get w key 1)
  /\ NoDup (flat_map snd categories)
  /\ NoDup (map (fun cat => fst (fst cat)) categories)
  /\ (forall c, In c (map_user_input_to_criteria cm sb dts mts ct hts cr ings []) ->
                snd c = 1%Q).
Proof.
  assert (Hw : forall w0 c,
             In c (map_user_input_to_criteria cm sb dts mts ct hts cr ings w0) ->
             exists key pre rels,
               In (key, pre, rels) categories
               /\ Py.startswith (fst (fst c)) pre = true
               /\ In (snd (fst c)) rels
               /\ snd c = dict_get w0 key 1).
  { intros w0 c. rewrite criteria_by_field, !in_app_iff. unfold of_field.
    intros [H | [H | [H | [H | [H | [H | [H | H]]]]]]].
    - exists "cooking_method", "cooking_method_", ["usesCookingMethod"].
      destruct cm as [v |]; [destruct (Py.truthy_str v) |]; try contradiction H.
      destruct H as [<- | []]. cbn [fst snd]. unfold Py.startswith.
      rewrite prefix_app_self. cbn; tauto.
    - exists "servings_bin", "servings_bin_", ["hasServingsBin"].
      destruct sb as [v |]; [destruct (Py.truthy_str v) |]; try contradiction H.
      destruct H as [<- | []]. cbn [fst snd]. unfold Py.startswith.
      rewrite prefix_app_self. cbn; tauto.
    - exists "diet_types", "diet_type_", ["hasDietType"].
      apply in_map_iff in H. destruct H as [v [<- _]]. cbn [fst snd].
      unfold Py.startswith. rewrite prefix_app_self. cbn; tauto.
    - exists "meal_type", "meal_type_", ["isForMealType"].
      apply in_map_iff in H. destruct H as [v [<- _]]. cbn [fst snd].
      unfold Py.startswith. rewrite prefix_app_self. cbn; tauto.
    - exists "cook_time", "cook_time_", ["hasCookTime"].
      destruct ct as [v |]; [destruct (Py.truthy_str v) |]; try contradiction H.
      destruct H as [<- | []]. cbn [fst snd]. unfold Py.startswith.
      rewrite prefix_app_self. cbn; tauto.
    - exists "healthy_type", "health_attribute_",
        ["HasProteinLevel"; "HasCarbLevel"; "HasFatLevel"; "HasSaturatedFatLevel";
         "HasCalorieLevel"; "HasSodiumLevel"; "HasSugarLevel"; "HasFiberLevel";
         "HasCholesterolLevel"; "HasHealthAttribute"].
      apply in_map_iff in H. destruct H as [v [<- _]]. cbn [fst snd].
      unfold Py.startswith. rewrite prefix_app_self.
      split; [cbn; tauto |]. split; [reflexivity |].
      split; [apply map_health_attribute_values | reflexivity].
    - exists "cuisine_region", "cuisine_region_", ["hasCuisineRegion"].
      destruct cr as [v |]; [destruct (Py.truthy_str v) |]; try contradiction H.
      destruct H as [<- | []]. cbn [fst snd]. unfold Py.startswith.
      rewrite prefix_app_self. cbn; tauto.
    - exists "ingredients", "ingredient_", ["containsIngredient"].
      apply in_map_iff in H. destruct H as [v [<- _]]. cbn [fst snd].
      unfold Py.startswith. rewrite prefix_app_self. cbn; tauto. }
  split; [| split; [| split; [| split]]].
  - rewrite criteria_by_field, !List.length_app, !length_map. unfold of_field, named.
    destruct cm as [v1 |]; [destruct (Py.truthy_str v1) |];
      (destruct sb as [v2 |]; [destruct (Py.truthy_str v2) |]);
      (destruct ct as [v3 |]; [destruct (Py.truthy_str v3) |]);
      (destruct cr as [v4 |]; [destruct (Py.truthy_str v4) |]);
      cbn [List.length]; lia.
  - apply Hw.
  - cbn. repeat constructor; cbn; intuition discriminate.
  - cbn. repeat constructor; cbn; intuition discriminate.
  - intros c Hc. destruct (Hw [] c Hc) as [key [pre [rels [_ [_ [_ E]]]]]]. exact E.
Qed.

(** The weights of two categories are not mixed up. *)
Example criteria_weights_ex :
  map_user_input_to_criteria (Some " Baked ") None [] [] None ["Low Sugar"] None
                             ["Salt"] [("cooking_method", 3 # 1); ("ingredients", 2 # 1)]
  = [("cooking_method_baked", "usesCookingMethod", 3 # 1);
     ("health_attribute_Low Sugar", "HasSugarLevel", 1);
     ("ingredient_Salt", "containsIngredient", 2 # 1)].
Proof. reflexivity. Qed.

Variable predict_target : string -> string -> frame.
Variable sort_values_desc : frame -> frame.

(** X17: the service asks the model once per criterion of the request; a
    request that names nothing (every optional field absent or empty, every
    list empty) is answered with the empty list without asking the model,
    whatever its weights, [top_k] and [flexible]. *)
Theorem recommend_recipes_calls (request : RecommendationRequest)
        (log : list (string * string)) :
  snd (recommend_recipes predict_target sort_values_desc request log)
  = log ++ map query_of (request_criteria request)
  /\ (named (cooking_method request) = 0%nat ->
      named (servings_bin request) = 0%nat ->
      named (cook_time request) = 0%nat ->
      named (cuisine_region request) = 0%nat ->
      diet_types request = [] -> meal_type request = [] ->
      health_types request = [] -> ingredients request = [] ->
      recommend_recipes predict_target sort_values_desc request log = (Some [], log)).
Proof.
  unfold recommend_recipes. split.
  - destruct (request_criteria request) as [| c cs].
    + cbn. rewrite app_nil_r. reflexivity.
    + rewrite get_matching_recipes_run. reflexivity.
  - intros H1 H2 H3 H4 H5 H6 H7 H8.
    assert (E : request_criteria request = []).
    { unfold request_criteria. rewrite criteria_by_field, H5, H6, H7, H8.
      unfold named, of_field in *.
      destruct (cooking_method request) as [v1 |];
        [destruct (Py.truthy_str v1); [discriminate H1 |] |];
        (destruct (servings_bin request) as [v2 |];
         [destruct (Py.truthy_str v2); [discriminate H2 |] |]);
        (destruct (cook_time request) as [v3 |];
         [destruct (Py.truthy_str v3); [discriminate H3 |] |]);
        (destruct (cuisine_region request) as [v4 |];
         [destruct (Py.truthy_str v4); [discriminate H4 |] |]);
        reflexivity. }
    rewrite E. reflexivity.
Qed.

End Criteria.

Lemma recommend_recipes_calls_witness :
  routers.recommend_recipes (fun _ _ => [("recipe_1", 1%Q)])
                            recommender.insertion_sort_desc
                            routers.default_request []
  = (Some [], []).
Proof.
  apply (proj2 (recommend_recipes_calls (fun _ _ => [("recipe_1", 1%Q)])
                  recommender.insertion_sort_desc routers.default_request []));
    reflexivity.
Defined.

Example criteria_count_ex :
  List.length (recommender.map_user_input_to_criteria
                 (Some "") (Some "1-2") ["Vegan"; " "] [] None ["low_fat"] None [] [])
  = 4%nat.
Proof. reflexivity. Qed.

(** ** Loading the records from a table *)

Section Loading.

Import graph_triples.

Lemma recipes_set_In (rs : list (Z * details)) (k : Z) (d : details)
      (k' : Z) (d' : details) :
  In (k', d') (recipes_set rs k d) -> In (k', d') rs \/ (k', d') = (k, d).
Proof.
  induction rs as [| [k0 v0] rs IH]; cbn [recipes_set].
  - intros [E | []]. right. symmetry. exact E.
  - destruct (Z.eqb k0 k) eqn:E.
    + intros [H | H]; [| left; right; exact H].
      apply Z.eqb_eq in E. subst k0. right. symmetry. exact H.
    + intros [H | H]; [left; left; exact H |].
      destruct (IH H) as [H' | H']; [left; right; exact H' | right; exact H'].
Qed.

Lemma recipes_set_same (rs : list (Z * details)) (k : Z) (d : details) :
  In (k, d) (recipes_set rs k d).
Proof.
  induction rs as [| [k0 v0] rs IH]; cbn [recipes_set]; [left; reflexivity |].
  destruct (Z.eqb k0 k) eqn:E.
  - apply Z.eqb_eq in E. subst k0. left. reflexivity.
  - right. exact IH.
Qed.

Lemma recipes_set_other (rs : list (Z * details)) (k : Z) (d : details)
      (k' : Z) (d' : details) :
  k' <> k -> In (k', d') rs -> In (k', d') (recipes_set rs k d).
Proof.
  intros Hne. induction rs as [| [k0 v0] rs IH]; cbn [recipes_set]; [intros [] |].
  destruct (Z.eqb k0 k) eqn:E.
  - apply Z.eqb_eq in E. subst k0. intros [[= E1 E2] | H]; [congruence | right; exact H].
  - intros [H | H]; [left; exact H | right; apply IH, H].
Qed.

Lemma recipes_set_keys (rs : list (Z * details)) (k : Z) (d : details) :
  map fst (recipes_set rs k d)
  = if existsb (Z.eqb k) (map fst rs) then map fst rs else map fst rs ++ [k].
Proof.
  induction rs as [| [k0 v0] rs IH]; cbn [recipes_set map fst existsb app];
    [reflexivity |].
  rewrite (Z.eqb_sym k k0). destruct (Z.eqb k0 k); cbn [orb map fst]; [reflexivity |].
  rewrite IH. destruct (existsb (Z.eqb k) (map fst rs)); reflexivity.
Qed.

Lemma recipes_set_keys_spec (rs : list (Z * details)) (k : Z) (d : details) :
  NoDup (map fst rs) ->
  NoDup (map fst (recipes_set rs k d))
  /\ forall x, In x (map fst (recipes_set rs k d)) <-> In x (map fst rs) \/ x = k.
Proof.
  intros Hnd. rewrite recipes_set_keys.
  destruct (existsb (Z.eqb k) (map fst rs)) eqn:E.
  - apply existsb_exists in E. destruct E as [y [Hy E]]. apply Z.eqb_eq in E. subst y.
    split; [exact Hnd |]. intros x. split; [auto | intros [H | ->]; assumption].
  - split.
    + apply NoDup_app; [exact Hnd | repeat constructor; intros [] |].
      intros a Ha [Ea | []]. subst a.
      assert (Ht : existsb (Z.eqb k) (map fst rs) = true).
      { apply existsb_exists. exists k. split; [exact Ha | apply Z.eqb_refl]. }
      congruence.
    + intros x. rewrite in_app_iff. cbn. intuition.
Qed.

Lemma load_rows_keys (rs : list row) (acc : list (Z * details)) :
  NoDup (map fst acc) ->
  NoDup (map fst (load_rows rs acc))
  /\ forall x, In x (map fst (load_rows rs acc))
               <-> In x (map fst acc) \/ In x (map fst rs).
Proof.
  revert acc; induction rs as [| r rs IH]; intros acc Hnd; cbn [load_rows fold_left].
  - split; [exact Hnd | intros x; cbn; tauto].
  - destruct (recipes_set_keys_spec acc (fst r) (record_of r) Hnd) as [Hn Hi].
    destruct (IH _ Hn) as [Hn' Hi']. split; [exact Hn' |].
    intros x. unfold load_rows in Hi'. rewrite Hi', Hi. cbn [map In]. split.
    + intros [[H | ->] | H]; auto.
    + intros [H | [<- | H]]; auto.
Qed.

Lemma load_rows_from (rs : list row) (acc : list (Z * details)) (k : Z) (d : details) :
  In (k, d) (load_rows rs acc) ->
  In (k, d) acc \/ exists r, In r rs /\ fst r = k /\ d = record_of r.
Proof.
  revert acc; induction rs as [| r rs IH]; intros acc H; cbn [load_rows fold_left] in H.
  - left. exact H.
  - apply IH in H. destruct H as [H | [r' [Hr' E]]].
    + apply recipes_set_In in H. destruct H as [H | [= -> ->]]; [left; exact H |].
      right. exists r. split; [left; reflexivity | auto].
    + right. exists r'. split; [right; exact Hr' | exact E].
Qed.

Lemma load_rows_keeps (rs : list row) (acc : list (Z * details)) (k : Z) (d : details) :
  In (k, d) acc -> ~ In k (map fst rs) -> In (k, d) (load_rows rs acc).
Proof.
  revert acc; induction rs as [| r rs IH]; intros acc H Hnot; cbn [load_rows fold_left].
  - exact H.
  - apply IH.
    + apply recipes_set_other; [| exact H]. intros E. apply Hnot. left. congruence.
    + intros Hin. apply Hnot. right. exact Hin.
Qed.

(** X18: [load_recipes_from_dataframe] raises exactly when a retained
    column is missing from the table, and names the missing columns. When it
    returns, the recipe ids of the result are distinct and are those of the
    rows; every record has the nine retained columns, filled from a row with
    its id; and of several rows with one id the last one gives the record. *)
Theorem load_recipes_spec (df : DataFrame) :
  (forall missing, load_recipes_from_dataframe df = inl missing ->
     missing <> []
     /\ forall c, In c missing <-> In c columns_to_keep /\ has_column df c = false)
  /\ ((forall c, In c columns_to_keep -> has_column df c = true) ->
      exists recipes, load_recipes_from_dataframe df = inr recipes)
  /\ (forall recipes, load_recipes_from_dataframe df = inr recipes ->
        (forall c, In c columns_to_keep -> has_column df c = true)
        /\ NoDup (map fst recipes)
        /\ (forall k, In k (map fst recipes) <-> In k (map fst (rows df)))
        /\ (forall k d, In (k, d) recipes ->
              map fst d = columns_to_keep
              /\ exists r, In r (rows df) /\ fst r = k
                           /\ d = map (fun col => (col, row_cell r col)) columns_to_keep)
        /\ (forall pre r post,
              rows df = pre ++ r :: post -> ~ In (fst r) (map fst post) ->
              In (fst r, map (fun col => (col, row_cell r col)) columns_to_keep)
                 recipes)).
Proof.
  unfold load_recipes_from_dataframe.
  set (missing := filter (fun c => negb (has_column df c)) columns_to_keep).
  assert (Hmiss : forall c, In c missing
                            <-> In c columns_to_keep /\ has_column df c = false).
  { intros c. subst missing. rewrite filter_In, negb_true_iff. reflexivity. }
  split; [| split].
  - intros m H. destruct missing as [| c0 rest] eqn:E; [discriminate H |].
    injection H as <-. split; [discriminate | exact Hmiss].
  - intros Hall. destruct missing as [| c0 rest] eqn:E; [eexists; reflexivity |].
    exfalso. destruct (proj1 (Hmiss c0) (or_introl eq_refl)) as [Hc Hf].
    rewrite (Hall c0 Hc) in Hf. discriminate Hf.
  - intros recipes H. destruct missing as [| c0 rest] eqn:E; [| discriminate H].
    injection H as <-.
    destruct (load_rows_keys (rows df) [] (NoDup_nil _)) as [Hn Hi].
    unfold load_rows, record_of in Hn, Hi.
    split; [| split; [exact Hn | split; [| split]]].
    + intros c Hc. destruct (has_column df c) eqn:Ec; [reflexivity |].
      destruct (proj2 (Hmiss c) (conj Hc Ec)).
    + intros k. rewrite Hi. cbn. tauto.
    + intros k d Hin. apply (load_rows_from (rows df) []) in Hin.
      destruct Hin as [[] | [r [Hr [Ek ->]]]]. split.
      * unfold record_of. rewrite map_map. cbn [fst]. apply map_id.
      * exists r. auto.
    + intros pre r post Erows Hnot. rewrite Erows.
      rewrite fold_left_app. cbn [fold_left].
      apply (load_rows_keeps post); [apply recipes_set_same | exact Hnot].
Qed.

End Loading.

Lemma load_recipes_spec_witness :
  let df := mkDataFrame graph_triples.columns_to_keep
              [(7%Z, fun _ => Val (PyStr "old"));
               (9%Z, fun _ => NaN);
               (7%Z, fun _ => Val (PyStr "new"))] in
  exists recipes,
    graph_triples.load_recipes_from_dataframe df = inr recipes
    /\ NoDup (map fst recipes)
    /\ In (7%Z, map (fun col => (col, row_cell (7%Z, fun _ => Val (PyStr "new")) col))
                    graph_triples.columns_to_keep) recipes.
Proof.
  intros df.
  destruct (load_recipes_spec df) as [_ [Hex Hok]].
  destruct Hex as [recipes E].
  - intros c Hc. cbn in Hc.
    repeat (destruct Hc as [<- | Hc]; [reflexivity |]). contradiction Hc.
  - exists recipes. destruct (Hok recipes E) as [_ [Hnd [_ [_ Hlast]]]].
    split; [exact E |]. split; [exact Hnd |].
    apply (Hlast [(7%Z, fun _ => Val (PyStr "old")); (9%Z, fun _ => NaN)]
                 (7%Z, fun _ => Val (PyStr "new")) []).
    + reflexivity.
    + intros [].
Defined.

Example load_missing_columns :
  graph_triples.load_recipes_from_dataframe
    (mkDataFrame ["RecipeId"; "Cooking_Method"; "servings_bin"; "Diet_Types";
                  "meal_type"; "Healthy_Type"; "BestUsdaIngredientName"] [])
  = inl ["cook_time"; "CuisineRegion"].
Proof. reflexivity. Qed.

(** ** The ingredients offered to the user *)

Section UniqueIngredients.

Import graph_triples data_loading.

Lemma ltb_trans (a b c : string) :
  String.ltb a b = true -> String.ltb b c = true -> String.ltb a c = true.
Proof.
  unfold String.ltb. intros H1 H2.
  destruct (String.compare a b) eqn:E1; try discriminate H1.
  destruct (String.compare b c) eqn:E2; try discriminate H2.
  apply String_as_OT.cmp_lt in E1, E2.
  pose proof (String_as_OT.lt_trans _ _ _ E1 E2) as H.
  apply String_as_OT.cmp_lt in H. unfold String_as_OT.cmp in H. rewrite H. reflexivity.
Qed.

Lemma ltb_irrefl (a : string) : String.ltb a a = false.
Proof.
  unfold String.ltb. pose proof (String.compare_antisym a a) as H.
  destruct (String.compare a a); cbn in H; try reflexivity. discriminate H.
Qed.

Lemma insert_sorted_In (x : string) (l : list string) (y : string) :
  In y (insert_sorted x l) <-> y = x \/ In y l.
Proof.
  induction l as [| z l IH]; cbn [insert_sorted].
  - cbn. intuition.
  - destruct (String.compare x z) eqn:E.
    + apply String.compare_eq_iff in E. subst z. cbn. intuition.
    + cbn. intuition.
    + cbn [In]. rewrite IH. intuition.
Qed.

Lemma insert_sorted_sorted (x : string) (l : list string) :
  StronglySorted ascending l -> StronglySorted ascending (insert_sorted x l).
Proof.
  induction l as [| z l IH]; intros Hs; cbn [insert_sorted].
  - constructor; constructor.
  - inversion Hs as [| ? ? Hl Hz]; subst.
    destruct (String.compare x z) eqn:E.
    + exact Hs.
    + assert (Hxz : ascending x z) by (unfold ascending, String.ltb; rewrite E; reflexivity).
      constructor; [exact Hs |]. constructor; [exact Hxz |].
      eapply Forall_impl; [| exact Hz]. intros w Hw. eapply ltb_trans; eauto.
    + assert (Hzx : ascending z x).
      { unfold ascending, String.ltb. rewrite String.compare_antisym, E. reflexivity. }
      constructor; [apply IH, Hl |].
      apply Forall_forall. intros w Hw. apply insert_sorted_In in Hw.
      destruct Hw as [-> | Hw]; [exact Hzx |].
      rewrite Forall_forall in Hz. apply Hz, Hw.
Qed.

Lemma sorted_set_spec (l : list string) :
  StronglySorted ascending (sorted_set l)
  /\ forall y, In y (sorted_set l) <-> In y l.
Proof.
  induction l as [| x l [IH1 IH2]]; cbn [sorted_set fold_right].
  - split; [constructor | tauto].
  - split; [apply insert_sorted_sorted, IH1 |].
    intros y. fold (sorted_set l). rewrite insert_sorted_In, IH2. cbn. intuition.
Qed.

Lemma ascending_NoDup (l : list string) : StronglySorted ascending l -> NoDup l.
Proof.
  induction l as [| x l IH]; intros Hs; [constructor |].
  inversion Hs as [| ? ? Hl Hx]; subst. constructor; [| apply IH, Hl].
  intros Hin. rewrite Forall_forall in Hx. specialize (Hx x Hin).
  unfold ascending in Hx. rewrite ltb_irrefl in Hx. discriminate Hx.
Qed.

Lemma unique_In (same : pyobj -> pyobj -> bool) (l : list pyobj) (y : pyobj) :
  In y (unique same l) -> In y l.
Proof.
  induction l as [| x l IH]; cbn [unique]; [tauto |].
  intros [H | H]; [left; exact H |]. apply filter_In in H. right. apply IH, H.
Qed.

(** Of a list of texts [unique] drops nothing but repetitions. *)
Lemma unique_texts (same : pyobj -> pyobj -> bool) (l : list pyobj) (y : pyobj) :
  (forall s t, same (PyStr s) (PyStr t) = String.eqb s t) ->
  (forall o, In o l -> exists s, o = PyStr s) ->
  In y l -> In y (unique same l).
Proof.
  intros Hsame. induction l as [| x l IH]; intros Htext Hy; [contradiction Hy |].
  cbn [unique]. destruct Hy as [-> | Hy]; [left; reflexivity |].
  destruct (same x y) eqn:E.
  - left. destruct (Htext x (or_introl eq_refl)) as [s ->].
    destruct (Htext y (or_intror Hy)) as [t ->].
    rewrite Hsame in E. apply String.eqb_eq in E. congruence.
  - right. apply filter_In. split; [| rewrite E; reflexivity].
    apply IH; [| exact Hy]. intros o Ho. apply Htext. right. exact Ho.
Qed.

Lemma offered_spec (x : string) :
  offered x = true <-> x <> "" /\ x <> "unknown" /\ x <> "nan".
Proof.
  unfold offered, Py.truthy_str. rewrite !andb_true_iff, !negb_true_iff, !String.eqb_neq.
  tauto.
Qed.

(** Every offered ingredient is a piece of a cell that is not missing. *)
Lemma offered_from_row (same : pyobj -> pyobj -> bool) (recipes_df : DataFrame)
      (x : string) :
  In x (get_unique_ingredients same recipes_df) ->
  has_column recipes_df "BestUsdaIngredientName" = true
  /\ x <> "" /\ x <> "unknown" /\ x <> "nan"
  /\ exists r, In r (rows recipes_df)
               /\ isna (snd r "BestUsdaIngredientName") = false
               /\ In x (Py.split ";" (str (cell_obj (snd r "BestUsdaIngredientName")))).
Proof.
  unfold get_unique_ingredients.
  destruct (has_column recipes_df "BestUsdaIngredientName"); [| intros []].
  intros Hx.
  match type of Hx with
  | In _ (sorted_set ?l) => apply (proj2 (sorted_set_spec l)) in Hx
  end.
  apply in_flat_map in Hx. destruct Hx as [o [Ho Hx]].
  apply filter_In in Hx. destruct Hx as [Hx Hoff].
  apply offered_spec in Hoff. apply unique_In, in_map_iff in Ho.
  destruct Ho as [c [<- Hc]]. apply filter_In in Hc. destruct Hc as [Hc Hna].
  apply in_map_iff in Hc. destruct Hc as [r [<- Hr]].
  apply negb_true_iff in Hna.
  split; [reflexivity |]. destruct Hoff as [H1 [H2 H3]].
  repeat (split; [assumption |]). exists r. auto.
Qed.

(** X19: the list of ingredients offered to the user is in strictly
    ascending order, so without repetition; every text in it is a piece, cut
    at a semicolon, of a cell of the ingredient column that is not missing,
    and is neither empty nor "unknown" nor "nan". When the column holds texts
    and missing values only, the list holds exactly these pieces; pieces are
    neither trimmed nor lower-cased. A table without the column gives the
    empty list. *)
Theorem unique_ingredients_spec (same : pyobj -> pyobj -> bool)
        (recipes_df : DataFrame) :
  StronglySorted (fun a b => String.ltb a b = true)
                 (get_unique_ingredients same recipes_df)
  /\ NoDup (get_unique_ingredients same recipes_df)
  /\ (has_column recipes_df "BestUsdaIngredientName" = false ->
      get_unique_ingredients same recipes_df = [])
  /\ (forall x, In x (get_unique_ingredients same recipes_df) ->
        has_column recipes_df "BestUsdaIngredientName" = true
        /\ x <> "" /\ x <> "unknown" /\ x <> "nan"
        /\ exists r, In r (rows recipes_df)
                     /\ isna (snd r "BestUsdaIngredientName") = false
                     /\ In x (Py.split ";"
                                (str (cell_obj (snd r "BestUsdaIngredientName")))))
  /\ ((forall s t, same (PyStr s) (PyStr t) = String.eqb s t) ->
      (forall r, In r (rows recipes_df) ->
                 snd r "BestUsdaIngredientName" = NaN
                 \/ exists s, snd r "BestUsdaIngredientName" = Val (PyStr s)) ->
      forall x, In x (get_unique_ingredients same recipes_df) <->
        has_column recipes_df "BestUsdaIngredientName" = true
        /\ x <> "" /\ x <> "unknown" /\ x <> "nan"
        /\ exists r s, In r (rows recipes_df)
                       /\ snd r "BestUsdaIngredientName" = Val (PyStr s)
                       /\ In x (Py.split ";" s)).
Proof.
  split; [| split; [| split; [| split]]].
  - unfold get_unique_ingredients.
    destruct (has_column recipes_df "BestUsdaIngredientName"); [| constructor].
    match goal with
    | |- context [sorted_set ?l] => apply (proj1 (sorted_set_spec l))
    end.
  - unfold get_unique_ingredients.
    destruct (has_column recipes_df "BestUsdaIngredientName"); [| constructor].
    apply ascending_NoDup.
    match goal with
    | |- context [sorted_set ?l] => apply (proj1 (sorted_set_spec l))
    end.
  - unfold get_unique_ingredients. intros ->. reflexivity.
  - apply offered_from_row.
  - intros Hsame Htext x. split.
    + intros Hx. apply offered_from_row in Hx.
      destruct Hx as [Hc [H1 [H2 [H3 [r [Hr [Hna Hx]]]]]]].
      repeat (split; [assumption |]).
      destruct (Htext r Hr) as [E | [s E]]; rewrite E in Hna, Hx;
        [discriminate Hna |].
      exists r, s. auto.
    + intros [Hc [H1 [H2 [H3 [r [s [Hr [E Hx]]]]]]]].
      unfold get_unique_ingredients. rewrite Hc.
      match goal with
      | |- context [sorted_set ?l] => apply (proj2 (sorted_set_spec l))
      end.
      apply in_flat_map. exists (PyStr s). split.
      * apply (unique_texts same _ _ Hsame).
        -- intros o Ho. apply in_map_iff in Ho. destruct Ho as [c [<- Hcell]].
           apply filter_In in Hcell. destruct Hcell as [Hcell Hna].
           apply in_map_iff in Hcell. destruct Hcell as [r' [<- Hr']].
           destruct (Htext r' Hr') as [E' | [s' E']]; rewrite E' in *;
             [discriminate Hna | exists s'; reflexivity].
        -- apply in_map_iff. exists (Val (PyStr s)). split; [reflexivity |].
           apply filter_In. split; [| reflexivity].
           apply in_map_iff. exists r. auto.
      * apply filter_In. split; [exact Hx | apply offered_spec; auto].
Qed.

Example unique_ingredients_ex :
  get_unique_ingredients same_text
    (mkDataFrame ["RecipeId"; "BestUsdaIngredientName"]
       [(1%Z, fun _ => Val (PyStr "salt;Tomato; salt"));
        (2%Z, fun _ => NaN);
        (3%Z, fun _ => Val (PyStr "unknown"));
        (4%Z, fun _ => Val (PyStr "salt;;BLUEBERRIES,RAW"))])
  = [" salt"; "BLUEBERRIES,RAW"; "Tomato"; "salt"].
Proof. reflexivity. Qed.

End UniqueIngredients.

Lemma unique_ingredients_spec_witness :
  In "Tomato"
     (data_loading.get_unique_ingredients data_loading.same_text
        (mkDataFrame ["RecipeId"; "BestUsdaIngredientName"]
           [(1%Z, fun _ => Val (PyStr "salt;Tomato; salt"));
            (2%Z, fun _ => NaN)])).
Proof.
  apply (proj2 (proj2 (proj2 (proj2 (unique_ingredients_spec
           data_loading.same_text
           (mkDataFrame ["RecipeId"; "BestUsdaIngredientName"]
              [(1%Z, fun _ => Val (PyStr "salt;Tomato; salt"));
               (2%Z, fun _ => NaN)])))))).
  - intros s t. reflexivity.
  - intros r [<- | [<- | []]]; [right; eexists; reflexivity | left; reflexivity].
  - split; [reflexivity |]. repeat (split; [discriminate |]).
    exists (1%Z, fun _ => Val (PyStr "salt;Tomato; salt")), "salt;Tomato; salt".
    split; [left; reflexivity |]. split; [reflexivity |].
    right. left. reflexivity.
Defined.

(** ** Offered ingredients against ingredient nodes *)

Section OfferedIngredients.

Import graph_triples data_loading.

Lemma strip_blank (s : string) : Py.strip s = "" <-> Py.lstrip s = "".
Proof.
  unfold Py.strip. pose proof (lstrip_head s) as H.
  destruct (Py.lstrip s) as [| c r]; [tauto |].
  rewrite (rstrip_keeps_head c r H). split; discriminate.
Qed.

Lemma semicolon_not_space (c : ascii) :
  Py.isspace c = true -> Ascii.eqb c ";" = false.
Proof. destruct c as [[] [] [] [] [] [] [] []]; cbn; congruence. Qed.

(** The pieces of a blank text are blank. *)
Lemma split_blank (s : string) :
  Py.lstrip s = "" -> forall p, In p (Py.split ";" s) -> Py.lstrip p = "".
Proof.
  unfold Py.split. intros Hs.
  assert (H : Py.lstrip (fst (Py.split_from ";" s 0)) = ""
              /\ snd (Py.split_from ";" s 0) = []).
  { induction s as [| c s IH]; [split; reflexivity |].
    cbn [Py.lstrip] in Hs. destruct (Py.isspace c) eqn:Ec; [| discriminate Hs].
    destruct (IH Hs) as [I1 I2].
    unfold Py.split_from; fold Py.split_from.
    rewrite (prefix_char ";" c s), (semicolon_not_space c Ec).
    destruct (Py.split_from ";" s 0) as [q qs]. cbn [fst snd] in *.
    split; [cbn [Py.lstrip]; rewrite Ec; exact I1 | exact I2]. }
  destruct (Py.split_from ";" s 0) as [q qs]. cbn [fst snd] in H.
  destruct H as [H1 ->]. intros p [<- | []]. exact H1.
Qed.

(** A piece of an ingredient cell that is offered and not blank is linked,
    trimmed and lower-cased, by a record that holds the cell. *)
Lemma offered_piece_link (s x : string) (d : details) :
  In x (Py.split ";" s) -> x <> "" -> x <> "unknown" -> Py.strip x <> "" ->
  dict_get d "BestUsdaIngredientName" PyNone = PyStr s ->
  In ("ingredient", VStr (Py.lower (Py.strip x))) (map link_node (ingredient_links d)).
Proof.
  intros Hx Hne Hun Hnb Hd.
  assert (Hv : has_value (PyStr s) = true).
  { unfold has_value. cbn [truthy ne_str str]. rewrite !andb_true_iff, !negb_true_iff.
    repeat split.
    - unfold Py.truthy_str. apply negb_true_iff, String.eqb_neq. intros ->.
      cbn in Hx. destruct Hx as [<- | []]. apply Hne. reflexivity.
    - apply String.eqb_neq. intros ->. cbn in Hx. destruct Hx as [<- | []].
      apply Hun. reflexivity.
    - apply String.eqb_neq. intros Es. apply strip_blank in Es.
      apply Hnb, strip_blank. apply (split_blank s Es x Hx). }
  unfold ingredient_links. rewrite Hd, Hv. cbn [str]. rewrite map_map. cbn [link_node].
  apply in_map_iff. exists (Py.strip x). split; [reflexivity |].
  assert (Ht : Py.truthy_str (Py.strip x) = true).
  { unfold Py.truthy_str. apply negb_true_iff, String.eqb_neq. exact Hnb. }
  apply filter_In. split; [| exact Ht].
  unfold split_and_clean, ingredient_delimiter. apply in_map, filter_In. auto.
Qed.

(** The record of a row whose id no later row has is in the loaded dict. *)
Lemma load_rows_row (rs : list row) (r : row) :
  NoDup (map fst rs) -> In r rs -> In (fst r, record_of r) (load_rows rs []).
Proof.
  intros Hnd Hr. apply in_split in Hr. destruct Hr as [pre [post ->]].
  rewrite map_app in Hnd. cbn [map] in Hnd. apply NoDup_remove_2 in Hnd.
  unfold load_rows. rewrite fold_left_app. cbn [fold_left].
  apply (load_rows_keeps post); [apply recipes_set_same |].
  intros Hin. apply Hnd, in_or_app. right. exact Hin.
Qed.

Lemma load_recipes_rows (df : DataFrame) (recipes : list (Z * details)) :
  load_recipes_from_dataframe df = inr recipes -> recipes = load_rows (rows df) [].
Proof.
  unfold load_recipes_from_dataframe.
  destruct (filter (fun c => negb (has_column df c)) columns_to_keep);
    [| discriminate].
  intros H. injection H as <-. reflexivity.
Qed.

(** X20: take a table whose rows have distinct recipe ids and whose
    ingredient column holds texts and missing values only, the records
    loaded from it and the graph built from them. Every offered ingredient
    that is not blank is, trimmed and lower-cased, an ingredient node of that
    graph, and the recipe of a row that holds it has an edge to the node with
    the relation of ingredients. *)
Theorem offered_ingredient_has_node (same : pyobj -> pyobj -> bool)
        (recipes_df : DataFrame) (recipes : list (Z * details)) (x : string) :
  load_recipes_from_dataframe recipes_df = inr recipes ->
  NoDup (map fst (rows recipes_df)) ->
  (forall r, In r (rows recipes_df) ->
             snd r "BestUsdaIngredientName" = NaN
             \/ exists s, snd r "BestUsdaIngredientName" = Val (PyStr s)) ->
  In x (get_unique_ingredients same recipes_df) ->
  Py.strip x <> "" ->
  let G := fst (create_graph_and_triples recipes) in
  In ("ingredient", VStr (Py.lower (Py.strip x))) (node_ids G)
  /\ exists r s, In r (rows recipes_df)
                 /\ snd r "BestUsdaIngredientName" = Val (PyStr s)
                 /\ In x (Py.split ";" s)
                 /\ In (("recipe", VInt (fst r)),
                        ("ingredient", VStr (Py.lower (Py.strip x))),
                        "containsIngredient") (edges G).
Proof.
  intros Hload Hnd Htext Hx Hnb. cbv zeta.
  apply offered_from_row in Hx.
  destruct Hx as [_ [Hne [Hun [_ [r [Hr [Hna Hx]]]]]]].
  destruct (Htext r Hr) as [E | [s E]]; rewrite E in Hna, Hx; [discriminate Hna |].
  cbn [cell_obj str] in Hx.
  apply load_recipes_rows in Hload. subst recipes.
  pose proof (load_rows_row (rows recipes_df) r Hnd Hr) as Hrec.
  destruct (load_rows_keys (rows recipes_df) [] (NoDup_nil _)) as [Hkeys _].
  assert (Hlink : In ("ingredient", VStr (Py.lower (Py.strip x)))
                     (map link_node (ingredient_links (record_of r)))).
  { apply (offered_piece_link s x); try assumption.
    unfold record_of, row_cell. cbn. rewrite E. reflexivity. }
  assert (Hedge : In (("recipe", VInt (fst r)),
                      ("ingredient", VStr (Py.lower (Py.strip x))),
                      "containsIngredient")
                     (edges (fst (create_graph_and_triples
                                    (load_rows (rows recipes_df) []))))).
  { apply (ingredient_edges _ (fst r) (record_of r) _ _ Hkeys Hrec).
    split; [exact Hlink | reflexivity]. }
  split.
  - unfold create_graph_and_triples.
    destruct (recipes_fold_nodes (load_rows (rows recipes_df) []) (empty_graph, []))
      as [_ Hi]; [constructor |].
    apply Hi. right. right.
    eexists. split; [apply create_edges_In, Hedge | reflexivity].
  - exists r, s. auto.
Qed.

End OfferedIngredients.

Lemma offered_ingredient_has_node_witness :
  let r1 : row := (1%Z, fun c => if (c =? "BestUsdaIngredientName")%string
                                 then Val (PyStr "salt; Olive Oil") else NaN) in
  let r2 : row := (2%Z, fun _ => NaN) in
  In ("ingredient", graph_triples.VStr "olive oil")
     (graph_triples.node_ids
        (fst (graph_triples.create_graph_and_triples
                [(1%Z, graph_triples.record_of r1);
                 (2%Z, graph_triples.record_of r2)]))).
Proof.
  intros r1 r2.
  pose (df := mkDataFrame graph_triples.columns_to_keep [r1; r2]).
  assert (H1 : graph_triples.load_recipes_from_dataframe df
               = inr [(1%Z, graph_triples.record_of r1);
                      (2%Z, graph_triples.record_of r2)]) by reflexivity.
  assert (H2 : NoDup (map fst (rows df)))
    by (repeat constructor; cbn; intuition discriminate).
  assert (H3 : forall r, In r (rows df) ->
                         snd r "BestUsdaIngredientName" = NaN
                         \/ exists s, snd r "BestUsdaIngredientName" = Val (PyStr s)).
  { intros r [<- | [<- | []]]; [right; eexists; reflexivity | left; reflexivity]. }
  assert (H4 : In " Olive Oil"
                  (data_loading.get_unique_ingredients data_loading.same_text df))
    by (left; reflexivity).
  assert (H5 : Py.strip " Olive Oil" <> "") by discriminate.
  exact (proj1 (offered_ingredient_has_node data_loading.same_text df _ " Olive Oil"
                  H1 H2 H3 H4 H5)).
Defined.

(** ** Looking a recipe up by its id *)

Section RecipeLookup.

Import recommender routers.

Variable int_of : string -> option Z.

Lemma filter_none_iff (z : Z) (l : list row) :
  filter (fun r : row => Z.eqb (fst r) z) l = []
  <-> forall r, In r l -> fst r <> z.
Proof.
  induction l as [| a l IH]; cbn [filter].
  - split; [intros _ r [] | reflexivity].
  - destruct (Z.eqb_spec (fst a) z) as [E | E].
    + split; [discriminate |]. intros H. exfalso. apply (H a); [left; reflexivity | exact E].
    + rewrite IH. split.
      * intros H r [<- | Hr]; [exact E | apply H, Hr].
      * intros H r Hr. apply H. right. exact Hr.
Qed.

Lemma filter_first (z : Z) (l : list row) (r : row) (rest : list row) :
  filter (fun r : row => Z.eqb (fst r) z) l = r :: rest ->
  exists before after,
    l = (before ++ r :: after)%list /\ fst r = z
    /\ forall b, In b before -> fst b <> z.
Proof.
  induction l as [| a l IH]; cbn [filter]; [discriminate |].
  destruct (Z.eqb_spec (fst a) z) as [E | E].
  - intros H. injection H as Ha _. subst a.
    exists [], l. repeat split; [exact E | intros b []].
  - intros H. destruct (IH H) as [before [after [-> [Hz Hb]]]].
    exists (a :: before), after. repeat split; [exact Hz |].
    intros b [<- | Hin]; [exact E | apply Hb, Hin].
Qed.

(** X21: on a table with the column [RecipeId] the route answers 404 exactly
    when the text is no integer or no row has that id, and never because the
    record is empty; any other answer is the record of the first row with the
    id, one entry for every column in the order of the table, its [RecipeId]
    being the integer asked for. *)
Theorem recipe_by_id_spec (recipes_df : DataFrame) (recipe_id : string) :
  has_column recipes_df "RecipeId" = true ->
  get_recipe_by_id int_of recipes_df recipe_id
  = fetch_recipe_info int_of recipes_df recipe_id
  /\ (get_recipe_by_id int_of recipes_df recipe_id = inr None
      <-> int_of recipe_id = None
          \/ exists z, int_of recipe_id = Some z
                       /\ forall r, In r (rows recipes_df) -> fst r <> z)
  /\ (forall info,
        get_recipe_by_id int_of recipes_df recipe_id = inr (Some info) ->
        exists z before r after,
          int_of recipe_id = Some z
          /\ rows recipes_df = (before ++ r :: after)%list
          /\ fst r = z
          /\ (forall b, In b before -> fst b <> z)
          /\ info = map (fun col => (col, row_cell r col)) (columns recipes_df)
          /\ In ("RecipeId", PyOther (negb (Z.eqb z 0)) (Py.str_int z)) info).
Proof.
  intros Hcol.
  assert (Hne : columns recipes_df <> []).
  { unfold has_column in Hcol. destruct (columns recipes_df); [discriminate Hcol | discriminate]. }
  assert (Hid : forall r : row,
             In ("RecipeId", PyOther (negb (Z.eqb (fst r) 0)) (Py.str_int (fst r)))
                (map (fun col => (col, row_cell r col)) (columns recipes_df))).
  { intros r. unfold has_column in Hcol. apply existsb_exists in Hcol.
    destruct Hcol as [c [Hc Ec]]. apply String.eqb_eq in Ec. subst c.
    apply in_map_iff. exists "RecipeId". split; [reflexivity | exact Hc]. }
  unfold get_recipe_by_id, fetch_recipe_info. rewrite Hcol.
  destruct (int_of recipe_id) as [z |].
  - destruct (filter (fun r : row => Z.eqb (fst r) z) (rows recipes_df))
      as [| r rest] eqn:Ef.
    + split; [reflexivity |]. split.
      * split; [| reflexivity]. intros _. right. exists z. split; [reflexivity |].
        apply filter_none_iff, Ef.
      * intros info H. discriminate H.
    + destruct (columns recipes_df) as [| c cs] eqn:Ec; [contradiction Hne; reflexivity |].
      cbn [map]. split; [reflexivity |]. split.
      * split; [discriminate |]. intros [H | [z' [Hz H]]]; [discriminate H |].
        injection Hz as Hz. subst z'.
        apply filter_none_iff in H. rewrite H in Ef. discriminate Ef.
      * intros info H. injection H as H. subst info.
        destruct (filter_first z _ r rest Ef) as [before [after [Hr [Hz Hb]]]].
        exists z, before, r, after. repeat split; try assumption.
        specialize (Hid r). rewrite Hz in Hid. exact Hid.
  - split; [reflexivity |]. split.
    + split; [| reflexivity]. intros _. left. reflexivity.
    + intros info H. discriminate H.
Qed.

(** Without the column the lookup of a text that reads as an integer raises;
    a text that does not is answered 404 before the table is touched. *)
Lemma recipe_by_id_no_column (recipes_df : DataFrame) (recipe_id : string) :
  has_column recipes_df "RecipeId" = false ->
  get_recipe_by_id int_of recipes_df recipe_id
  = match int_of recipe_id with
    | Some _ => inl "'RecipeId'"
    | None => inr None
    end.
Proof.
  intros Hcol. unfold get_recipe_by_id, fetch_recipe_info. rewrite Hcol.
  destruct (int_of recipe_id); reflexivity.
Qed.

End RecipeLookup.

Lemma recipe_by_id_spec_witness :
  let int_of := fun s : string => if (s =? "7")%string then Some 7%Z else None in
  let df := mkDataFrame ["RecipeId"; "Name"]
              [(3%Z, fun _ => Val (PyStr "soup"));
               (7%Z, fun _ => Val (PyStr "stew"));
               (7%Z, fun _ => NaN)] in
  routers.get_recipe_by_id int_of df "7"
  = inr (Some [("RecipeId", PyOther true "7"); ("Name", PyStr "stew")])
  /\ routers.get_recipe_by_id int_of df "seven" = inr None.
Proof.
  intros int_of df.
  assert (H7 := recipe_by_id_spec int_of df "7" eq_refl).
  assert (Hs := recipe_by_id_spec int_of df "seven" eq_refl).
  split.
  - rewrite (proj1 H7). reflexivity.
  - apply (proj1 (proj2 Hs)). left. reflexivity.
Defined.
